(** * GraphBinary v1 codec of gremlin-python: a shallow embedding

    Source: gremlin_python/structure/io/graphbinaryV1.py.

    The module is read with Python 3 semantics: [str] is a sequence of code
    points, [bytes] and [bytearray] index to integers, and [buff.read(1)[0]]
    is an integer.  Values are the Python objects the codec handles; a
    [bytearray] under construction is a list of integers in [0, 255].

    Outside the embedding: the handlers whose payload is a floating point
    number (DateIO, TimestampIO, FloatIO, DoubleIO), LambdaIO (it evaluates a
    script) and TypeSerializer (it instantiates a class).  They keep their
    place in the registries; running one of them yields [Unmodelled]. *)

From Stdlib Require Import ZArith List Lia Bool String Ascii Permutation.
Import ListNotations.
Open Scope Z_scope.

Set Warnings "-register-all".

(** ** Outcomes of a Python call *)

(** The exceptions that occur; [StructError] is struct.error. *)
Inductive pyexn : Type :=
| Exception (msg : string)
| KeyError
| IndexError
| TypeError
| ValueError
| AttributeError (msg : string)
| NotImplementedError
| StructError
| UnicodeDecodeError
| UnicodeEncodeError.

(** A call returns, raises, reaches a handler outside the embedding, or,
    for the reader, which recurses on fuel, uses its fuel up. *)
Inductive result (A : Type) : Type :=
| Ok (a : A)
| Raise (e : pyexn)
| Unmodelled
| OutOfFuel.

Arguments Ok {A} a.
Arguments Raise {A} e.
Arguments Unmodelled {A}.
Arguments OutOfFuel {A}.

Definition bind {A B : Type} (m : result A) (k : A -> result B) : result B :=
  match m with
  | Ok a => k a
  | Raise e => Raise e
  | Unmodelled => Unmodelled
  | OutOfFuel => OutOfFuel
  end.

Declare Scope py_scope.
Delimit Scope py_scope with py.
Notation "x <- m ;; k" := (bind m (fun x => k))
  (at level 61, m at next level, right associativity) : py_scope.
Notation "' p <- m ;; k" := (bind m (fun p => k))
  (at level 61, p pattern, m at next level, right associativity) : py_scope.
Open Scope py_scope.

Fixpoint mapM {A B : Type} (f : A -> result B) (l : list A) : result (list B) :=
  match l with
  | [] => Ok []
  | a :: l' => b <- f a ;; bs <- mapM f l' ;; Ok (b :: bs)
  end.

(** ** struct.pack / struct.unpack, big-endian *)

(** The [n] low-order bytes of [v], most significant first. *)
Fixpoint be_bytes (n : nat) (v : Z) : list Z :=
  match n with
  | O => []
  | S k => (v / 2 ^ (8 * Z.of_nat k)) mod 256 :: be_bytes k v
  end.

Definition be_unsigned (bs : list Z) : Z :=
  fold_left (fun acc b => acc * 256 + b) bs 0.

Definition to_signed (n : nat) (u : Z) : Z :=
  if u <? 2 ^ (8 * Z.of_nat n - 1) then u else u - 2 ^ (8 * Z.of_nat n).

(** The integer formats the module uses: ">b", ">i", ">q". *)
Inductive fmt : Type := fmt_b | fmt_i | fmt_q.

Definition fmt_size (f : fmt) : nat :=
  match f with fmt_b => 1%nat | fmt_i => 4%nat | fmt_q => 8%nat end.

Definition fmt_min (f : fmt) : Z := - 2 ^ (8 * Z.of_nat (fmt_size f) - 1).
Definition fmt_max (f : fmt) : Z := 2 ^ (8 * Z.of_nat (fmt_size f) - 1) - 1.

(** [struct.pack(f, v)]: struct.error when [v] does not fit. *)
Definition struct_pack (f : fmt) (v : Z) : result (list Z) :=
  if (v <? fmt_min f) || (fmt_max f <? v) then Raise StructError
  else Ok (be_bytes (fmt_size f) v).

(** [struct.unpack(f, bs)[0]]: struct.error unless [bs] has the exact size. *)
Definition struct_unpack (f : fmt) (bs : list Z) : result Z :=
  if Nat.eqb (List.length bs) (fmt_size f)
  then Ok (to_signed (fmt_size f) (be_unsigned bs))
  else Raise StructError.

(** ** io.BytesIO as the list of bytes still to be read *)

Definition buffer : Type := list Z.

(** [buff.read(n)]: at most [n] bytes, fewer at the end of the data, and
    everything that is left when [n] is negative. *)
Definition buff_read (n : Z) (buff : buffer) : list Z * buffer :=
  if n <? 0 then (buff, [])
  else (firstn (Z.to_nat n) buff, skipn (Z.to_nat n) buff).

(** A read operation: from the buffer to an outcome and the buffer left. *)
Definition Rd (A : Type) : Type := buffer -> result (A * buffer).

Definition rd_ret {A : Type} (a : A) : Rd A := fun buff => Ok (a, buff).

Definition rd_bind {A B : Type} (m : Rd A) (k : A -> Rd B) : Rd B :=
  fun buff =>
    match m buff with
    | Ok (a, buff') => k a buff'
    | Raise e => Raise e
    | Unmodelled => Unmodelled
    | OutOfFuel => OutOfFuel
    end.

Definition rd_lift {A : Type} (m : result A) : Rd A :=
  fun buff => a <- m ;; Ok (a, buff).

Definition rd_read (n : Z) : Rd (list Z) := fun buff => Ok (buff_read n buff).

Declare Scope rd_scope.
Delimit Scope rd_scope with rd.
Notation "x <~ m ;; k" := (rd_bind m (fun x => k))
  (at level 61, m at next level, right associativity) : rd_scope.
Open Scope rd_scope.

(** ** str and its UTF-8 codec *)

(** A [str] is its sequence of code points. *)
Definition pystr : Type := list Z.

Definition of_string (s : string) : pystr :=
  map (fun a => Z.of_N (N_of_ascii a)) (list_ascii_of_string s).

Definition utf8_encode_char (c : Z) : result (list Z) :=
  if c <? 0x80 then Ok [c]
  else if c <? 0x800 then
    Ok [Z.lor 0xC0 (Z.shiftr c 6); Z.lor 0x80 (Z.land c 0x3F)]
  else if (0xD800 <=? c) && (c <=? 0xDFFF) then Raise UnicodeEncodeError
  else if c <? 0x10000 then
    Ok [Z.lor 0xE0 (Z.shiftr c 12);
        Z.lor 0x80 (Z.land (Z.shiftr c 6) 0x3F);
        Z.lor 0x80 (Z.land c 0x3F)]
  else
    Ok [Z.lor 0xF0 (Z.shiftr c 18);
        Z.lor 0x80 (Z.land (Z.shiftr c 12) 0x3F);
        Z.lor 0x80 (Z.land (Z.shiftr c 6) 0x3F);
        Z.lor 0x80 (Z.land c 0x3F)].

(** [s.encode("utf-8")] *)
Fixpoint utf8_encode (s : pystr) : result (list Z) :=
  match s with
  | [] => Ok []
  | c :: s' => bs <- utf8_encode_char c ;; rest <- utf8_encode s' ;; Ok (bs ++ rest)
  end.

Definition in_range (lo hi b : Z) : bool := (lo <=? b) && (b <=? hi).
Definition cont (b : Z) : Z := Z.land b 0x3F.

(** [bs.decode("utf-8")], strict: the well-formed byte sequences of the
    Unicode standard, anything else is a UnicodeDecodeError. *)
Fixpoint utf8_decode_fuel (fuel : nat) (bs : list Z) : result pystr :=
  match fuel with
  | O => match bs with [] => Ok [] | _ => OutOfFuel end
  | S fuel' =>
    match bs with
    | [] => Ok []
    | b0 :: r0 =>
      if in_range 0 0x7F b0 then
        s <- utf8_decode_fuel fuel' r0 ;; Ok (b0 :: s)
      else if in_range 0xC2 0xDF b0 then
        match r0 with
        | b1 :: r1 =>
          if in_range 0x80 0xBF b1 then
            s <- utf8_decode_fuel fuel' r1 ;;
            Ok (Z.lor (Z.shiftl (Z.land b0 0x1F) 6) (cont b1) :: s)
          else Raise UnicodeDecodeError
        | _ => Raise UnicodeDecodeError
        end
      else if in_range 0xE0 0xEF b0 then
        match r0 with
        | b1 :: b2 :: r2 =>
          if in_range (if b0 =? 0xE0 then 0xA0 else 0x80)
                      (if b0 =? 0xED then 0x9F else 0xBF) b1
             && in_range 0x80 0xBF b2 then
            s <- utf8_decode_fuel fuel' r2 ;;
            Ok (Z.lor (Z.shiftl (Z.land b0 0x0F) 12)
                  (Z.lor (Z.shiftl (cont b1) 6) (cont b2)) :: s)
          else Raise UnicodeDecodeError
        | _ => Raise UnicodeDecodeError
        end
      else if in_range 0xF0 0xF4 b0 then
        match r0 with
        | b1 :: b2 :: b3 :: r3 =>
          if in_range (if b0 =? 0xF0 then 0x90 else 0x80)
                      (if b0 =? 0xF4 then 0x8F else 0xBF) b1
             && in_range 0x80 0xBF b2 && in_range 0x80 0xBF b3 then
            s <- utf8_decode_fuel fuel' r3 ;;
            Ok (Z.lor (Z.shiftl (Z.land b0 0x07) 18)
                  (Z.lor (Z.shiftl (cont b1) 12)
                     (Z.lor (Z.shiftl (cont b2) 6) (cont b3))) :: s)
          else Raise UnicodeDecodeError
        | _ => Raise UnicodeDecodeError
        end
      else Raise UnicodeDecodeError
    end
  end.

Definition utf8_decode (bs : list Z) : result pystr :=
  utf8_decode_fuel (List.length bs) bs.

(** ** DataType: the wire type codes *)

Inductive DataType : Type :=
| dt_null | dt_int | dt_long | dt_string | dt_date | dt_timestamp | dt_clazz
| dt_double | dt_float | dt_list | dt_map | dt_set | dt_uuid | dt_edge
| dt_path | dt_property | dt_graph | dt_vertex | dt_vertexproperty
| dt_barrier | dt_binding | dt_bytecode | dt_cardinality | dt_column
| dt_direction | dt_operator | dt_order | dt_pick | dt_pop | dt_lambda_
| dt_p | dt_scope | dt_t | dt_traverser | dt_bigdecimal | dt_biginteger
| dt_byte | dt_bytebuffer | dt_short | dt_boolean | dt_textp
| dt_traversalstrategy | dt_bulkset | dt_tree | dt_metrics
| dt_traversalmetrics | dt_custom.

Definition DataType_members : list DataType :=
  [dt_null; dt_int; dt_long; dt_string; dt_date; dt_timestamp; dt_clazz;
   dt_double; dt_float; dt_list; dt_map; dt_set; dt_uuid; dt_edge; dt_path;
   dt_property; dt_graph; dt_vertex; dt_vertexproperty; dt_barrier;
   dt_binding; dt_bytecode; dt_cardinality; dt_column; dt_direction;
   dt_operator; dt_order; dt_pick; dt_pop; dt_lambda_; dt_p; dt_scope; dt_t;
   dt_traverser; dt_bigdecimal; dt_biginteger; dt_byte; dt_bytebuffer;
   dt_short; dt_boolean; dt_textp; dt_traversalstrategy; dt_bulkset; dt_tree;
   dt_metrics; dt_traversalmetrics; dt_custom].

(** [d.value] *)
Definition DataType_value (d : DataType) : Z :=
  match d with
  | dt_null => 0xfe | dt_int => 0x01 | dt_long => 0x02 | dt_string => 0x03
  | dt_date => 0x04 | dt_timestamp => 0x05 | dt_clazz => 0x06
  | dt_double => 0x07 | dt_float => 0x08 | dt_list => 0x09 | dt_map => 0x0a
  | dt_set => 0x0b | dt_uuid => 0x0c | dt_edge => 0x0d | dt_path => 0x0e
  | dt_property => 0x0f | dt_graph => 0x10 | dt_vertex => 0x11
  | dt_vertexproperty => 0x12 | dt_barrier => 0x13 | dt_binding => 0x14
  | dt_bytecode => 0x15 | dt_cardinality => 0x16 | dt_column => 0x17
  | dt_direction => 0x18 | dt_operator => 0x19 | dt_order => 0x1a
  | dt_pick => 0x1b | dt_pop => 0x1c | dt_lambda_ => 0x1d | dt_p => 0x1e
  | dt_scope => 0x1f | dt_t => 0x20 | dt_traverser => 0x21
  | dt_bigdecimal => 0x22 | dt_biginteger => 0x23 | dt_byte => 0x24
  | dt_bytebuffer => 0x25 | dt_short => 0x26 | dt_boolean => 0x27
  | dt_textp => 0x28 | dt_traversalstrategy => 0x29 | dt_bulkset => 0x2a
  | dt_tree => 0x2b | dt_metrics => 0x2c | dt_traversalmetrics => 0x2d
  | dt_custom => 0x00
  end.

(** [DataType(v)]: the member with that value, ValueError when none has it. *)
Definition DataType_of_value (v : Z) : result DataType :=
  match find (fun d => DataType_value d =? v) DataType_members with
  | Some d => Ok d
  | None => Raise ValueError
  end.

Definition DataType_eqb (a b : DataType) : bool :=
  DataType_value a =? DataType_value b.

(** ** The traversal enums and the Python objects of the codec *)

Inductive EnumClass : Type :=
| Barrier | Cardinality | Column | Direction | Operator | Order | Pick | Pop
| Scope | T.

(** The objects handed to the writer or built by the reader.  An element
    keeps the attributes the codec reads or sets, in the order in which the
    module passes them to the constructors of gremlin_python.structure.graph
    and gremlin_python.process.traversal: [Vertex(id, label)],
    [Edge(id, outV, label, inV)] with each endpoint vertex given by its id
    and label, [Property(key, value, element)],
    [VertexProperty(id, label, value, vertex)], [Path(labels, objects)],
    [Binding(key, value)], [Traverser(object, bulk)]; the element of a
    property and the vertex of a vertex property are never written and are
    read back as None, so they are left out.  A Bytecode instruction
    [[name, arg, ...]] is the pair of its name and arguments.  A set or a
    dict lists its entries in iteration order.  Labels, keys and names are
    strings. *)
Inductive value : Type :=
| VNone
| VObject (tag : Z)                  (* an instance of some other class *)
| VByteArray (ba : list Z)           (* bytearray *)
| VInt (z : Z)                       (* int *)
| VLong (z : Z)                      (* statics.long *)
| VBool (b : bool)
| VByte (z : Z)                      (* statics.SingleByte *)
| VStr (s : pystr)
| VByteBuffer (bs : list Z)          (* bytes *)
| VUuid (bs : list Z)                (* uuid.UUID, by its [bytes] *)
| VList (l : list value)
| VSet (l : list value)
| VMap (kvs : list (value * value))
| VEdge (id : value) (outV_id : value) (outV_label : pystr)
        (label : pystr) (inV_id : value) (inV_label : pystr)
| VPath (labels objects : value)
| VProperty (key : pystr) (val : value)
| VGraph
| VVertex (id : value) (label : pystr)
| VVertexProperty (id : value) (label : pystr) (val : value)
| VEnum (cls : EnumClass) (name : pystr)
| VBinding (key : pystr) (val : value)
| VBytecode (step_instructions source_instructions : list (pystr * list value))
| VP (operator : pystr) (val other : value)
| VTextP (operator : pystr) (val other : value)
| VTraverser (object : value) (bulk : Z).

(** The classes that occur as [type(obj)] or as a registry key. *)
Inductive pytype : Type :=
| PyNoneType | PyObject | PyByteArray
| PyInt | PyLong | PyBool | PySingleByte | PyStr | PyBytes | PyUUID
| PyList | PySet | PyDict | PyEdge | PyPath | PyProperty | PyGraph
| PyVertex | PyVertexProperty | PyEnum (cls : EnumClass) | PyBinding
| PyBytecode | PyP | PyTextP | PyTraverser
| PyDatetime | PyTimestamp | PyFloat | PyTypeType | PyFunctionType.

Definition EnumClass_eqb (a b : EnumClass) : bool :=
  match a, b with
  | Barrier, Barrier | Cardinality, Cardinality | Column, Column
  | Direction, Direction | Operator, Operator | Order, Order | Pick, Pick
  | Pop, Pop | Scope, Scope | T, T => true
  | _, _ => false
  end.

Definition pytype_eqb (a b : pytype) : bool :=
  match a, b with
  | PyNoneType, PyNoneType | PyObject, PyObject | PyByteArray, PyByteArray
  | PyInt, PyInt | PyLong, PyLong | PyBool, PyBool
  | PySingleByte, PySingleByte | PyStr, PyStr | PyBytes, PyBytes
  | PyUUID, PyUUID | PyList, PyList | PySet, PySet | PyDict, PyDict
  | PyEdge, PyEdge | PyPath, PyPath | PyProperty, PyProperty
  | PyGraph, PyGraph | PyVertex, PyVertex
  | PyVertexProperty, PyVertexProperty | PyBinding, PyBinding
  | PyBytecode, PyBytecode | PyP, PyP | PyTextP, PyTextP
  | PyTraverser, PyTraverser | PyDatetime, PyDatetime
  | PyTimestamp, PyTimestamp | PyFloat, PyFloat | PyTypeType, PyTypeType
  | PyFunctionType, PyFunctionType => true
  | PyEnum c, PyEnum d => EnumClass_eqb c d
  | _, _ => false
  end.

(** [type(obj)] *)
Definition type_of (obj : value) : pytype :=
  match obj with
  | VNone => PyNoneType
  | VObject _ => PyObject
  | VByteArray _ => PyByteArray
  | VInt _ => PyInt
  | VLong _ => PyLong
  | VBool _ => PyBool
  | VByte _ => PySingleByte
  | VStr _ => PyStr
  | VByteBuffer _ => PyBytes
  | VUuid _ => PyUUID
  | VList _ => PyList
  | VSet _ => PySet
  | VMap _ => PyDict
  | VEdge _ _ _ _ _ _ => PyEdge
  | VPath _ _ => PyPath
  | VProperty _ _ => PyProperty
  | VGraph => PyGraph
  | VVertex _ _ => PyVertex
  | VVertexProperty _ _ _ => PyVertexProperty
  | VEnum c _ => PyEnum c
  | VBinding _ _ => PyBinding
  | VBytecode _ _ => PyBytecode
  | VP _ _ _ => PyP
  | VTextP _ _ _ => PyTextP
  | VTraverser _ _ => PyTraverser
  end.

(** The direct base class, where it is one of the classes above:
    [bool], [statics.long] and [statics.SingleByte] derive from [int],
    [statics.timestamp] from [float], [TextP] from [P]. *)
Definition base_class (t : pytype) : option pytype :=
  match t with
  | PyBool | PyLong | PySingleByte => Some PyInt
  | PyTimestamp => Some PyFloat
  | PyTextP => Some PyP
  | _ => None
  end.

Definition issubclass (t key : pytype) : bool :=
  pytype_eqb t key ||
  match base_class t with
  | Some b => pytype_eqb b key
  | None => false
  end.

Definition isinstance (obj : value) (key : pytype) : bool :=
  issubclass (type_of obj) key.

(** ** The handler classes and the two registries *)

Inductive handler : Type :=
| LongIO | IntIO | DateIO | TimestampIO | FloatIO | DoubleIO | TypeSerializer
| StringIO | ListIO | SetIO | MapIO | UuidIO | EdgeIO | PathIO | PropertyIO
| TinkerGraphIO | VertexIO | VertexPropertyIO | BarrierIO | CardinalityIO
| ColumnIO | DirectionIO | OperatorIO | OrderIO | PickIO | PopIO | BindingIO
| BytecodeIO | LambdaIO | PIO | ScopeIO | TIO | TraverserIO | ByteIO
| ByteBufferIO | BooleanIO | TextPIO | BulkSetIO.

(** The classes whose name does not start with an underscore, in the order
    of their declaration. *)
Definition declared_classes : list handler :=
  [LongIO; IntIO; DateIO; TimestampIO; FloatIO; DoubleIO; TypeSerializer;
   StringIO; ListIO; SetIO; MapIO; UuidIO; EdgeIO; PathIO; PropertyIO;
   TinkerGraphIO; VertexIO; VertexPropertyIO; BarrierIO; CardinalityIO;
   ColumnIO; DirectionIO; OperatorIO; OrderIO; PickIO; PopIO; BindingIO;
   BytecodeIO; LambdaIO; PIO; ScopeIO; TIO; TraverserIO; ByteIO;
   ByteBufferIO; BooleanIO; TextPIO; BulkSetIO].

(** [cls.python_type], inherited where the class does not set it. *)
Definition python_type (cls : handler) : option pytype :=
  match cls with
  | LongIO => Some PyLong
  | IntIO => Some PyInt
  | DateIO => Some PyDatetime
  | TimestampIO => Some PyTimestamp
  | FloatIO | DoubleIO => Some PyFloat
  | TypeSerializer => Some PyTypeType
  | StringIO => Some PyStr
  | ListIO => Some PyList
  | SetIO => Some PySet
  | MapIO => Some PyDict
  | UuidIO => Some PyUUID
  | EdgeIO => Some PyEdge
  | PathIO => Some PyPath
  | PropertyIO => Some PyProperty
  | TinkerGraphIO => Some PyGraph
  | VertexIO => Some PyVertex
  | VertexPropertyIO => Some PyVertexProperty
  | BarrierIO => Some (PyEnum Barrier)
  | CardinalityIO => Some (PyEnum Cardinality)
  | ColumnIO => Some (PyEnum Column)
  | DirectionIO => Some (PyEnum Direction)
  | OperatorIO => Some (PyEnum Operator)
  | OrderIO => Some (PyEnum Order)
  | PickIO => Some (PyEnum Pick)
  | PopIO => Some (PyEnum Pop)
  | BindingIO => Some PyBinding
  | BytecodeIO => Some PyBytecode
  | LambdaIO => Some PyFunctionType
  | PIO => Some PyP
  | ScopeIO => Some (PyEnum Scope)
  | TIO => Some (PyEnum T)
  | TraverserIO => Some PyTraverser
  | ByteIO => Some PySingleByte
  | ByteBufferIO => Some PyBytes
  | BooleanIO => Some PyBool
  | TextPIO => Some PyTextP
  | BulkSetIO => None
  end.

(** [cls.graphbinary_type] *)
Definition graphbinary_type (cls : handler) : option DataType :=
  match cls with
  | LongIO => Some dt_long
  | IntIO => Some dt_int
  | DateIO => Some dt_date
  | TimestampIO => Some dt_timestamp
  | FloatIO => Some dt_float
  | DoubleIO => Some dt_double
  | TypeSerializer => None
  | StringIO => Some dt_string
  | ListIO => Some dt_list
  | SetIO => Some dt_set
  | MapIO => Some dt_map
  | UuidIO => Some dt_uuid
  | EdgeIO => Some dt_edge
  | PathIO => Some dt_path
  | PropertyIO => Some dt_property
  | TinkerGraphIO => Some dt_graph
  | VertexIO => Some dt_vertex
  | VertexPropertyIO => Some dt_vertexproperty
  | BarrierIO => Some dt_barrier
  | CardinalityIO => Some dt_cardinality
  | ColumnIO => Some dt_column
  | DirectionIO => Some dt_direction
  | OperatorIO => Some dt_operator
  | OrderIO => Some dt_order
  | PickIO => Some dt_pick
  | PopIO => Some dt_pop
  | BindingIO => Some dt_binding
  | BytecodeIO => Some dt_bytecode
  | LambdaIO => Some dt_lambda_
  | PIO => Some dt_p
  | ScopeIO => Some dt_scope
  | TIO => Some dt_t
  | TraverserIO => Some dt_traverser
  | ByteIO => Some dt_byte
  | ByteBufferIO => Some dt_bytebuffer
  | BooleanIO => Some dt_boolean
  | TextPIO => Some dt_textp
  | BulkSetIO => Some dt_bulkset
  end.

(** [cls.byte_format] of LongIO and of IntIO, which inherits LongIO.dictify
    (the formats of the float handlers are outside the embedding). *)
Definition byte_format (cls : handler) : fmt :=
  match cls with
  | IntIO => fmt_i
  | _ => fmt_q
  end.

(** [d[k] = v] on an insertion-ordered dict: a key already present keeps its
    place. *)
Fixpoint setitem {K V : Type} (eqb : K -> K -> bool)
         (d : list (K * V)) (k : K) (v : V) : list (K * V) :=
  match d with
  | [] => [(k, v)]
  | (k0, v0) :: d' =>
    if eqb k0 k then (k0, v) :: d' else (k0, v0) :: setitem eqb d' k v
  end.

Fixpoint getitem {K V : Type} (eqb : K -> K -> bool)
         (d : list (K * V)) (k : K) : option V :=
  match d with
  | [] => None
  | (k0, v0) :: d' => if eqb k0 k then Some v0 else getitem eqb d' k
  end.

(** GraphBinaryTypeType.__new__, run once per declared class. *)
Definition _serializers : list (pytype * handler) :=
  fold_left (fun reg cls =>
               match python_type cls with
               | Some t => setitem pytype_eqb reg t cls
               | None => reg
               end) declared_classes [].

Definition _deserializers : list (DataType * handler) :=
  fold_left (fun reg cls =>
               match graphbinary_type cls with
               | Some t => setitem DataType_eqb reg t cls
               | None => reg
               end) declared_classes [].

(** ** _GraphBinaryTypeIO: the shared class methods *)

Definition symbolMap : list (string * string) :=
  [("global_", "global"); ("as_", "as"); ("in_", "in"); ("and_", "and");
   ("or_", "or"); ("is_", "is"); ("not_", "not"); ("from_", "from");
   ("set_", "set"); ("list_", "list"); ("all_", "all"); ("with_", "with");
   ("filter_", "filter"); ("id_", "id"); ("max_", "max"); ("min_", "min");
   ("sum_", "sum")]%string.

Definition pystr_eqb (a b : pystr) : bool :=
  if list_eq_dec Z.eq_dec a b then true else false.

(** [cls.symbolMap.get(symbol, symbol)] *)
Definition unmangleKeyword (symbol : pystr) : pystr :=
  match getitem pystr_eqb
          (map (fun kv => (of_string (fst kv), of_string (snd kv))) symbolMap)
          symbol with
  | Some s => s
  | None => symbol
  end.

Definition write_as_value (graph_binary_type : option DataType)
           (as_value : bool) : option DataType :=
  if as_value then None else graph_binary_type.

(** [len(x)] as the integer Python computes. *)
Definition len {A : Type} (l : list A) : Z := Z.of_nat (List.length l).

Fixpoint as_bytes_args (ba : list Z) (args : list value) : result (list Z) :=
  match args with
  | [] => Ok ba
  | VByteBuffer bs :: args' | VByteArray bs :: args' =>
    as_bytes_args (ba ++ bs) args'
  | _ :: _ => Raise (Exception "MISSING")
  end.

Definition as_bytes (graphbin_type : option DataType) (size : option Z)
           (args : list value) : result value :=
  let ba := match graphbin_type with
            | None => []
            | Some t => [DataType_value t]
            end in
  flag <- struct_pack fmt_b 0 ;;
  let ba := ba ++ flag in
  ba <- match size with
        | Some n => bs <- struct_pack fmt_i n ;; Ok (ba ++ bs)
        | None => Ok ba
        end ;;
  ba <- as_bytes_args ba args ;;
  Ok (VByteArray ba).

Definition string_as_bytes (s : pystr) : result (list Z) :=
  n <- struct_pack fmt_i (len s) ;;
  bs <- utf8_encode s ;;
  Ok (n ++ bs).

Definition read_int : Rd Z :=
  bs <~ rd_read 4 ;; rd_lift (struct_unpack fmt_i bs).

Definition read_string : Rd pystr :=
  n <~ read_int ;; bs <~ rd_read n ;; rd_lift (utf8_decode bs).

(** [None if buff.read(1)[0] == 0x01 else else_opt(buff, reader)] *)
Definition is_null (else_opt : Rd value) : Rd value :=
  bt <~ rd_read 1 ;;
  match bt with
  | [] => rd_lift (Raise IndexError)
  | b :: _ => if b =? 0x01 then rd_ret VNone else else_opt
  end.

(** ** The built-in operations the module relies on *)

(** [ba.extend(x)]: a bytes or bytearray argument is appended; a list, a
    set or the keys of a dict must be integers in range(256); an empty str
    adds nothing; [None] and an [object()] cannot be iterated. *)
Definition index_byte (v : value) : result Z :=
  match v with
  | VInt z | VLong z | VByte z =>
    if in_range 0 255 z then Ok z else Raise ValueError
  | VBool b => Ok (if b then 1 else 0)
  | _ => Raise TypeError
  end.

Definition bytearray_extend (ba : list Z) (x : value) : result (list Z) :=
  match x with
  | VByteArray bs | VByteBuffer bs => Ok (ba ++ bs)
  | VList l | VSet l => bs <- mapM index_byte l ;; Ok (ba ++ bs)
  | VMap kvs => bs <- mapM index_byte (map fst kvs) ;; Ok (ba ++ bs)
  | VStr [] => Ok ba
  | _ => Raise TypeError
  end.

(** [for a in additional: ba.extend(a)] *)
Fixpoint extend_each (ba : list Z) (additional : list value)
  : result (list Z) :=
  match additional with
  | [] => Ok ba
  | a :: l' => ba' <- bytearray_extend ba a ;; extend_each ba' l'
  end.

(** The integer an int, long, SingleByte or bool stands for. *)
Definition as_int (obj : value) : option Z :=
  match obj with
  | VInt z | VLong z | VByte z => Some z
  | VBool b => Some (if b then 1 else 0)
  | _ => None
  end.

(** Hashing and equality of objects are defined by their classes, which
    live in other modules; dict and set take them as given. *)
Section Containers.

Variable py_hashable : value -> bool.      (* hash(x) does not raise *)
Variable py_eq : value -> value -> bool.   (* x == y, for hashable x, y *)

(** [the_dict[k] = v] *)
Definition dict_setitem (d : list (value * value)) (k v : value)
  : result (list (value * value)) :=
  if py_hashable k then Ok (setitem py_eq d k v) else Raise TypeError.

(** The dict obtained by setting the pairs one after the other. *)
Fixpoint dict_of (d : list (value * value)) (pairs : list (value * value))
  : result (list (value * value)) :=
  match pairs with
  | [] => Ok d
  | (k, v) :: pairs' => d' <- dict_setitem d k v ;; dict_of d' pairs'
  end.

Definition set_add (s : list value) (x : value) : result (list value) :=
  if py_hashable x
  then Ok (if existsb (py_eq x) s then s else s ++ [x])
  else Raise TypeError.

(** [set(items)] *)
Fixpoint set_of (s : list value) (items : list value) : result (list value) :=
  match items with
  | [] => Ok s
  | x :: items' => s' <- set_add s x ;; set_of s' items'
  end.

End Containers.

(** ** dictify: the serializing half of each handler *)

Section Dictify.

(** [writer.writeObject] *)
Variable writeObject : value -> result value.

(** [ba.extend(writer.writeObject(x))] *)
Definition extend_object (ba : list Z) (x : value) : result (list Z) :=
  r <- writeObject x ;; bytearray_extend ba r.

Definition extend_string (ba : list Z) (s : pystr) : result (list Z) :=
  bs <- string_as_bytes s ;; Ok (ba ++ bs).

Definition extend_null (ba : list Z) : list Z :=
  ba ++ [DataType_value dt_null].

Fixpoint extend_objects (ba : list Z) (items : list value)
  : result (list Z) :=
  match items with
  | [] => Ok ba
  | item :: items' => ba' <- extend_object ba item ;; extend_objects ba' items'
  end.

Definition LongIO_dictify (cls : handler) (obj : value) (as_value : bool)
  : result value :=
  match as_int obj with
  | None => Raise TypeError
  | Some z =>
    if (z <? -9223372036854775808) || (z >? 9223372036854775807)
    then Raise (Exception "TODO: don't forget bigint")
    else
      bs <- struct_pack (byte_format cls) z ;;
      as_bytes (write_as_value (graphbinary_type cls) as_value) None
               [VByteBuffer bs]
  end.

Definition StringIO_dictify (cls : handler) (obj : value) (as_value : bool)
  : result value :=
  match obj with
  | VStr s =>
    bs <- utf8_encode s ;;
    as_bytes (write_as_value (graphbinary_type cls) as_value)
             (Some (len s)) [VByteBuffer bs]
  | _ => Raise TypeError
  end.

Definition ListIO_dictify (cls : handler) (obj : value) (as_value : bool)
  : result value :=
  match obj with
  | VList l | VSet l =>
    list_data <- extend_objects [] l ;;
    as_bytes (write_as_value (graphbinary_type cls) as_value)
             (Some (len l)) [VByteArray list_data]
  | _ => Raise TypeError
  end.

Fixpoint extend_items (ba : list Z) (items : list (value * value))
  : result (list Z) :=
  match items with
  | [] => Ok ba
  | (k, v) :: items' =>
    ba1 <- extend_object ba k ;;
    ba2 <- extend_object ba1 v ;;
    extend_items ba2 items'
  end.

Definition MapIO_dictify (cls : handler) (obj : value) (as_value : bool)
  : result value :=
  match obj with
  | VMap kvs =>
    map_data <- extend_items [] kvs ;;
    as_bytes (write_as_value (graphbinary_type cls) as_value)
             (Some (len kvs)) [VByteArray map_data]
  | _ => Raise (AttributeError "items")
  end.

Definition UuidIO_dictify (cls : handler) (obj : value) (as_value : bool)
  : result value :=
  match obj with
  | VUuid bs =>
    as_bytes (write_as_value (graphbinary_type cls) as_value) None
             [VByteBuffer bs]
  | _ => Raise (AttributeError "bytes")
  end.

Definition EdgeIO_dictify (cls : handler) (obj : value) (as_value : bool)
  : result value :=
  match obj with
  | VEdge id outV_id outV_label label inV_id inV_label =>
    ba <- extend_object [] id ;;
    ba <- extend_string ba label ;;
    ba <- extend_object ba inV_id ;;
    ba <- extend_string ba inV_label ;;
    ba <- extend_object ba outV_id ;;
    ba <- extend_string ba outV_label ;;
    let ba := extend_null ba in
    let ba := extend_null ba in
    as_bytes (write_as_value (graphbinary_type cls) as_value) None
             [VByteArray ba]
  | _ => Raise (AttributeError "id")
  end.

Definition PathIO_dictify (cls : handler) (obj : value) (as_value : bool)
  : result value :=
  match obj with
  | VPath labels objects =>
    ba <- extend_object [] labels ;;
    ba <- extend_object ba objects ;;
    as_bytes (write_as_value (graphbinary_type cls) as_value) None
             [VByteArray ba]
  | _ => Raise (AttributeError "labels")
  end.

Definition PropertyIO_dictify (cls : handler) (obj : value) (as_value : bool)
  : result value :=
  match obj with
  | VProperty key val =>
    ba <- extend_string [] key ;;
    ba <- extend_object ba val ;;
    let ba := extend_null ba in
    as_bytes (write_as_value (graphbinary_type cls) as_value) None
             [VByteArray ba]
  | _ => Raise (AttributeError "key")
  end.

Definition TinkerGraphIO_dictify (cls : handler) (obj : value)
           (as_value : bool) : result value :=
  Raise (AttributeError
    "TinkerGraph serialization is not currently supported by gremlin-python").

Definition VertexIO_dictify (cls : handler) (obj : value) (as_value : bool)
  : result value :=
  match obj with
  | VVertex id label =>
    ba <- extend_object [] id ;;
    ba <- extend_string ba label ;;
    let ba := extend_null ba in
    as_bytes (write_as_value (graphbinary_type cls) as_value) None
             [VByteArray ba]
  | _ => Raise (AttributeError "id")
  end.

Definition VertexPropertyIO_dictify (cls : handler) (obj : value)
           (as_value : bool) : result value :=
  match obj with
  | VVertexProperty id label val =>
    ba <- extend_object [] id ;;
    ba <- extend_string ba label ;;
    ba <- extend_object ba val ;;
    let ba := extend_null ba in
    let ba := extend_null ba in
    as_bytes (write_as_value (graphbinary_type cls) as_value) None
             [VByteArray ba]
  | _ => Raise (AttributeError "id")
  end.

Definition _EnumIO_dictify (cls : handler) (obj : value) (as_value : bool)
  : result value :=
  match obj with
  | VEnum _ name =>
    ba <- extend_string [] (unmangleKeyword name) ;;
    as_bytes (write_as_value (graphbinary_type cls) as_value) None
             [VByteArray ba]
  | _ => Raise (AttributeError "name")
  end.

Definition BindingIO_dictify (cls : handler) (obj : value) (as_value : bool)
  : result value :=
  match obj with
  | VBinding key val =>
    ba <- extend_string [] key ;;
    ba <- extend_object ba val ;;
    as_bytes (write_as_value (graphbinary_type cls) as_value) None
             [VByteArray ba]
  | _ => Raise (AttributeError "key")
  end.

(** One pass of [for inst in obj.step_instructions] (the loop over the
    source instructions has the same body). *)
Fixpoint extend_instructions (ba : list Z)
         (insts : list (pystr * list value)) : result (list Z) :=
  match insts with
  | [] => Ok ba
  | (inst_name, inst_args) :: insts' =>
    ba <- extend_string ba inst_name ;;
    n <- struct_pack fmt_i (len inst_args) ;;
    ba <- extend_objects (ba ++ n) inst_args ;;
    extend_instructions ba insts'
  end.

Definition BytecodeIO_dictify (cls : handler) (obj : value) (as_value : bool)
  : result value :=
  match obj with
  | VBytecode step_instructions source_instructions =>
    n <- struct_pack fmt_i (len step_instructions) ;;
    ba <- extend_instructions n step_instructions ;;
    n <- struct_pack fmt_i (len source_instructions) ;;
    ba <- extend_instructions (ba ++ n) source_instructions ;;
    as_bytes (write_as_value (graphbinary_type cls) as_value) None
             [VByteArray ba]
  | _ => Raise (AttributeError "step_instructions")
  end.

(** The body PIO.dictify and TextPIO.dictify share word for word. *)
Definition P_dictify_body (cls : handler) (operator : pystr)
           (val other : value) (as_value : bool) : result value :=
  let ba := if as_value then []
            else match graphbinary_type cls with
                 | Some t => [DataType_value t]
                 | None => []
                 end in
  ba <- extend_string ba operator ;;
  additional <-
    match other with
    | VNone => a <- writeObject val ;; Ok [a]
    | _ => a <- writeObject val ;; b <- writeObject other ;; Ok [a; b]
    end ;;
  n <- struct_pack fmt_i (len additional) ;;
  ba <- extend_each (ba ++ n) additional ;;
  Ok (VByteArray ba).

Definition PIO_dictify (cls : handler) (obj : value) (as_value : bool)
  : result value :=
  match obj with
  | VP operator val other | VTextP operator val other =>
    P_dictify_body cls operator val other as_value
  | _ => Raise (AttributeError "operator")
  end.

Definition TextPIO_dictify (cls : handler) (obj : value) (as_value : bool)
  : result value :=
  match obj with
  | VP operator val other | VTextP operator val other =>
    P_dictify_body cls operator val other as_value
  | _ => Raise (AttributeError "operator")
  end.

Definition TraverserIO_dictify (cls : handler) (obj : value)
           (as_value : bool) : result value :=
  match obj with
  | VTraverser object bulk =>
    bs <- struct_pack fmt_q bulk ;;
    ba <- extend_object bs object ;;
    as_bytes (write_as_value (graphbinary_type cls) as_value) None
             [VByteArray ba]
  | _ => Raise (AttributeError "bulk")
  end.

Definition ByteIO_dictify (cls : handler) (obj : value) (as_value : bool)
  : result value :=
  match as_int obj with
  | Some z =>
    bs <- struct_pack fmt_b z ;;
    as_bytes (write_as_value (graphbinary_type cls) as_value) None
             [VByteBuffer bs]
  | None => Raise StructError
  end.

Definition ByteBufferIO_dictify (cls : handler) (obj : value)
           (as_value : bool) : result value :=
  match obj with
  | VByteBuffer bs | VByteArray bs =>
    as_bytes (write_as_value (graphbinary_type cls) as_value)
             (Some (len bs)) [obj]
  | _ => Raise TypeError
  end.

Definition BooleanIO_dictify (cls : handler) (obj : value) (as_value : bool)
  : result value :=
  match obj with
  | VBool b =>
    bs <- struct_pack fmt_b (if b then 0x01 else 0x00) ;;
    as_bytes (write_as_value (graphbinary_type cls) as_value) None
             [VByteBuffer bs]
  | _ => Raise TypeError
  end.

(** [cls.dictify(obj, writer, as_value)], resolved along the class
    hierarchy: IntIO takes LongIO's method, SetIO takes ListIO's, the enum
    classes take _EnumIO's; BulkSetIO has none of its own and the base
    method, which is not a class method, is short of an argument. *)
Definition dictify (cls : handler) (obj : value) (as_value : bool)
  : result value :=
  match cls with
  | LongIO | IntIO => LongIO_dictify cls obj as_value
  | DateIO | TimestampIO | FloatIO | DoubleIO | TypeSerializer | LambdaIO =>
    Unmodelled
  | StringIO => StringIO_dictify cls obj as_value
  | ListIO | SetIO => ListIO_dictify cls obj as_value
  | MapIO => MapIO_dictify cls obj as_value
  | UuidIO => UuidIO_dictify cls obj as_value
  | EdgeIO => EdgeIO_dictify cls obj as_value
  | PathIO => PathIO_dictify cls obj as_value
  | PropertyIO => PropertyIO_dictify cls obj as_value
  | TinkerGraphIO => TinkerGraphIO_dictify cls obj as_value
  | VertexIO => VertexIO_dictify cls obj as_value
  | VertexPropertyIO => VertexPropertyIO_dictify cls obj as_value
  | BarrierIO | CardinalityIO | ColumnIO | DirectionIO | OperatorIO
  | OrderIO | PickIO | PopIO | ScopeIO | TIO =>
    _EnumIO_dictify cls obj as_value
  | BindingIO => BindingIO_dictify cls obj as_value
  | BytecodeIO => BytecodeIO_dictify cls obj as_value
  | PIO => PIO_dictify cls obj as_value
  | TraverserIO => TraverserIO_dictify cls obj as_value
  | ByteIO => ByteIO_dictify cls obj as_value
  | ByteBufferIO => ByteBufferIO_dictify cls obj as_value
  | BooleanIO => BooleanIO_dictify cls obj as_value
  | TextPIO => TextPIO_dictify cls obj as_value
  | BulkSetIO => Raise TypeError
  end.

End Dictify.

(** ** GraphBinaryWriter *)

Section Writer.

Variable py_hashable : value -> bool.
Variable py_eq : value -> value -> bool.

(** [self.serializers] of a writer built without a serializer_map. *)
Definition serializers : list (pytype * handler) := _serializers.

(** The body of [toDict]; [toDict] stands for the method itself, which the
    body calls on the entries of a container and hands to the handlers as
    the writer. *)
Definition toDict_body (toDict : value -> result value) (obj : value)
  : result value :=
  let after_KeyError :=
    match find (fun item => isinstance obj (fst item)) serializers with
    | Some (_, serializer) => dictify toDict serializer obj false
    | None =>
      if isinstance obj PyDict then
        match obj with
        | VMap kvs =>
          d <- (fix each (d : list (value * value))
                    (kvs : list (value * value)) :=
                  match kvs with
                  | [] => Ok d
                  | (k, v) :: kvs' =>
                    k' <- toDict k ;; v' <- toDict v ;;
                    d' <- dict_setitem py_hashable py_eq d k' v' ;;
                    each d' kvs'
                  end) [] kvs ;;
          Ok (VMap d)
        | _ => Raise (AttributeError "items")
        end
      else if isinstance obj PySet then
        match obj with
        | VSet l =>
          items <- mapM toDict l ;;
          s <- set_of py_hashable py_eq [] items ;;
          Ok (VSet s)
        | _ => Raise TypeError
        end
      else if isinstance obj PyList then
        match obj with
        | VList l => items <- mapM toDict l ;; Ok (VList items)
        | _ => Raise TypeError
        end
      else Ok obj
    end in
  match getitem pytype_eqb serializers (type_of obj) with
  | Some serializer =>
    match dictify toDict serializer obj false with
    | Raise KeyError => after_KeyError
    | r => r
    end
  | None => after_KeyError
  end.

Fixpoint toDict (obj : value) {struct obj} : result value :=
  toDict_body toDict obj.

Definition writeObject (objectData : value) : result value :=
  toDict objectData.

End Writer.

(** ** objectify: the deserializing half of each handler *)

Section Objectify.

Variable py_hashable : value -> bool.
Variable py_eq : value -> value -> bool.

(** The member names of each enum class ([cls.python_type[name]] looks a
    member up by name); the classes are declared in another module. *)
Variable enum_members : EnumClass -> list pystr.

(** [r.readObject(b)] on the buffer being read. *)
Variable readObject : Rd value.

Definition rd_raise {A : Type} (e : pyexn) : Rd A := rd_lift (Raise e).

Definition rd_unmodelled {A : Type} : Rd A := fun _ => Unmodelled.

(** struct.unpack yields a plain int, whatever class the writer saw. *)
Definition LongIO_objectify (cls : handler) : Rd value :=
  is_null (bs <~ rd_read 8 ;;
           z <~ rd_lift (struct_unpack (byte_format cls) bs) ;;
           rd_ret (VInt z)).

Definition IntIO_objectify (cls : handler) : Rd value :=
  is_null (z <~ read_int ;; rd_ret (VInt z)).

Definition StringIO_objectify (cls : handler) : Rd value :=
  is_null (n <~ read_int ;;
           bs <~ rd_read n ;;
           s <~ rd_lift (utf8_decode bs) ;;
           rd_ret (VStr s)).

(** [while size > 0] of _read_list; [fuel] bounds the iterations. *)
Fixpoint _read_list_loop (fuel : nat) (size : Z) (the_list : list value)
  : Rd (list value) :=
  match fuel with
  | O => fun _ => OutOfFuel
  | S fuel' =>
    if size >? 0 then
      x <~ readObject ;;
      _read_list_loop fuel' (size - 1) (the_list ++ [x])
    else rd_ret the_list
  end.

Definition _read_list (fuel : nat) : Rd value :=
  size <~ read_int ;;
  the_list <~ _read_list_loop fuel size [] ;;
  rd_ret (VList the_list).

Definition ListIO_objectify (fuel : nat) (cls : handler) : Rd value :=
  is_null (_read_list fuel).

(** [set(ListIO.objectify(buff, reader, as_value))] *)
Definition SetIO_objectify (fuel : nat) (cls : handler) : Rd value :=
  l <~ ListIO_objectify fuel ListIO ;;
  match l with
  | VList items =>
    s <~ rd_lift (set_of py_hashable py_eq [] items) ;; rd_ret (VSet s)
  | _ => rd_raise TypeError
  end.

Fixpoint _read_map_loop (fuel : nat) (size : Z)
         (the_dict : list (value * value)) : Rd (list (value * value)) :=
  match fuel with
  | O => fun _ => OutOfFuel
  | S fuel' =>
    if size >? 0 then
      k <~ readObject ;;
      v <~ readObject ;;
      d <~ rd_lift (dict_setitem py_hashable py_eq the_dict k v) ;;
      _read_map_loop fuel' (size - 1) d
    else rd_ret the_dict
  end.

Definition _read_map (fuel : nat) : Rd value :=
  size <~ read_int ;;
  the_dict <~ _read_map_loop fuel size [] ;;
  rd_ret (VMap the_dict).

Definition MapIO_objectify (fuel : nat) (cls : handler) : Rd value :=
  is_null (_read_map fuel).

(** [uuid.UUID(bytes=b.read(16))] *)
Definition UuidIO_objectify (cls : handler) : Rd value :=
  is_null (bs <~ rd_read 16 ;;
           if Nat.eqb (List.length bs) 16 then rd_ret (VUuid bs)
           else rd_raise ValueError).

Definition _read_edge : Rd value :=
  edgeid <~ readObject ;;
  edgelbl <~ read_string ;;
  id1 <~ readObject ;;
  label1 <~ read_string ;;
  id2 <~ readObject ;;
  label2 <~ read_string ;;
  _ <~ rd_read 2 ;;
  rd_ret (VEdge edgeid id1 label1 edgelbl id2 label2).

Definition EdgeIO_objectify (cls : handler) : Rd value :=
  is_null _read_edge.

Definition PathIO_objectify (cls : handler) : Rd value :=
  is_null (labels <~ readObject ;;
           objects <~ readObject ;;
           rd_ret (VPath labels objects)).

Definition _read_property : Rd value :=
  key <~ read_string ;;
  val <~ readObject ;;
  _ <~ rd_read 1 ;;
  rd_ret (VProperty key val).

Definition PropertyIO_objectify (cls : handler) : Rd value :=
  is_null _read_property.

Definition TinkerGraphIO_objectify (cls : handler) : Rd value :=
  rd_raise (AttributeError
    "TinkerGraph deserialization is not currently supported by gremlin-python").

Definition _read_vertex : Rd value :=
  id <~ readObject ;;
  label <~ read_string ;;
  _ <~ rd_read 1 ;;
  rd_ret (VVertex id label).

Definition VertexIO_objectify (cls : handler) : Rd value :=
  is_null _read_vertex.

Definition _read_vertexproperty : Rd value :=
  id <~ readObject ;;
  label <~ read_string ;;
  val <~ readObject ;;
  _ <~ rd_read 1 ;;
  _ <~ rd_read 1 ;;
  rd_ret (VVertexProperty id label val).

Definition VertexPropertyIO_objectify (cls : handler) : Rd value :=
  is_null _read_vertexproperty.

(** [cls.python_type[name]] *)
Definition enum_getitem (cls : handler) (name : pystr) : result value :=
  match python_type cls with
  | Some (PyEnum c) =>
    if existsb (pystr_eqb name) (enum_members c) then Ok (VEnum c name)
    else Raise KeyError
  | _ => Raise TypeError
  end.

Definition _EnumIO_objectify (cls : handler) : Rd value :=
  is_null (name <~ read_string ;; rd_lift (enum_getitem cls name)).

Definition BindingIO_objectify (cls : handler) : Rd value :=
  is_null (key <~ read_string ;;
           val <~ readObject ;;
           rd_ret (VBinding key val)).

(** [while iy < inst_ct] *)
Fixpoint _read_args (fuel : nat) (inst_ct iy : Z) (args : list value)
  : Rd (list value) :=
  match fuel with
  | O => fun _ => OutOfFuel
  | S fuel' =>
    if iy <? inst_ct then
      x <~ readObject ;;
      _read_args fuel' inst_ct (iy + 1) (args ++ [x])
    else rd_ret args
  end.

(** [while ix < step_count] (and the same loop over the sources). *)
Fixpoint _read_instructions (fuel : nat) (count ix : Z)
         (insts : list (pystr * list value))
  : Rd (list (pystr * list value)) :=
  match fuel with
  | O => fun _ => OutOfFuel
  | S fuel' =>
    if ix <? count then
      name <~ read_string ;;
      inst_ct <~ read_int ;;
      args <~ _read_args fuel' inst_ct 0 [] ;;
      _read_instructions fuel' count (ix + 1) (insts ++ [(name, args)])
    else rd_ret insts
  end.

Definition _read_bytecode (fuel : nat) : Rd value :=
  step_count <~ read_int ;;
  steps <~ _read_instructions fuel step_count 0 [] ;;
  source_count <~ read_int ;;
  sources <~ _read_instructions fuel source_count 0 [] ;;
  rd_ret (VBytecode steps sources).

Definition BytecodeIO_objectify (fuel : nat) (cls : handler) : Rd value :=
  is_null (_read_bytecode fuel).

Definition _read_traverser : Rd value :=
  bs <~ rd_read 8 ;;
  bulk <~ rd_lift (struct_unpack fmt_q bs) ;;
  obj <~ readObject ;;
  rd_ret (VTraverser obj bulk).

Definition TraverserIO_objectify (cls : handler) : Rd value :=
  is_null _read_traverser.

Definition ByteIO_objectify (cls : handler) : Rd value :=
  is_null (bs <~ rd_read 1 ;;
           z <~ rd_lift (struct_unpack fmt_b bs) ;;
           rd_ret (VByte z)).

Definition _read_bytebuffer : Rd value :=
  size <~ read_int ;;
  bs <~ rd_read size ;;
  rd_ret (VByteBuffer bs).

Definition ByteBufferIO_objectify (cls : handler) : Rd value :=
  is_null _read_bytebuffer.

Definition BooleanIO_objectify (cls : handler) : Rd value :=
  is_null (bs <~ rd_read 1 ;;
           z <~ rd_lift (struct_unpack fmt_b bs) ;;
           rd_ret (VBool (z =? 0x01))).

Fixpoint _read_bulkset_loop (fuel : nat) (size : Z) (the_list : list value)
  : Rd (list value) :=
  match fuel with
  | O => fun _ => OutOfFuel
  | S fuel' =>
    if size >? 0 then
      itm <~ readObject ;;
      bulk <~ read_int ;;
      _read_bulkset_loop fuel' (size - 1)
                         (the_list ++ repeat itm (Z.to_nat bulk))
    else rd_ret the_list
  end.

Definition _read_bulkset (fuel : nat) : Rd value :=
  size <~ read_int ;;
  the_list <~ _read_bulkset_loop fuel size [] ;;
  rd_ret (VList the_list).

Definition BulkSetIO_objectify (fuel : nat) (cls : handler) : Rd value :=
  is_null (_read_bulkset fuel).

(** [cls.objectify(buff, reader)].  The float-valued handlers read the flag
    and then a payload outside the embedding.  LambdaIO, PIO, TextPIO and
    TypeSerializer have no objectify of their own, and the base method,
    which is not a class method, is short of an argument when it is called
    on the class: the call raises TypeError before the body is reached. *)
Definition objectify (fuel : nat) (cls : handler) : Rd value :=
  match cls with
  | LongIO => LongIO_objectify cls
  | IntIO => IntIO_objectify cls
  | DateIO | TimestampIO | FloatIO | DoubleIO => is_null rd_unmodelled
  | TypeSerializer | LambdaIO | PIO | TextPIO => rd_raise TypeError
  | StringIO => StringIO_objectify cls
  | ListIO => ListIO_objectify fuel cls
  | SetIO => SetIO_objectify fuel cls
  | MapIO => MapIO_objectify fuel cls
  | UuidIO => UuidIO_objectify cls
  | EdgeIO => EdgeIO_objectify cls
  | PathIO => PathIO_objectify cls
  | PropertyIO => PropertyIO_objectify cls
  | TinkerGraphIO => TinkerGraphIO_objectify cls
  | VertexIO => VertexIO_objectify cls
  | VertexPropertyIO => VertexPropertyIO_objectify cls
  | BarrierIO | CardinalityIO | ColumnIO | DirectionIO | OperatorIO
  | OrderIO | PickIO | PopIO | ScopeIO | TIO => _EnumIO_objectify cls
  | BindingIO => BindingIO_objectify cls
  | BytecodeIO => BytecodeIO_objectify fuel cls
  | TraverserIO => TraverserIO_objectify cls
  | ByteIO => ByteIO_objectify cls
  | ByteBufferIO => ByteBufferIO_objectify cls
  | BooleanIO => BooleanIO_objectify cls
  | BulkSetIO => BulkSetIO_objectify fuel cls
  end.

End Objectify.

(** ** GraphBinaryReader *)

Section Reader.

Variable py_hashable : value -> bool.
Variable py_eq : value -> value -> bool.
Variable enum_members : EnumClass -> list pystr.

(** [self.deserializers] of a reader built without a deserializer_map. *)
Definition deserializers : list (DataType * handler) := _deserializers.

Fixpoint toObject (fuel : nat) : Rd value :=
  match fuel with
  | O => fun _ => OutOfFuel
  | S fuel' =>
    bt <~ rd_read 1 ;;
    match bt with
    | [] => rd_raise IndexError
    | b :: _ =>
      if b =? DataType_value dt_null then rd_ret VNone
      else
        bt_value <~ rd_lift (struct_unpack fmt_b bt) ;;
        t <~ rd_lift (DataType_of_value bt_value) ;;
        match getitem DataType_eqb deserializers t with
        | None => rd_raise KeyError
        | Some cls =>
          objectify py_hashable py_eq enum_members (toObject fuel') fuel' cls
        end
    end
  end.

(** What [readObject] may be handed: a Python object, or a buffered
    reader (an io.BufferedIOBase such as io.BytesIO) over the bytes it
    still holds.  A nested [r.readObject(b)] passes the BytesIO being read
    and so comes down to [toObject]. *)
Inductive source : Type :=
| Object (b : value)
| BufferedReader (buff : buffer).

Definition bytes_of (b : value) : list Z :=
  match b with
  | VByteArray bs | VByteBuffer bs => bs
  | _ => []
  end.

(** The object returned, paired with the bytes of the input left unread.
    Every pass through a loop and every nested call takes at least one
    byte, so the size of the input bounds the fuel.  When neither test
    holds the method ends without a return statement. *)
Definition readObject (b : source) : result (value * list Z) :=
  match b with
  | Object o =>
    if isinstance o PyByteArray
    then toObject (S (List.length (bytes_of o))) (bytes_of o)
    else Ok (VNone, bytes_of o)
  | BufferedReader buff => toObject (S (List.length buff)) buff
  end.

End Reader.

(** ** A concrete runtime for the examples

    The built-in containers cannot be hashed; integers compare by value,
    strings, bytes and UUIDs by content. *)

Definition example_hashable (v : value) : bool :=
  match v with
  | VList _ | VSet _ | VMap _ | VByteArray _ => false
  | _ => true
  end.

Definition example_eq (x y : value) : bool :=
  match as_int x, as_int y with
  | Some a, Some b => a =? b
  | _, _ =>
    match x, y with
    | VStr s, VStr t => pystr_eqb s t
    | VByteBuffer a, VByteBuffer b | VUuid a, VUuid b => pystr_eqb a b
    | VEnum c s, VEnum d t => EnumClass_eqb c d && pystr_eqb s t
    | VNone, VNone => true
    | _, _ => false
    end
  end.

(** Member names of four of the enums, as gremlin_python.process.traversal
    declares them; the examples use no other. *)
Definition example_members (c : EnumClass) : list pystr :=
  map of_string
      match c with
      | Order => ["asc"; "desc"; "shuffle"]
      | T => ["id"; "id_"; "key"; "label"; "value"]
      | Pop => ["all_"; "first"; "last"; "mixed"]
      | Scope => ["global_"; "local"]
      | _ => []
      end%string.

(** ** The statements: helpers *)

(** A type code put in front of a successful output. *)
Definition prepend (code : Z) (r : result value) : result value :=
  match r with
  | Ok (VByteArray ba) => Ok (VByteArray (code :: ba))
  | _ => r
  end.

(** The mangled forms of the reserved words. *)
Definition mangled_forms : list string :=
  ["global_"; "as_"; "in_"; "and_"; "or_"; "is_"; "not_"; "from_"; "set_";
   "list_"; "all_"; "with_"; "filter_"; "id_"; "max_"; "min_"; "sum_"]%string.

(** The wire code of each enum class. *)
Definition enum_code (c : EnumClass) : Z :=
  match c with
  | Barrier => 0x13 | Cardinality => 0x16 | Column => 0x17
  | Direction => 0x18 | Operator => 0x19 | Order => 0x1a | Pick => 0x1b
  | Pop => 0x1c | Scope => 0x1f | T => 0x20
  end.

(** ** Round trip: the decoded image, equality and the supported values *)

(** The object the reader builds from what the writer emits for [v]: a long
    comes back as a plain int, and _read_edge passes the first vertex it
    reads, the one written from inV, as the second argument of Edge. *)
Fixpoint decoded (v : value) : value :=
  match v with
  | VLong z => VInt z
  | VList l => VList (map decoded l)
  | VSet l => VSet (map decoded l)
  | VMap kvs => VMap (map (fun '(k, x) => (decoded k, decoded x)) kvs)
  | VEdge id outV_id outV_label label inV_id inV_label =>
    VEdge (decoded id) (decoded inV_id) inV_label label
          (decoded outV_id) outV_label
  | VPath labels objects => VPath (decoded labels) (decoded objects)
  | VProperty key val => VProperty key (decoded val)
  | VVertex id label => VVertex (decoded id) label
  | VVertexProperty id label val =>
    VVertexProperty (decoded id) label (decoded val)
  | VBinding key val => VBinding key (decoded val)
  | VBytecode steps sources =>
    VBytecode (map (fun '(name, args) => (name, map decoded args)) steps)
              (map (fun '(name, args) => (name, map decoded args)) sources)
  | VTraverser object bulk => VTraverser (decoded object) bulk
  | _ => v
  end.

(** Equality of two objects of the codec: the same class and equal
    attributes, where a long equals the int of the same value and a set
    equals any reordering of itself.  Of an edge the id and the label are
    compared. *)
Inductive same : value -> value -> Prop :=
| same_int z : same (VInt z) (VInt z)
| same_long z : same (VLong z) (VInt z)
| same_bool b : same (VBool b) (VBool b)
| same_byte z : same (VByte z) (VByte z)
| same_str s : same (VStr s) (VStr s)
| same_bytes bs : same (VByteBuffer bs) (VByteBuffer bs)
| same_uuid bs : same (VUuid bs) (VUuid bs)
| same_list l l' : Forall2 same l l' -> same (VList l) (VList l')
| same_set l l' l'' :
    Forall2 same l l'' -> Permutation l'' l' -> same (VSet l) (VSet l')
| same_map kvs kvs' :
    Forall2 (fun a b => same (fst a) (fst b) /\ same (snd a) (snd b)) kvs kvs' ->
    same (VMap kvs) (VMap kvs')
| same_edge id id' label o1 ol1 i1 il1 o2 ol2 i2 il2 :
    same id id' ->
    same (VEdge id o1 ol1 label i1 il1) (VEdge id' o2 ol2 label i2 il2)
| same_path labels labels' objects objects' :
    same labels labels' -> same objects objects' ->
    same (VPath labels objects) (VPath labels' objects')
| same_property key val val' :
    same val val' -> same (VProperty key val) (VProperty key val')
| same_vertex id id' label :
    same id id' -> same (VVertex id label) (VVertex id' label)
| same_vertexproperty id id' label val val' :
    same id id' -> same val val' ->
    same (VVertexProperty id label val) (VVertexProperty id' label val')
| same_enum c name : same (VEnum c name) (VEnum c name)
| same_binding key val val' :
    same val val' -> same (VBinding key val) (VBinding key val')
| same_bytecode steps steps' sources sources' :
    Forall2 (fun a b => fst a = fst b /\ Forall2 same (snd a) (snd b))
            steps steps' ->
    Forall2 (fun a b => fst a = fst b /\ Forall2 same (snd a) (snd b))
            sources sources' ->
    same (VBytecode steps sources) (VBytecode steps' sources')
| same_traverser object object' bulk :
    same object object' ->
    same (VTraverser object bulk) (VTraverser object' bulk).

(** A string whose UTF-8 form has as many bytes as it has characters, short
    enough for the i32 prefix. *)
Definition raw_string (s : pystr) : Prop :=
  Forall (fun c => 0 <= c < 128) s /\ len s <= 2147483647.

Section Supported.

Variable py_hashable : value -> bool.
Variable py_eq : value -> value -> bool.
Variable enum_members : EnumClass -> list pystr.

(** Entries that a set or dict keeps apart: each can be hashed and no two
    are equal. *)
Definition distinct (l : list value) : Prop :=
  Forall (fun x => py_hashable x = true) l /\
  ForallOrdPairs (fun x y => py_eq x y = false /\ py_eq y x = false) l.

Definition supported_instruction (P : value -> Prop)
           (inst : pystr * list value) : Prop :=
  raw_string (fst inst) /\ Forall P (snd inst) /\
  len (snd inst) <= 2147483647.

(** The values the round trip is stated for: integers within the width of
    their wire type, strings and labels of ASCII characters, enum members
    whose name is no mangled form, containers of such values with fewer
    than 2^31 entries, sets and dicts whose entries stay distinct once
    decoded. *)
Inductive supported : value -> Prop :=
| sup_int z : - 2 ^ 31 <= z <= 2 ^ 31 - 1 -> supported (VInt z)
| sup_long z : - 2 ^ 63 <= z <= 2 ^ 63 - 1 -> supported (VLong z)
| sup_bool b : supported (VBool b)
| sup_byte z : - 128 <= z <= 127 -> supported (VByte z)
| sup_str s : raw_string s -> supported (VStr s)
| sup_bytes bs : len bs <= 2147483647 -> supported (VByteBuffer bs)
| sup_uuid bs : List.length bs = 16%nat -> supported (VUuid bs)
| sup_list l :
    Forall supported l -> len l <= 2147483647 -> supported (VList l)
| sup_set l :
    Forall supported l -> len l <= 2147483647 ->
    distinct (map decoded l) -> supported (VSet l)
| sup_map kvs :
    Forall (fun kv => supported (fst kv) /\ supported (snd kv)) kvs ->
    len kvs <= 2147483647 ->
    distinct (map (fun kv => decoded (fst kv)) kvs) ->
    supported (VMap kvs)
| sup_edge id outV_id outV_label label inV_id inV_label :
    supported id -> supported outV_id -> supported inV_id ->
    raw_string label -> raw_string outV_label -> raw_string inV_label ->
    supported (VEdge id outV_id outV_label label inV_id inV_label)
| sup_path labels objects :
    supported labels -> supported objects -> supported (VPath labels objects)
| sup_property key val :
    raw_string key -> supported val -> supported (VProperty key val)
| sup_vertex id label :
    supported id -> raw_string label -> supported (VVertex id label)
| sup_vertexproperty id label val :
    supported id -> raw_string label -> supported val ->
    supported (VVertexProperty id label val)
| sup_enum c name :
    raw_string name -> unmangleKeyword name = name ->
    In name (enum_members c) -> supported (VEnum c name)
| sup_binding key val :
    raw_string key -> supported val -> supported (VBinding key val)
| sup_bytecode steps sources :
    Forall (supported_instruction supported) steps ->
    Forall (supported_instruction supported) sources ->
    len steps <= 2147483647 -> len sources <= 2147483647 ->
    supported (VBytecode steps sources)
| sup_traverser object bulk :
    supported object -> - 2 ^ 63 <= bulk <= 2 ^ 63 - 1 ->
    supported (VTraverser object bulk).

End Supported.

(** Induction over values that reaches the values inside lists, sets, dicts
    and Bytecode instructions. *)
Section value_induction.

Variable P : value -> Prop.

Hypothesis H_None : P VNone.
Hypothesis H_Object : forall tag, P (VObject tag).
Hypothesis H_ByteArray : forall ba, P (VByteArray ba).
Hypothesis H_Int : forall z, P (VInt z).
Hypothesis H_Long : forall z, P (VLong z).
Hypothesis H_Bool : forall b, P (VBool b).
Hypothesis H_Byte : forall z, P (VByte z).
Hypothesis H_Str : forall s, P (VStr s).
Hypothesis H_ByteBuffer : forall bs, P (VByteBuffer bs).
Hypothesis H_Uuid : forall bs, P (VUuid bs).
Hypothesis H_List : forall l, Forall P l -> P (VList l).
Hypothesis H_Set : forall l, Forall P l -> P (VSet l).
Hypothesis H_Map :
  forall kvs, Forall (fun kv => P (fst kv) /\ P (snd kv)) kvs -> P (VMap kvs).
Hypothesis H_Edge :
  forall id o ol l i il, P id -> P o -> P i -> P (VEdge id o ol l i il).
Hypothesis H_Path : forall a b, P a -> P b -> P (VPath a b).
Hypothesis H_Property : forall k x, P x -> P (VProperty k x).
Hypothesis H_Graph : P VGraph.
Hypothesis H_Vertex : forall id l, P id -> P (VVertex id l).
Hypothesis H_VertexProperty :
  forall id l x, P id -> P x -> P (VVertexProperty id l x).
Hypothesis H_Enum : forall c name, P (VEnum c name).
Hypothesis H_Binding : forall k x, P x -> P (VBinding k x).
Hypothesis H_Bytecode :
  forall steps sources,
    Forall (fun inst => Forall P (snd inst)) steps ->
    Forall (fun inst => Forall P (snd inst)) sources ->
    P (VBytecode steps sources).
Hypothesis H_P : forall op x y, P x -> P y -> P (VP op x y).
Hypothesis H_TextP : forall op x y, P x -> P y -> P (VTextP op x y).
Hypothesis H_Traverser : forall o bulk, P o -> P (VTraverser o bulk).

Fixpoint value_induction (v : value) : P v :=
  let all :=
      fix all (l : list value) : Forall P l :=
        match l with
        | [] => Forall_nil P
        | x :: l' => Forall_cons x (value_induction x) (all l')
        end in
  let insts :=
      fix insts (l : list (pystr * list value))
        : Forall (fun inst => Forall P (snd inst)) l :=
        match l with
        | [] => Forall_nil _
        | (name, args) :: l' =>
          Forall_cons (name, args) (all args) (insts l')
        end in
  match v with
  | VNone => H_None
  | VObject tag => H_Object tag
  | VByteArray ba => H_ByteArray ba
  | VInt z => H_Int z
  | VLong z => H_Long z
  | VBool b => H_Bool b
  | VByte z => H_Byte z
  | VStr s => H_Str s
  | VByteBuffer bs => H_ByteBuffer bs
  | VUuid bs => H_Uuid bs
  | VList l => H_List l (all l)
  | VSet l => H_Set l (all l)
  | VMap kvs =>
    H_Map kvs
          ((fix pairs (l : list (value * value))
              : Forall (fun kv => P (fst kv) /\ P (snd kv)) l :=
              match l with
              | [] => Forall_nil _
              | (k, x) :: l' =>
                Forall_cons (k, x)
                            (conj (value_induction k) (value_induction x))
                            (pairs l')
              end) kvs)
  | VEdge id o ol l i il =>
    H_Edge id o ol l i il (value_induction id) (value_induction o)
           (value_induction i)
  | VPath a b => H_Path a b (value_induction a) (value_induction b)
  | VProperty k x => H_Property k x (value_induction x)
  | VGraph => H_Graph
  | VVertex id l => H_Vertex id l (value_induction id)
  | VVertexProperty id l x =>
    H_VertexProperty id l x (value_induction id) (value_induction x)
  | VEnum c name => H_Enum c name
  | VBinding k x => H_Binding k x (value_induction x)
  | VBytecode steps sources =>
    H_Bytecode steps sources (insts steps) (insts sources)
  | VP op x y => H_P op x y (value_induction x) (value_induction y)
  | VTextP op x y => H_TextP op x y (value_induction x) (value_induction y)
  | VTraverser o bulk => H_Traverser o bulk (value_induction o)
  end.

End value_induction.

(** A raw string as the writer lays it out. *)
Definition raw (s : pystr) : list Z := be_bytes 4 (len s) ++ s.

(** ** What it means for the reader to undo the writer *)

Section Encodes.

Variable py_hashable : value -> bool.
Variable py_eq : value -> value -> bool.
Variable enum_members : EnumClass -> list pystr.

(** The writer turns [v] into the bytes [ba], and the reader, given enough
    fuel, turns them back into [decoded v], whatever follows them. *)
Definition encodes (v : value) (ba : list Z) : Prop :=
  toDict py_hashable py_eq v = Ok (VByteArray ba) /\
  (0 < List.length ba)%nat /\
  forall fuel rest,
    (List.length ba < fuel)%nat ->
    toObject py_hashable py_eq enum_members fuel (ba ++ rest) = Ok (decoded v, rest).

(** Two entries that are not equal, asked either way. *)
Definition apart (x y : value) : Prop :=
  py_eq x y = false /\ py_eq y x = false.

(** A dict entry and the bytes of its key and of its value. *)
Definition enc_pair (kv : value * value) (b : list Z * list Z) : Prop :=
  encodes (fst kv) (fst b) /\ encodes (snd kv) (snd b).

Definition flat (bas : list (list Z * list Z)) : list Z :=
  List.concat (map (fun b => fst b ++ snd b) bas).

(** A Bytecode instruction and its bytes: the name as a raw string, the
    number of arguments, the arguments. *)
Definition enc_inst (inst : pystr * list value) (ib : list Z) : Prop :=
  raw_string (fst inst) /\ len (snd inst) <= 2147483647 /\
  exists bas, Forall2 encodes (snd inst) bas /\
              ib = raw (fst inst) ++ be_bytes 4 (len (snd inst))
                       ++ List.concat bas.

End Encodes.

(** ** Fuel *)

(** On a buffer shorter than [n], [m] does not run out of fuel and leaves
    no more bytes than it was given. *)
Definition fuel_ok {A : Type} (n : nat) (m : Rd A) : Prop :=
  forall buff,
    (List.length buff < n)%nat ->
    m buff <> OutOfFuel /\
    forall a buff',
      m buff = Ok (a, buff') -> (List.length buff' <= List.length buff)%nat.

(** The same, and [m] takes at least one byte when it succeeds. *)
Definition takes_a_byte {A : Type} (n : nat) (m : Rd A) : Prop :=
  forall buff,
    (List.length buff < n)%nat ->
    m buff <> OutOfFuel /\
    forall a buff',
      m buff = Ok (a, buff') -> (List.length buff' < List.length buff)%nat.

(** [m] on [buff]: no lack of fuel, and no more bytes left than given. *)
Definition good {A : Type} (m : Rd A) (buff : buffer) : Prop :=
  m buff <> OutOfFuel /\
  forall a b, m buff = Ok (a, b) -> (List.length b <= List.length buff)%nat.

(** ** Statements about the errors of the writer *)

(** The outcome is not a KeyError. *)
Definition no_KeyError {A : Type} (r : result A) : Prop := r <> Raise KeyError.

(** The handlers whose dictify lies outside the embedding: the date and
    float handlers compute with floats and calendars, LambdaIO and
    TypeSerializer run code of the caller ([obj()], [eval], [typ()]). *)
Definition unmodelled : list handler :=
  [DateIO; TimestampIO; FloatIO; DoubleIO; TypeSerializer; LambdaIO].

(** * Properties *)

(** ** Null at the top level, and inputs that are not buffers *)

(** C3: the reader takes the single byte 0xFE for null and reads no flag
    after it; the writer, handed null, finds no handler and gives the object
    back instead of the byte 0xFE. *)
Theorem top_level_null :
  forall py_hashable py_eq enum_members,
    writeObject py_hashable py_eq VNone = Ok VNone /\
    writeObject py_hashable py_eq VNone <> Ok (VByteArray [0xFE]) /\
    forall rest,
      readObject py_hashable py_eq enum_members
                 (Object (VByteArray (0xFE :: rest))) = Ok (VNone, rest).
Proof.
  intros h e m. split; [reflexivity|]. split; [discriminate|].
  intros rest. reflexivity.
Qed.

(** C10: handed an immutable bytes object, readObject passes both
    isinstance tests and returns null with every byte unread. *)
Theorem readObject_bytes_is_null :
  forall py_hashable py_eq enum_members bs,
    readObject py_hashable py_eq enum_members (Object (VByteBuffer bs))
    = Ok (VNone, bs).
Proof.
  intros h e m bs. reflexivity.
Qed.

(** ** Values no handler is registered for *)

Lemma toDict_eq py_hashable py_eq (obj : value) :
  toDict py_hashable py_eq obj
  = toDict_body py_hashable py_eq (toDict py_hashable py_eq) obj.
Proof. destruct obj; reflexivity. Qed.

(** C4, as the code has it: an object other than None and other than a
    bytearray that no registry entry matches, exactly or by isinstance, and
    that is no dict, set or list, is returned as it is; nothing is raised
    and no bytes are produced.  (None is the case of C3; a bytearray is
    left out, since the callers would take it for encoded bytes.) *)
Theorem toDict_unregistered :
  forall py_hashable py_eq (obj : value),
    obj <> VNone ->
    isinstance obj PyByteArray = false ->
    getitem pytype_eqb serializers (type_of obj) = None ->
    (forall key cls, In (key, cls) serializers -> isinstance obj key = false) ->
    isinstance obj PyDict = false ->
    isinstance obj PySet = false ->
    isinstance obj PyList = false ->
    writeObject py_hashable py_eq obj = Ok obj /\
    (forall e, writeObject py_hashable py_eq obj <> Raise e) /\
    (forall ba, writeObject py_hashable py_eq obj <> Ok (VByteArray ba)).
Proof.
  intros h e obj Hnone Hba Hexact _ _ _ _.
  assert (Hw : writeObject h e obj = Ok obj).
  { destruct obj; try reflexivity; try (vm_compute in Hexact; discriminate).
    destruct cls; vm_compute in Hexact; discriminate. }
  rewrite Hw. split; [reflexivity|]. split; [discriminate|].
  intros ba H. injection H as ->. discriminate Hba.
Qed.

Lemma toDict_unregistered_witness :
  writeObject example_hashable example_eq (VObject 0) = Ok (VObject 0) /\
  (forall e, writeObject example_hashable example_eq (VObject 0) <> Raise e)
  /\
  (forall ba,
      writeObject example_hashable example_eq (VObject 0)
      <> Ok (VByteArray ba)).
Proof.
  refine (toDict_unregistered example_hashable example_eq (VObject 0)
                              _ _ _ _ _ _ _).
  - discriminate.
  - reflexivity.
  - reflexivity.
  - intros key cls H. vm_compute in H.
    repeat (destruct H as [H | H]; [inversion H; reflexivity|]).
    contradiction.
  - reflexivity.
  - reflexivity.
  - reflexivity.
Defined.

Lemma unregistered_is_returned :
  getitem pytype_eqb serializers (type_of (VObject 0)) = None /\
  forallb (fun item => negb (isinstance (VObject 0) (fst item))) serializers
  = true /\
  isinstance (VObject 0) PyDict = false /\
  isinstance (VObject 0) PySet = false /\
  isinstance (VObject 0) PyList = false /\
  writeObject example_hashable example_eq (VObject 0) = Ok (VObject 0) /\
  forall e, writeObject example_hashable example_eq (VObject 0) <> Raise e.
Proof.
  repeat split; try reflexivity. intros e; discriminate.
Qed.

(** ** The value flag *)

Lemma rd_read_1 (b : Z) (rest : buffer) :
  rd_read 1 (b :: rest) = Ok ([b], rest).
Proof. reflexivity. Qed.

(** C7, as the code has it: is_null compares the flag byte with 0x01 only.
    Flag 0x01 gives null and reads nothing more; every other flag byte,
    0x00 or not, goes on to the payload reader, and no flag raises. *)
Theorem is_null_flag :
  forall (else_opt : Rd value) (flag : Z) (rest : buffer),
    is_null else_opt (flag :: rest)
    = if flag =? 0x01 then Ok (VNone, rest) else else_opt rest.
Proof.
  intros else_opt flag rest. unfold is_null, rd_bind.
  rewrite rd_read_1. destruct (flag =? 1); reflexivity.
Qed.

Lemma flag_two_reads_payload :
  readObject example_hashable example_eq example_members
             (Object (VByteArray [0x01; 0x02; 0; 0; 0; 5]))
  = Ok (VInt 5, []).
Proof. reflexivity. Qed.

(** SetIO.objectify hands what ListIO.objectify returns to set(): under the
    flag 0x01 that is None, and set(None) is a TypeError. *)
Lemma set_null_flag_raises :
  forall py_hashable py_eq enum_members rest,
    readObject py_hashable py_eq enum_members
               (Object (VByteArray (0x0b :: 0x01 :: rest)))
    = Raise TypeError.
Proof. reflexivity. Qed.

(** ** BulkSet *)

(** C9: one entry, the int 7 with the 64-bit bulk 2.  _read_bulkset reads
    the bulk with read_int, four bytes: it sees bulk 0, returns the empty
    list and leaves the other four bytes unread. *)
Theorem bulkset_bulk_read_as_int :
  readObject example_hashable example_eq example_members
    (Object (VByteArray [0x2a; 0; 0; 0; 0; 1;  1; 0; 0; 0; 0; 7;
                         0; 0; 0; 0; 0; 0; 0; 2]))
  = Ok (VList [], [0; 0; 0; 2]).
Proof. reflexivity. Qed.

(** ** Strings *)

(** C2: the one-character string U+00E9 has the two UTF-8 bytes C3 A9;
    string_as_bytes and StringIO.dictify both write the length 1, len(s),
    and read_string, which takes the length for a number of bytes, cannot
    decode what it then reads. *)
Theorem string_length_prefix_counts_characters :
  utf8_encode [0xE9] = Ok [0xC3; 0xA9] /\
  string_as_bytes [0xE9] = Ok [0; 0; 0; 1; 0xC3; 0xA9] /\
  StringIO_dictify StringIO (VStr [0xE9]) false
  = Ok (VByteArray [0x03; 0; 0; 0; 0; 1; 0xC3; 0xA9]) /\
  read_string [0; 0; 0; 1; 0xC3; 0xA9] = Raise UnicodeDecodeError /\
  read_string [0; 0; 0; 2; 0xC3; 0xA9] = Ok ([0xE9], []).
Proof. repeat split; reflexivity. Qed.

(** ** Predicates *)

Lemma extend_each_cons code l : forall ba,
  extend_each (code :: ba) l
  = bind (extend_each ba l) (fun ba' => Ok (code :: ba')).
Proof.
  induction l as [|a l IH]; intros ba; cbn [extend_each bind]; [reflexivity|].
  assert (Happ : forall bs,
             bind (Ok ((code :: ba) ++ bs)) (fun ba' => extend_each ba' l)
             = bind (bind (Ok (ba ++ bs)) (fun ba' => extend_each ba' l))
                    (fun ba' => Ok (code :: ba'))).
  { intros bs. cbn [bind app]. apply IH. }
  destruct a; cbn [bytearray_extend]; try reflexivity; try apply Happ.
  - destruct s; [apply (IH ba) | reflexivity].
  - destruct (mapM index_byte l0); try reflexivity. apply Happ.
  - destruct (mapM index_byte l0); try reflexivity. apply Happ.
  - destruct (mapM index_byte (map fst kvs)); try reflexivity. apply Happ.
Qed.

Lemma P_dictify_body_code w cls t operator val other :
  graphbinary_type cls = Some t ->
  P_dictify_body w cls operator val other false
  = prepend (DataType_value t) (P_dictify_body w cls operator val other true).
Proof.
  intros Ht. unfold P_dictify_body, extend_string. rewrite Ht.
  destruct (string_as_bytes operator) as [s| | |]; try reflexivity.
  cbn [bind app].
  destruct (match other with
            | VNone => a <- w val ;; Ok [a]
            | _ => a <- w val ;; b <- w other ;; Ok [a; b]
            end) as [additional| | |]; try reflexivity.
  cbn [bind].
  destruct (struct_pack fmt_i (len additional)) as [n| | |]; try reflexivity.
  cbn [bind]. change ((DataType_value t :: s) ++ n)
    with (DataType_value t :: (s ++ n)).
  rewrite extend_each_cons.
  destruct (extend_each (s ++ n) additional); reflexivity.
Qed.

Lemma P_dictify_body_value_only w cls operator val other ba :
  P_dictify_body w cls operator val other true = Ok (VByteArray ba) ->
  exists s rest, string_as_bytes operator = Ok s /\ ba = s ++ rest.
Proof.
  unfold P_dictify_body, extend_string.
  destruct (string_as_bytes operator) as [s| | |]; try discriminate.
  cbn [bind app].
  destruct (match other with
            | VNone => a <- w val ;; Ok [a]
            | _ => a <- w val ;; b <- w other ;; Ok [a; b]
            end) as [additional| | |]; try discriminate.
  cbn [bind].
  destruct (struct_pack fmt_i (len additional)) as [n| | |]; try discriminate.
  cbn [bind].
  assert (Hpre : forall l ba0 ba1,
             extend_each ba0 l = Ok ba1 -> exists r, ba1 = ba0 ++ r).
  { induction l as [|a l IH]; intros ba0 ba1; cbn [extend_each bind].
    - intros H; inversion H. exists []. now rewrite app_nil_r.
    - destruct (bytearray_extend ba0 a) as [ba'| | |] eqn:Ha; try discriminate.
      cbn [bind]. intros H. apply IH in H. destruct H as [r ->].
      assert (exists r0, ba' = ba0 ++ r0) as [r0 ->].
      { destruct a; cbn [bytearray_extend] in Ha; try discriminate;
          try (inversion Ha; eexists; reflexivity).
        - destruct s0; [|discriminate]. inversion Ha. exists [].
          now rewrite app_nil_r.
        - destruct (mapM index_byte l0); try discriminate.
          inversion Ha; eexists; reflexivity.
        - destruct (mapM index_byte l0); try discriminate.
          inversion Ha; eexists; reflexivity.
        - destruct (mapM index_byte (map fst kvs)); try discriminate.
          inversion Ha; eexists; reflexivity. }
      exists (r0 ++ r). now rewrite app_assoc. }
  destruct (extend_each (s ++ n) additional) as [ba1| | |] eqn:He;
    try discriminate.
  cbn [bind]. intros H; inversion H; subst ba1.
  apply Hpre in He. destruct He as [r ->].
  exists s, (n ++ r). split; [reflexivity | now rewrite app_assoc].
Qed.

(** C5, as the code has it: PIO.dictify and TextPIO.dictify put the type
    code (0x1e, 0x28) first when as_value is false and leave it out when
    as_value is true; the value-only output starts with the operator as a
    raw string.  Neither form holds a value flag. *)
Theorem P_dictify_type_code :
  forall (writeObject : value -> result value) (operator : pystr)
         (val other : value),
    PIO_dictify writeObject PIO (VP operator val other) false
    = prepend 0x1e (PIO_dictify writeObject PIO (VP operator val other) true)
    /\
    TextPIO_dictify writeObject TextPIO (VTextP operator val other) false
    = prepend 0x28
        (TextPIO_dictify writeObject TextPIO (VTextP operator val other) true)
    /\
    (forall ba,
        PIO_dictify writeObject PIO (VP operator val other) true
        = Ok (VByteArray ba) ->
        exists s rest, string_as_bytes operator = Ok s /\ ba = s ++ rest)
    /\
    (forall ba,
        TextPIO_dictify writeObject TextPIO (VTextP operator val other) true
        = Ok (VByteArray ba) ->
        exists s rest, string_as_bytes operator = Ok s /\ ba = s ++ rest).
Proof.
  intros w operator val other. cbn [PIO_dictify TextPIO_dictify].
  split; [apply (P_dictify_body_code w PIO dt_p); reflexivity|].
  split; [apply (P_dictify_body_code w TextPIO dt_textp); reflexivity|].
  split; intros ba H; eapply P_dictify_body_value_only; exact H.
Qed.

Lemma P_dictify_type_code_witness :
  exists s rest,
    string_as_bytes (of_string "eq") = Ok s /\
    [0; 0; 0; 2; 101; 113; 0; 0; 0; 1; 1; 0; 0; 0; 0; 1] = s ++ rest.
Proof.
  apply (proj1 (proj2 (proj2
           (P_dictify_type_code (writeObject example_hashable example_eq)
                                (of_string "eq") (VInt 1) VNone)))).
  reflexivity.
Defined.

Lemma P_value_only_has_no_type_code :
  PIO_dictify (writeObject example_hashable example_eq) PIO
              (VP (of_string "eq") (VInt 1) VNone) true
  = Ok (VByteArray [0; 0; 0; 2; 101; 113; 0; 0; 0; 1; 1; 0; 0; 0; 0; 1]) /\
  TextPIO_dictify (writeObject example_hashable example_eq) TextPIO
                  (VTextP (of_string "startingWith") (VStr (of_string "m"))
                          VNone) true
  = Ok (VByteArray [0; 0; 0; 12; 115; 116; 97; 114; 116; 105; 110; 103; 87;
                    105; 116; 104; 0; 0; 0; 1; 3; 0; 0; 0; 0; 1; 109]).
Proof. split; reflexivity. Qed.

(** ** Fixed-width integers *)

Lemma be_bytes_length n v : List.length (be_bytes n v) = n.
Proof. induction n; cbn [be_bytes List.length]; congruence. Qed.

Lemma be_bytes_range n v : Forall (fun b => 0 <= b < 256) (be_bytes n v).
Proof.
  induction n; cbn [be_bytes]; constructor; [|assumption].
  apply Z.mod_pos_bound. lia.
Qed.

Lemma be_unsigned_fold n v : forall acc,
  fold_left (fun acc b => acc * 256 + b) (be_bytes n v) acc
  = acc * 2 ^ (8 * Z.of_nat n) + v mod 2 ^ (8 * Z.of_nat n).
Proof.
  induction n as [|k IH]; intros acc.
  - cbn [be_bytes fold_left]. change (2 ^ (8 * Z.of_nat 0)) with 1.
    rewrite Z.mod_1_r. lia.
  - cbn [be_bytes fold_left]. rewrite IH.
    replace (8 * Z.of_nat (S k)) with (8 * Z.of_nat k + 8) by lia.
    rewrite Z.pow_add_r by lia. change (2 ^ 8) with 256.
    assert (Hp : 0 < 2 ^ (8 * Z.of_nat k)) by (apply Z.pow_pos_nonneg; lia).
    rewrite (Z.rem_mul_r v (2 ^ (8 * Z.of_nat k)) 256) by lia.
    ring.
Qed.

Lemma be_unsigned_be_bytes n v :
  be_unsigned (be_bytes n v) = v mod 2 ^ (8 * Z.of_nat n).
Proof. unfold be_unsigned. rewrite be_unsigned_fold. lia. Qed.

Lemma to_signed_mod n v :
  (0 < n)%nat ->
  - 2 ^ (8 * Z.of_nat n - 1) <= v < 2 ^ (8 * Z.of_nat n - 1) ->
  to_signed n (v mod 2 ^ (8 * Z.of_nat n)) = v.
Proof.
  intros Hn Hv. unfold to_signed.
  assert (Hh : 0 < 2 ^ (8 * Z.of_nat n - 1)) by (apply Z.pow_pos_nonneg; lia).
  assert (Hd : 2 ^ (8 * Z.of_nat n) = 2 * 2 ^ (8 * Z.of_nat n - 1)).
  { replace (8 * Z.of_nat n) with (1 + (8 * Z.of_nat n - 1)) at 1 by lia.
    rewrite Z.pow_add_r by lia. reflexivity. }
  rewrite Hd. set (h := 2 ^ (8 * Z.of_nat n - 1)) in *.
  destruct (Z.ltb_spec (v mod (2 * h)) h) as [Hlt | Hge].
  - destruct (Z_lt_le_dec v 0) as [Hneg | Hpos].
    + rewrite <- (Z.mod_add v 1 (2 * h)) in Hlt by lia.
      rewrite Z.mod_small in Hlt by lia. lia.
    + apply Z.mod_small. lia.
  - destruct (Z_lt_le_dec v 0) as [Hneg | Hpos].
    + rewrite <- (Z.mod_add v 1 (2 * h)) by lia.
      rewrite Z.mod_small by lia. lia.
    + rewrite Z.mod_small in Hge by lia. lia.
Qed.

(** Packing within the range of the format and unpacking give the integer
    back. *)
Lemma struct_unpack_pack f v bs :
  struct_pack f v = Ok bs -> struct_unpack f bs = Ok v.
Proof.
  unfold struct_pack, struct_unpack.
  destruct ((v <? fmt_min f) || (fmt_max f <? v)) eqn:Hr; [discriminate|].
  intros H; inversion H; subst bs; clear H.
  rewrite be_bytes_length, Nat.eqb_refl, be_unsigned_be_bytes.
  f_equal. apply to_signed_mod.
  - destruct f; cbn; lia.
  - apply orb_false_iff in Hr. destruct Hr as [H1 H2].
    apply Z.ltb_ge in H1. apply Z.ltb_ge in H2.
    unfold fmt_min, fmt_max in *. lia.
Qed.

Lemma struct_pack_in_range f v :
  fmt_min f <= v <= fmt_max f -> struct_pack f v = Ok (be_bytes (fmt_size f) v).
Proof.
  intros [H1 H2]. unfold struct_pack.
  apply Z.ltb_ge in H1. apply Z.ltb_ge in H2. now rewrite H1, H2.
Qed.

(** ** Long integers *)

(** C6: LongIO.dictify raises its out-of-range exception exactly when the
    value lies outside the signed 64-bit range (so at 2^63); inside the
    range the payload after the code and flag is the eight bytes, most
    significant first, of the value taken modulo 2^64.  The writer hands a
    long to this method. *)
Theorem LongIO_dictify_range :
  forall (v : Z) (as_value : bool),
    (LongIO_dictify LongIO (VLong v) as_value
     = Raise (Exception "TODO: don't forget bigint")
     <-> v < - 2 ^ 63 \/ v > 2 ^ 63 - 1) /\
    (- 2 ^ 63 <= v <= 2 ^ 63 - 1 ->
     exists payload,
       LongIO_dictify LongIO (VLong v) as_value
       = Ok (VByteArray ((if as_value then [] else [0x02]) ++ [0x00] ++ payload))
       /\ List.length payload = 8%nat
       /\ Forall (fun b => 0 <= b < 256) payload
       /\ be_unsigned payload = v mod 2 ^ 64
       /\ struct_unpack fmt_q payload = Ok v) /\
    (forall py_hashable py_eq,
        writeObject py_hashable py_eq (VLong v)
        = LongIO_dictify LongIO (VLong v) false) /\
    LongIO_dictify LongIO (VLong (2 ^ 63)) as_value
    = Raise (Exception "TODO: don't forget bigint").
Proof.
  intros v as_value.
  assert (Hin : - 2 ^ 63 <= v <= 2 ^ 63 - 1 ->
                LongIO_dictify LongIO (VLong v) as_value
                = Ok (VByteArray ((if as_value then [] else [0x02])
                                    ++ [0x00] ++ be_bytes 8 v))).
  { intros Hv. unfold LongIO_dictify. cbn [as_int].
    replace ((v <? -9223372036854775808) || (v >? 9223372036854775807))
      with false by (symmetry; apply orb_false_iff; lia).
    cbn [byte_format]. rewrite struct_pack_in_range by (cbn; lia).
    cbn [bind fmt_size]. destruct as_value; reflexivity. }
  split; [|split; [|split; [|reflexivity]]].
  - split.
    + intros H. destruct (Z_lt_le_dec v (- 2 ^ 63)) as [|Hlo]; [now left|].
      destruct (Z_lt_le_dec (2 ^ 63 - 1) v) as [|Hhi]; [right; lia|].
      rewrite Hin in H by lia. discriminate.
    + intros Hout. unfold LongIO_dictify. cbn [as_int].
      replace ((v <? -9223372036854775808) || (v >? 9223372036854775807))
        with true by (symmetry; apply orb_true_iff; lia).
      reflexivity.
  - intros Hv. exists (be_bytes 8 v). split; [now apply Hin|].
    split; [apply be_bytes_length|]. split; [apply be_bytes_range|].
    split; [apply be_unsigned_be_bytes|].
    apply struct_unpack_pack. apply struct_pack_in_range. cbn. lia.
  - intros h e. unfold writeObject. rewrite toDict_eq. unfold toDict_body.
    change (getitem pytype_eqb serializers (type_of (VLong v)))
      with (Some LongIO).
    cbn [dictify].
    destruct (Z_lt_le_dec v (- 2 ^ 63)) as [Hlo|Hlo];
      [|destruct (Z_lt_le_dec (2 ^ 63 - 1) v) as [Hhi|Hhi]].
    + unfold LongIO_dictify. cbn [as_int].
      replace ((v <? -9223372036854775808) || (v >? 9223372036854775807))
        with true by (symmetry; apply orb_true_iff; lia).
      reflexivity.
    + unfold LongIO_dictify. cbn [as_int].
      replace ((v <? -9223372036854775808) || (v >? 9223372036854775807))
        with true by (symmetry; apply orb_true_iff; lia).
      reflexivity.
    + assert (Hv : - 2 ^ 63 <= v <= 2 ^ 63 - 1) by lia.
      assert (H2 : LongIO_dictify LongIO (VLong v) false
                   = Ok (VByteArray ([0x02] ++ [0x00] ++ be_bytes 8 v))).
      { unfold LongIO_dictify. cbn [as_int].
        replace ((v <? -9223372036854775808) || (v >? 9223372036854775807))
          with false by (symmetry; apply orb_false_iff; lia).
        cbn [byte_format]. rewrite struct_pack_in_range by (cbn; lia).
        reflexivity. }
      rewrite H2. reflexivity.
Qed.

Lemma LongIO_dictify_range_witness :
  exists payload,
    LongIO_dictify LongIO (VLong 5) false
    = Ok (VByteArray ([0x02] ++ [0x00] ++ payload))
    /\ List.length payload = 8%nat
    /\ Forall (fun b => 0 <= b < 256) payload
    /\ be_unsigned payload = 5 mod 2 ^ 64
    /\ struct_unpack fmt_q payload = Ok 5.
Proof.
  apply (proj1 (proj2 (LongIO_dictify_range 5 false))). lia.
Defined.

(** ** Enum tokens *)

Lemma pystr_eqb_eq a b : pystr_eqb a b = true <-> a = b.
Proof.
  unfold pystr_eqb. destruct (list_eq_dec Z.eq_dec a b); split; congruence.
Qed.

Lemma pystr_eqb_refl a : pystr_eqb a a = true.
Proof. now apply pystr_eqb_eq. Qed.

Lemma pystr_eqb_sym a b : pystr_eqb a b = pystr_eqb b a.
Proof.
  unfold pystr_eqb.
  destruct (list_eq_dec Z.eq_dec a b), (list_eq_dec Z.eq_dec b a); congruence.
Qed.

Lemma getitem_spec (tbl : list (pystr * pystr)) (name : pystr) :
  match getitem pystr_eqb tbl name with
  | Some s => In (name, s) tbl /\ existsb (pystr_eqb name) (map fst tbl) = true
  | None => existsb (pystr_eqb name) (map fst tbl) = false
  end.
Proof.
  induction tbl as [|[k0 v0] tbl IH]; cbn [getitem map fst existsb];
    [reflexivity|].
  rewrite (pystr_eqb_sym name k0).
  destruct (pystr_eqb k0 name) eqn:Hk.
  - apply pystr_eqb_eq in Hk. subst k0. split; [now left | reflexivity].
  - cbn [orb]. destruct (getitem pystr_eqb tbl name).
    + destruct IH as [Hin Hex]. split; [now right | exact Hex].
    + exact IH.
Qed.

Lemma unmangleKeyword_spec (name : pystr) :
  unmangleKeyword name
  = if existsb (pystr_eqb name) (map of_string mangled_forms)
    then removelast name else name.
Proof.
  unfold unmangleKeyword.
  set (tbl := map (fun kv => (of_string (fst kv), of_string (snd kv)))
                  symbolMap).
  pose proof (getitem_spec tbl name) as H.
  change (map of_string mangled_forms) with (map fst tbl).
  destruct (getitem pystr_eqb tbl name) as [s|].
  - destruct H as [Hin ->].
    assert (Hall : Forall (fun kv => snd kv = removelast (fst kv)) tbl)
      by (repeat constructor).
    rewrite Forall_forall in Hall. apply (Hall _ Hin).
  - now rewrite H.
Qed.

Lemma toDict_exact py_hashable py_eq (obj : value) (key : pytype)
      (cls : handler) :
  getitem pytype_eqb serializers (type_of obj) = Some cls ->
  find (fun item => isinstance obj (fst item)) serializers = Some (key, cls) ->
  toDict py_hashable py_eq obj
  = dictify (toDict py_hashable py_eq) cls obj false.
Proof.
  intros H1 H2. rewrite toDict_eq. unfold toDict_body. rewrite H1, H2.
  destruct (dictify (toDict py_hashable py_eq) cls obj false) as [|[]| |];
    reflexivity.
Qed.

Lemma toDict_ok py_hashable py_eq (obj : value) (cls : handler) (r : value) :
  getitem pytype_eqb serializers (type_of obj) = Some cls ->
  dictify (toDict py_hashable py_eq) cls obj false = Ok r ->
  toDict py_hashable py_eq obj = Ok r.
Proof.
  intros H1 H2. rewrite toDict_eq. unfold toDict_body.
  rewrite H1, H2. reflexivity.
Qed.

(** C8: the name written for an enum member is its name with the trailing
    underscore dropped when, and only when, it is one of the seventeen
    mangled forms; the writer emits the class code, the flag 0x00 and that
    name as a raw length-prefixed string, so Order.desc gives
    1A 00 00 00 00 04 64 65 73 63. *)
Theorem enum_dictify_unmangles :
  (forall name : pystr,
      unmangleKeyword name
      = if existsb (pystr_eqb name) (map of_string mangled_forms)
        then removelast name else name) /\
  Forall (fun m => exists stem, m = (stem ++ "_")%string /\
                                removelast (of_string m) = of_string stem)
         mangled_forms /\
  (forall py_hashable py_eq (c : EnumClass) (name : pystr),
      writeObject py_hashable py_eq (VEnum c name)
      = bind (string_as_bytes (unmangleKeyword name))
             (fun bs => Ok (VByteArray ([enum_code c; 0x00] ++ bs)))) /\
  (forall py_hashable py_eq,
      writeObject py_hashable py_eq (VEnum Order (of_string "desc"))
      = Ok (VByteArray [0x1A; 0; 0; 0; 0; 4; 0x64; 0x65; 0x73; 0x63])).
Proof.
  split; [exact unmangleKeyword_spec|].
  split.
  { unfold mangled_forms.
    repeat (constructor;
            [match goal with
             | |- exists stem, ?m = _ /\ _ =>
               exists (substring 0 (String.length m - 1) m);
               split; reflexivity
             end|]).
    constructor. }
  split; [|reflexivity].
  intros h e c name. unfold writeObject.
  assert (Hbody : forall cls t,
             graphbinary_type cls = Some t ->
             _EnumIO_dictify cls (VEnum c name) false
             = bind (string_as_bytes (unmangleKeyword name))
                    (fun bs => Ok (VByteArray ([DataType_value t; 0x00] ++ bs)))).
  { intros cls t Ht. unfold _EnumIO_dictify, extend_string. rewrite Ht.
    destruct (string_as_bytes (unmangleKeyword name)); reflexivity. }
  destruct c;
    match goal with
    | |- toDict _ _ (VEnum ?c _) = _ =>
      let cls := eval vm_compute in (getitem pytype_eqb serializers (PyEnum c)) in
      match cls with
      | Some ?k =>
        rewrite (toDict_exact h e (VEnum c name) (PyEnum c) k)
          by reflexivity;
        cbn [dictify];
        match eval vm_compute in (graphbinary_type k) with
        | Some ?t => rewrite (Hbody k t) by reflexivity
        end
      end
    end; reflexivity.
Qed.

(** ** Round trip *)

(** *** Reading back what was written: the byte layer *)

Lemma firstn_length_app {A : Type} (bs rest : list A) :
  firstn (List.length bs) (bs ++ rest) = bs.
Proof. induction bs; cbn; congruence. Qed.

Lemma skipn_length_app {A : Type} (bs rest : list A) :
  skipn (List.length bs) (bs ++ rest) = rest.
Proof. induction bs; cbn; congruence. Qed.

Lemma rd_read_app (n : Z) (bs rest : list Z) :
  n = len bs -> rd_read n (bs ++ rest) = Ok (bs, rest).
Proof.
  intros ->. unfold rd_read, buff_read, len.
  replace (Z.of_nat (List.length bs) <? 0) with false
    by (symmetry; apply Z.ltb_ge; lia).
  now rewrite Nat2Z.id, firstn_length_app, skipn_length_app.
Qed.

Lemma is_null_nonnull (else_opt : Rd value) (rest : buffer) :
  is_null else_opt (0 :: rest) = else_opt rest.
Proof. reflexivity. Qed.

Lemma read_int_be (n : Z) (rest : list Z) :
  - 2 ^ 31 <= n <= 2 ^ 31 - 1 ->
  read_int (be_bytes 4 n ++ rest) = Ok (n, rest).
Proof.
  intros Hn. unfold read_int, rd_bind.
  rewrite rd_read_app by (unfold len; now rewrite be_bytes_length).
  unfold rd_lift.
  rewrite (struct_unpack_pack fmt_i n)
    by (apply struct_pack_in_range; cbn; lia).
  reflexivity.
Qed.

Lemma len_range {A : Type} (l : list A) :
  len l <= 2147483647 -> - 2 ^ 31 <= len l <= 2 ^ 31 - 1.
Proof. unfold len. lia. Qed.

Lemma utf8_encode_ascii (s : pystr) :
  Forall (fun c => 0 <= c < 128) s -> utf8_encode s = Ok s.
Proof.
  induction 1 as [|c s Hc _ IH]; [reflexivity|].
  cbn [utf8_encode]. unfold utf8_encode_char.
  replace (c <? 128) with true by (symmetry; apply Z.ltb_lt; lia).
  cbn [bind]. rewrite IH. reflexivity.
Qed.

Lemma utf8_decode_fuel_ascii (s : pystr) :
  Forall (fun c => 0 <= c < 128) s ->
  forall fuel, (List.length s <= fuel)%nat -> utf8_decode_fuel fuel s = Ok s.
Proof.
  induction 1 as [|c s Hc _ IH]; intros fuel Hf.
  - destruct fuel; reflexivity.
  - destruct fuel as [|fuel]; [cbn in Hf; lia|].
    cbn [utf8_decode_fuel]. unfold in_range at 1.
    replace ((0 <=? c) && (c <=? 127)) with true
      by (symmetry; apply andb_true_iff; split; apply Z.leb_le; lia).
    rewrite IH by (cbn in Hf; lia). reflexivity.
Qed.

Lemma utf8_decode_ascii (s : pystr) :
  Forall (fun c => 0 <= c < 128) s -> utf8_decode s = Ok s.
Proof. intros H. apply utf8_decode_fuel_ascii; [assumption | lia]. Qed.

Lemma string_as_bytes_raw (s : pystr) :
  raw_string s -> string_as_bytes s = Ok (raw s).
Proof.
  intros [Ha Hl]. unfold string_as_bytes.
  rewrite struct_pack_in_range by (cbn; unfold len in *; lia).
  cbn [bind]. rewrite utf8_encode_ascii by assumption. reflexivity.
Qed.

Lemma read_string_raw (s : pystr) (rest : list Z) :
  raw_string s -> read_string (raw s ++ rest) = Ok (s, rest).
Proof.
  intros [Ha Hl]. unfold read_string, raw, rd_bind.
  rewrite <- app_assoc, read_int_be by (now apply len_range).
  rewrite rd_read_app by reflexivity.
  unfold rd_lift. rewrite utf8_decode_ascii by assumption. reflexivity.
Qed.

Lemma raw_length (s : pystr) : List.length (raw s) = (4 + List.length s)%nat.
Proof. unfold raw. now rewrite length_app, be_bytes_length. Qed.

Lemma as_bytes_code (t : DataType) (ba : list Z) :
  as_bytes (Some t) None [VByteArray ba]
  = Ok (VByteArray (DataType_value t :: 0 :: ba)).
Proof. reflexivity. Qed.

Lemma as_bytes_code_bytes (t : DataType) (ba : list Z) :
  as_bytes (Some t) None [VByteBuffer ba]
  = Ok (VByteArray (DataType_value t :: 0 :: ba)).
Proof. reflexivity. Qed.

Lemma as_bytes_sized (t : DataType) (n : Z) (arg : value) (ba : list Z) :
  arg = VByteArray ba \/ arg = VByteBuffer ba ->
  - 2 ^ 31 <= n <= 2 ^ 31 - 1 ->
  as_bytes (Some t) (Some n) [arg]
  = Ok (VByteArray (DataType_value t :: 0 :: be_bytes 4 n ++ ba)).
Proof.
  intros Harg Hn. unfold as_bytes.
  change (struct_pack fmt_b 0) with (Ok [0]). cbn [bind app].
  rewrite struct_pack_in_range by (cbn; lia). cbn [bind fmt_size].
  destruct Harg as [-> | ->]; reflexivity.
Qed.

Section Decoding.

Variable py_hashable : value -> bool.
Variable py_eq : value -> value -> bool.
Variable enum_members : EnumClass -> list pystr.

Let toObject' := toObject py_hashable py_eq enum_members.

(** The reader, past a type code that has a handler. *)
Lemma toObject_code (t : DataType) (cls : handler) (fuel : nat)
      (buff : buffer) :
  getitem DataType_eqb deserializers t = Some cls ->
  toObject' (S fuel) (DataType_value t :: buff)
  = objectify py_hashable py_eq enum_members (toObject' fuel) fuel cls buff.
Proof.
  intros H. destruct t; vm_compute in H; try discriminate;
    inversion H; subst cls; reflexivity.
Qed.

End Decoding.

(** *** Each handler reads back what it writes *)

Ltac norm_app := repeat rewrite <- app_assoc; cbn [app].

Ltac fuel_lia :=
  cbn [List.length] in *;
  repeat rewrite length_app in *;
  repeat rewrite raw_length in *;
  repeat rewrite be_bytes_length in *;
  cbn [List.length] in *; lia.

Section RoundTrip.

Variable py_hashable : value -> bool.
Variable py_eq : value -> value -> bool.
Variable enum_members : EnumClass -> list pystr.

Let toDict' := toDict py_hashable py_eq.
Let toObject' := toObject py_hashable py_eq enum_members.

Local Abbreviation encodes := (encodes py_hashable py_eq enum_members).
Local Abbreviation enc_pair := (enc_pair py_hashable py_eq enum_members).
Local Abbreviation enc_inst := (enc_inst py_hashable py_eq enum_members).
Local Abbreviation apart := (apart py_eq).

Lemma encodes_intro (v : value) (t : DataType) (cls : handler)
      (payload : list Z) :
  getitem pytype_eqb serializers (type_of v) = Some cls ->
  getitem DataType_eqb deserializers t = Some cls ->
  dictify toDict' cls v false
  = Ok (VByteArray (DataType_value t :: 0 :: payload)) ->
  (forall fuel rest,
      (List.length payload < fuel)%nat ->
      objectify py_hashable py_eq enum_members (toObject' fuel) fuel cls
                (0 :: payload ++ rest)
      = Ok (decoded v, rest)) ->
  encodes v (DataType_value t :: 0 :: payload).
Proof.
  intros Hser Hdes Hw Hr. split; [|split].
  - now apply (toDict_ok _ _ v cls).
  - cbn. lia.
  - intros fuel rest Hf. destruct fuel as [|fuel]; [lia|].
    cbn [app]. unfold toObject'. rewrite (toObject_code _ _ _ t cls) by exact Hdes.
    apply Hr. cbn in Hf. lia.
Qed.

Lemma encodes_int (z : Z) :
  - 2 ^ 31 <= z <= 2 ^ 31 - 1 -> encodes (VInt z) (1 :: 0 :: be_bytes 4 z).
Proof.
  intros Hz. apply (encodes_intro (VInt z) dt_int IntIO); try reflexivity.
  - cbn [dictify]. unfold LongIO_dictify. cbn [as_int].
    replace ((z <? -9223372036854775808) || (z >? 9223372036854775807))
      with false by (symmetry; apply orb_false_iff; lia).
    cbn [byte_format]. rewrite struct_pack_in_range by (cbn; lia).
    reflexivity.
  - intros fuel rest _. cbn [objectify]. unfold IntIO_objectify.
    rewrite is_null_nonnull. unfold rd_bind.
    rewrite read_int_be by lia. reflexivity.
Qed.

Lemma encodes_long (z : Z) :
  - 2 ^ 63 <= z <= 2 ^ 63 - 1 -> encodes (VLong z) (2 :: 0 :: be_bytes 8 z).
Proof.
  intros Hz. apply (encodes_intro (VLong z) dt_long LongIO); try reflexivity.
  - cbn [dictify]. unfold LongIO_dictify. cbn [as_int].
    replace ((z <? -9223372036854775808) || (z >? 9223372036854775807))
      with false by (symmetry; apply orb_false_iff; lia).
    cbn [byte_format]. rewrite struct_pack_in_range by (cbn; lia).
    reflexivity.
  - intros fuel rest _. cbn [objectify]. unfold LongIO_objectify.
    rewrite is_null_nonnull. unfold rd_bind.
    rewrite rd_read_app by (unfold len; now rewrite be_bytes_length).
    unfold rd_lift. cbn [byte_format].
    rewrite (struct_unpack_pack fmt_q z)
      by (apply struct_pack_in_range; cbn; lia).
    reflexivity.
Qed.

Lemma encodes_bool (b : bool) :
  encodes (VBool b) [39; 0; if b then 1 else 0].
Proof.
  apply (encodes_intro (VBool b) dt_boolean BooleanIO); try reflexivity.
  - destruct b; reflexivity.
  - intros fuel rest _. destruct b; reflexivity.
Qed.

Lemma encodes_byte (z : Z) :
  - 128 <= z <= 127 -> encodes (VByte z) (36 :: 0 :: be_bytes 1 z).
Proof.
  intros Hz. apply (encodes_intro (VByte z) dt_byte ByteIO); try reflexivity.
  - cbn [dictify]. unfold ByteIO_dictify. cbn [as_int].
    rewrite struct_pack_in_range by (cbn; lia). reflexivity.
  - intros fuel rest _. cbn [objectify]. unfold ByteIO_objectify.
    rewrite is_null_nonnull. unfold rd_bind.
    rewrite rd_read_app by reflexivity.
    unfold rd_lift.
    rewrite (struct_unpack_pack fmt_b z)
      by (apply struct_pack_in_range; cbn; lia).
    reflexivity.
Qed.

Lemma encodes_str (s : pystr) :
  raw_string s -> encodes (VStr s) (3 :: 0 :: raw s).
Proof.
  intros Hs. apply (encodes_intro (VStr s) dt_string StringIO);
    try reflexivity.
  - cbn [dictify]. unfold StringIO_dictify.
    rewrite utf8_encode_ascii by apply Hs. cbn [bind].
    apply as_bytes_sized; [now right|]. apply len_range, Hs.
  - intros fuel rest _. cbn [objectify]. unfold StringIO_objectify.
    rewrite is_null_nonnull.
    pose proof (read_string_raw s rest Hs) as Hr.
    unfold read_string, rd_bind in Hr. unfold rd_bind.
    destruct (read_int (raw s ++ rest)) as [[n b1]| | |]; try discriminate.
    destruct (rd_read n b1) as [[bs b2]| | |]; try discriminate.
    unfold rd_lift in *.
    destruct (utf8_decode bs); cbn [bind] in *; try discriminate.
    inversion Hr; subst. reflexivity.
Qed.

Lemma encodes_bytes (bs : list Z) :
  len bs <= 2147483647 ->
  encodes (VByteBuffer bs) (37 :: 0 :: be_bytes 4 (len bs) ++ bs).
Proof.
  intros Hl.
  apply (encodes_intro (VByteBuffer bs) dt_bytebuffer ByteBufferIO);
    try reflexivity.
  - cbn [dictify]. unfold ByteBufferIO_dictify.
    apply as_bytes_sized; [now right|]. now apply len_range.
  - intros fuel rest _. cbn [objectify]. unfold ByteBufferIO_objectify.
    rewrite is_null_nonnull. unfold _read_bytebuffer, rd_bind.
    rewrite <- app_assoc, read_int_be by (now apply len_range).
    rewrite rd_read_app by reflexivity. reflexivity.
Qed.

Lemma encodes_uuid (bs : list Z) :
  List.length bs = 16%nat -> encodes (VUuid bs) (12 :: 0 :: bs).
Proof.
  intros Hl. apply (encodes_intro (VUuid bs) dt_uuid UuidIO); try reflexivity.
  intros fuel rest _. cbn [objectify]. unfold UuidIO_objectify.
  rewrite is_null_nonnull. unfold rd_bind.
  rewrite rd_read_app by (unfold len; now rewrite Hl).
  rewrite Hl. reflexivity.
Qed.

Lemma encodes_enum (c : EnumClass) (name : pystr) :
  raw_string name -> unmangleKeyword name = name ->
  In name (enum_members c) ->
  encodes (VEnum c name) (enum_code c :: 0 :: raw name).
Proof.
  intros Hs Hu Hin.
  assert (Hex : existsb (pystr_eqb name) (enum_members c) = true).
  { apply existsb_exists. exists name. split; [assumption|].
    apply pystr_eqb_refl. }
  assert (Hw : forall cls t,
             graphbinary_type cls = Some t ->
             _EnumIO_dictify cls (VEnum c name) false
             = Ok (VByteArray (DataType_value t :: 0 :: raw name))).
  { intros cls t Ht. unfold _EnumIO_dictify, extend_string.
    rewrite Hu, string_as_bytes_raw, Ht by assumption. reflexivity. }
  assert (Hr : forall cls rest,
             python_type cls = Some (PyEnum c) ->
             _EnumIO_objectify enum_members cls (0 :: raw name ++ rest)
             = Ok (decoded (VEnum c name), rest)).
  { intros cls rest Hp. unfold _EnumIO_objectify.
    rewrite is_null_nonnull. unfold rd_bind.
    rewrite read_string_raw by assumption.
    unfold rd_lift, enum_getitem. rewrite Hp, Hex. reflexivity. }
  destruct c;
    match goal with
    | |- encodes (VEnum ?c _) _ =>
      match eval vm_compute in (getitem pytype_eqb serializers (PyEnum c)) with
      | Some ?k =>
        match eval vm_compute in (graphbinary_type k) with
        | Some ?t =>
          apply (encodes_intro (VEnum c name) t k);
            [reflexivity | reflexivity
             | cbn [dictify]; apply Hw; reflexivity
             | intros fuel rest _; cbn [objectify];
               apply (Hr k); reflexivity]
        end
      end
    end.
Qed.

Lemma extend_object_enc (v : value) (bv ba : list Z) :
  encodes v bv -> extend_object toDict' ba v = Ok (ba ++ bv).
Proof. intros [Hw _]. unfold extend_object, toDict'. now rewrite Hw. Qed.

Lemma read_enc (v : value) (bv : list Z) (fuel : nat) (rest : list Z) :
  encodes v bv -> (List.length bv < fuel)%nat ->
  toObject' fuel (bv ++ rest) = Ok (decoded v, rest).
Proof. intros [_ [_ Hr]] Hf. now apply Hr. Qed.

Lemma extend_string_raw (ba : list Z) (s : pystr) :
  raw_string s -> extend_string ba s = Ok (ba ++ raw s).
Proof. intros Hs. unfold extend_string. now rewrite string_as_bytes_raw. Qed.

Ltac write_steps :=
  repeat (first [ match goal with
                  | H : encodes ?v _ |- context [extend_object _ _ ?v] =>
                    rewrite (extend_object_enc v _ _ H)
                  end
                | rewrite extend_string_raw by assumption
                | progress cbn [bind] ]).

Ltac read_steps :=
  repeat (first [ match goal with
                  | H : encodes ?v ?bv |- context [toObject' _ (?bv ++ _)] =>
                    rewrite (read_enc v bv _ _ H) by fuel_lia
                  end
                | rewrite read_string_raw by assumption
                | progress cbn [app] ]).

Lemma encodes_vertex (id : value) (label : pystr) (bid : list Z) :
  encodes id bid -> raw_string label ->
  encodes (VVertex id label) (17 :: 0 :: bid ++ raw label ++ [254]).
Proof.
  intros Hid Hl.
  apply (encodes_intro (VVertex id label) dt_vertex VertexIO);
    try reflexivity.
  - cbn [dictify]. unfold VertexIO_dictify. write_steps.
    unfold extend_null. cbn [graphbinary_type write_as_value].
    rewrite as_bytes_code. norm_app. reflexivity.
  - intros fuel rest Hf. cbn [objectify]. unfold VertexIO_objectify.
    rewrite is_null_nonnull. unfold _read_vertex, rd_bind.
    norm_app. read_steps. reflexivity.
Qed.

Lemma encodes_edge (id outV_id inV_id : value)
      (label outV_label inV_label : pystr) (bid bout bin : list Z) :
  encodes id bid -> encodes outV_id bout -> encodes inV_id bin ->
  raw_string label -> raw_string outV_label -> raw_string inV_label ->
  encodes (VEdge id outV_id outV_label label inV_id inV_label)
          (13 :: 0 :: bid ++ raw label ++ bin ++ raw inV_label
              ++ bout ++ raw outV_label ++ [254; 254]).
Proof.
  intros Hid Hout Hin Hl Hol Hil.
  apply (encodes_intro (VEdge id outV_id outV_label label inV_id inV_label)
                       dt_edge EdgeIO); try reflexivity.
  - cbn [dictify]. unfold EdgeIO_dictify. write_steps.
    unfold extend_null. cbn [graphbinary_type write_as_value].
    rewrite as_bytes_code. norm_app. reflexivity.
  - intros fuel rest Hf. cbn [objectify]. unfold EdgeIO_objectify.
    rewrite is_null_nonnull. unfold _read_edge, rd_bind.
    norm_app. read_steps. reflexivity.
Qed.

Lemma encodes_path (labels objects : value) (bl bo : list Z) :
  encodes labels bl -> encodes objects bo ->
  encodes (VPath labels objects) (14 :: 0 :: bl ++ bo).
Proof.
  intros Hl Ho.
  apply (encodes_intro (VPath labels objects) dt_path PathIO);
    try reflexivity.
  - cbn [dictify]. unfold PathIO_dictify. write_steps.
    cbn [graphbinary_type write_as_value].
    rewrite as_bytes_code. norm_app. reflexivity.
  - intros fuel rest Hf. cbn [objectify]. unfold PathIO_objectify.
    rewrite is_null_nonnull. unfold rd_bind.
    norm_app. read_steps. reflexivity.
Qed.

Lemma encodes_property (key : pystr) (val : value) (bv : list Z) :
  raw_string key -> encodes val bv ->
  encodes (VProperty key val) (15 :: 0 :: raw key ++ bv ++ [254]).
Proof.
  intros Hk Hv.
  apply (encodes_intro (VProperty key val) dt_property PropertyIO);
    try reflexivity.
  - cbn [dictify]. unfold PropertyIO_dictify. write_steps.
    unfold extend_null. cbn [graphbinary_type write_as_value].
    rewrite as_bytes_code. norm_app. reflexivity.
  - intros fuel rest Hf. cbn [objectify]. unfold PropertyIO_objectify.
    rewrite is_null_nonnull. unfold _read_property, rd_bind.
    norm_app. read_steps. reflexivity.
Qed.

Lemma encodes_vertexproperty (id : value) (label : pystr) (val : value)
      (bid bv : list Z) :
  encodes id bid -> raw_string label -> encodes val bv ->
  encodes (VVertexProperty id label val)
          (18 :: 0 :: bid ++ raw label ++ bv ++ [254; 254]).
Proof.
  intros Hid Hl Hv.
  apply (encodes_intro (VVertexProperty id label val)
                       dt_vertexproperty VertexPropertyIO); try reflexivity.
  - cbn [dictify]. unfold VertexPropertyIO_dictify. write_steps.
    unfold extend_null. cbn [graphbinary_type write_as_value].
    rewrite as_bytes_code. norm_app. reflexivity.
  - intros fuel rest Hf. cbn [objectify]. unfold VertexPropertyIO_objectify.
    rewrite is_null_nonnull. unfold _read_vertexproperty, rd_bind.
    norm_app. read_steps. reflexivity.
Qed.

Lemma encodes_binding (key : pystr) (val : value) (bv : list Z) :
  raw_string key -> encodes val bv ->
  encodes (VBinding key val) (20 :: 0 :: raw key ++ bv).
Proof.
  intros Hk Hv.
  apply (encodes_intro (VBinding key val) dt_binding BindingIO);
    try reflexivity.
  - cbn [dictify]. unfold BindingIO_dictify. write_steps.
    cbn [graphbinary_type write_as_value].
    rewrite as_bytes_code. norm_app. reflexivity.
  - intros fuel rest Hf. cbn [objectify]. unfold BindingIO_objectify.
    rewrite is_null_nonnull. unfold rd_bind.
    norm_app. read_steps. reflexivity.
Qed.

Lemma encodes_traverser (object : value) (bulk : Z) (bo : list Z) :
  encodes object bo -> - 2 ^ 63 <= bulk <= 2 ^ 63 - 1 ->
  encodes (VTraverser object bulk) (33 :: 0 :: be_bytes 8 bulk ++ bo).
Proof.
  intros Ho Hb.
  apply (encodes_intro (VTraverser object bulk) dt_traverser TraverserIO);
    try reflexivity.
  - cbn [dictify]. unfold TraverserIO_dictify.
    rewrite struct_pack_in_range by (cbn; lia). cbn [bind fmt_size].
    write_steps. cbn [graphbinary_type write_as_value].
    rewrite as_bytes_code. reflexivity.
  - intros fuel rest Hf. cbn [objectify]. unfold TraverserIO_objectify.
    rewrite is_null_nonnull. unfold _read_traverser, rd_bind.
    norm_app.
    rewrite rd_read_app by (unfold len; now rewrite be_bytes_length).
    unfold rd_lift.
    rewrite (struct_unpack_pack fmt_q bulk)
      by (apply struct_pack_in_range; cbn; lia).
    cbn [bind]. read_steps. reflexivity.
Qed.

(** *** Sequences of values *)

Lemma extend_objects_enc (l : list value) (bas : list (list Z)) :
  Forall2 encodes l bas ->
  forall ba, extend_objects toDict' ba l = Ok (ba ++ List.concat bas).
Proof.
  induction 1 as [|x bx l bas Hx _ IH]; intros ba;
    cbn [extend_objects List.concat].
  - now rewrite app_nil_r.
  - rewrite (extend_object_enc x bx ba Hx). cbn [bind].
    rewrite IH. now rewrite app_assoc.
Qed.

Lemma encodes_count (l : list value) (bas : list (list Z)) :
  Forall2 encodes l bas -> (List.length l <= List.length (List.concat bas))%nat.
Proof.
  induction 1 as [|x bx l bas [_ [Hx _]] _ IH]; cbn [List.length List.concat];
    [lia|].
  rewrite length_app. lia.
Qed.

Lemma len_cons_pos {A : Type} (x : A) (l : list A) : (len (x :: l) >? 0) = true.
Proof. unfold len. cbn [List.length]. apply Z.gtb_lt. lia. Qed.

Lemma len_cons_pred {A : Type} (x : A) (l : list A) : len (x :: l) - 1 = len l.
Proof. unfold len. cbn [List.length]. lia. Qed.

Lemma len_nil_pos {A : Type} : (@len A [] >? 0) = false.
Proof. reflexivity. Qed.

Lemma _read_list_loop_enc (fuel : nat) (l : list value)
      (bas : list (list Z)) :
  Forall2 encodes l bas ->
  (List.length (List.concat bas) < fuel)%nat ->
  forall n acc rest,
    (List.length l < n)%nat ->
    _read_list_loop (toObject' fuel) n (len l) acc (List.concat bas ++ rest)
    = Ok (acc ++ map decoded l, rest).
Proof.
  induction 1 as [|x bx l bas Hx _ IH]; intros Hf n acc rest Hn;
    (destruct n as [|n]; [cbn in Hn; lia|]); cbn [_read_list_loop].
  - rewrite len_nil_pos. cbn [map]. now rewrite app_nil_r.
  - rewrite len_cons_pos, len_cons_pred. unfold rd_bind at 1.
    cbn [List.concat] in *. rewrite <- app_assoc.
    rewrite (read_enc x bx fuel _ Hx) by fuel_lia.
    rewrite IH by (try fuel_lia; cbn in Hn; lia).
    cbn [map]. now rewrite <- app_assoc.
Qed.

Lemma encodes_list_payload (cls : handler) (t : DataType) (l : list value)
      (bas : list (list Z)) :
  Forall2 encodes l bas -> len l <= 2147483647 ->
  graphbinary_type cls = Some t ->
  ListIO_dictify toDict' cls (VList l) false
  = Ok (VByteArray (DataType_value t :: 0 :: be_bytes 4 (len l) ++ List.concat bas))
  /\
  ListIO_dictify toDict' cls (VSet l) false
  = Ok (VByteArray (DataType_value t :: 0 :: be_bytes 4 (len l) ++ List.concat bas))
  /\
  forall fuel rest,
    (List.length (be_bytes 4 (len l) ++ List.concat bas) < fuel)%nat ->
    ListIO_objectify (toObject' fuel) fuel ListIO
                     (0 :: (be_bytes 4 (len l) ++ List.concat bas) ++ rest)
    = Ok (VList (map decoded l), rest).
Proof.
  intros Hl Hn Ht.
  assert (Hw : forall obj,
             obj = VList l \/ obj = VSet l ->
             ListIO_dictify toDict' cls obj false
             = Ok (VByteArray (DataType_value t :: 0
                                 :: be_bytes 4 (len l) ++ List.concat bas))).
  { intros obj [-> | ->]; unfold ListIO_dictify;
      rewrite (extend_objects_enc l bas Hl); cbn [bind app];
        rewrite Ht; cbn [write_as_value];
          (apply as_bytes_sized; [now left | now apply len_range]). }
  split; [apply Hw; now left|]. split; [apply Hw; now right|].
  intros fuel rest Hf. unfold ListIO_objectify.
  rewrite is_null_nonnull. unfold _read_list, rd_bind.
  rewrite <- app_assoc, read_int_be by (now apply len_range).
  pose proof (encodes_count l bas Hl) as Hc.
  rewrite (_read_list_loop_enc fuel l bas Hl) by fuel_lia.
  reflexivity.
Qed.

Lemma encodes_list (l : list value) (bas : list (list Z)) :
  Forall2 encodes l bas -> len l <= 2147483647 ->
  encodes (VList l) (9 :: 0 :: be_bytes 4 (len l) ++ List.concat bas).
Proof.
  intros Hl Hn.
  destruct (encodes_list_payload ListIO dt_list l bas Hl Hn eq_refl)
    as [Hw [_ Hr]].
  apply (encodes_intro (VList l) dt_list ListIO); try reflexivity.
  - exact Hw.
  - intros fuel rest Hf. cbn [objectify]. now apply Hr.
Qed.

(** *** Sets and dicts keep distinct entries apart *)

Lemma ForallOrdPairs_app_cons {A : Type} (R : A -> A -> Prop)
      (l1 : list A) (x : A) (l2 : list A) :
  ForallOrdPairs R (l1 ++ x :: l2) ->
  Forall (fun y => R y x) l1 /\ ForallOrdPairs R ((l1 ++ [x]) ++ l2).
Proof.
  rewrite <- app_assoc. cbn [app].
  induction l1 as [|y l1 IH]; cbn [app]; intros H.
  - split; [constructor | exact H].
  - inversion H as [|? ? Hy Hrest]; subst.
    destruct (IH Hrest) as [H1 H2]. split.
    + constructor; [|exact H1].
      rewrite Forall_forall in Hy. apply Hy.
      apply in_or_app. right. now left.
    + constructor; assumption.
Qed.

Lemma set_of_distinct (items s : list value) :
  Forall (fun x => py_hashable x = true) items ->
  ForallOrdPairs apart (s ++ items) ->
  set_of py_hashable py_eq s items = Ok (s ++ items).
Proof.
  revert s. induction items as [|x items IH]; intros s Hh Hd;
    cbn [set_of].
  - now rewrite app_nil_r.
  - inversion Hh as [|? ? Hx Hh']; subst.
    destruct (ForallOrdPairs_app_cons apart s x items Hd) as [Hs Hd'].
    unfold set_add. rewrite Hx.
    replace (existsb (py_eq x) s) with false.
    + cbn [bind]. rewrite IH by assumption. now rewrite <- app_assoc.
    + symmetry. apply not_true_is_false. intros Hex.
      apply existsb_exists in Hex. destruct Hex as [y [Hy Hxy]].
      rewrite Forall_forall in Hs. destruct (Hs y Hy) as [_ Hf]. congruence.
Qed.

Lemma setitem_fresh (d : list (value * value)) (k v : value) :
  Forall (fun k0 => apart k0 k) (map fst d) ->
  setitem py_eq d k v = d ++ [(k, v)].
Proof.
  induction d as [|[k0 v0] d IH]; cbn [map fst setitem app]; intros H;
    [reflexivity|].
  inversion H as [|? ? [Hk _] H']; subst. rewrite Hk, IH by assumption.
  reflexivity.
Qed.

Lemma dict_of_distinct (pairs d : list (value * value)) :
  Forall (fun x => py_hashable x = true) (map fst pairs) ->
  ForallOrdPairs apart (map fst d ++ map fst pairs) ->
  dict_of py_hashable py_eq d pairs = Ok (d ++ pairs).
Proof.
  revert d. induction pairs as [|[k v] pairs IH]; intros d Hh Hd;
    cbn [dict_of map fst] in *.
  - now rewrite app_nil_r.
  - inversion Hh as [|? ? Hk Hh']; subst.
    destruct (ForallOrdPairs_app_cons apart (map fst d) k (map fst pairs) Hd)
      as [Hs Hd'].
    unfold dict_setitem. rewrite Hk, (setitem_fresh d k v Hs). cbn [bind].
    rewrite IH; [now rewrite <- app_assoc | assumption |].
    rewrite map_app. exact Hd'.
Qed.

Lemma encodes_set (l : list value) (bas : list (list Z)) :
  Forall2 encodes l bas -> len l <= 2147483647 ->
  distinct py_hashable py_eq (map decoded l) ->
  encodes (VSet l) (11 :: 0 :: be_bytes 4 (len l) ++ List.concat bas).
Proof.
  intros Hl Hn [Hh Hd].
  destruct (encodes_list_payload SetIO dt_set l bas Hl Hn eq_refl)
    as [_ [Hw Hr]].
  apply (encodes_intro (VSet l) dt_set SetIO); try reflexivity.
  - exact Hw.
  - intros fuel rest Hf. cbn [objectify]. unfold SetIO_objectify.
    unfold rd_bind at 1. rewrite Hr by exact Hf.
    unfold rd_bind, rd_lift.
    rewrite (set_of_distinct (map decoded l) []) by assumption.
    reflexivity.
Qed.

(** *** Dicts *)

Lemma extend_items_enc (kvs : list (value * value))
      (bas : list (list Z * list Z)) :
  Forall2 enc_pair kvs bas ->
  forall ba, extend_items toDict' ba kvs = Ok (ba ++ flat bas).
Proof.
  unfold flat.
  induction 1 as [|[k x] [bk bx] kvs bas [Hk Hx] _ IH]; intros ba;
    cbn [extend_items List.concat map fst snd] in *.
  - now rewrite app_nil_r.
  - rewrite (extend_object_enc k bk ba Hk). cbn [bind].
    rewrite (extend_object_enc x bx _ Hx). cbn [bind].
    rewrite IH. now rewrite <- !app_assoc.
Qed.

Lemma enc_pair_count (kvs : list (value * value))
      (bas : list (list Z * list Z)) :
  Forall2 enc_pair kvs bas -> (List.length kvs <= List.length (flat bas))%nat.
Proof.
  unfold flat.
  induction 1 as [|[k x] [bk bx] kvs bas [[_ [Hk _]] _] _ IH];
    cbn [List.length List.concat map fst snd] in *; [lia|].
  rewrite !length_app. lia.
Qed.

Lemma _read_map_loop_enc (fuel : nat) (kvs : list (value * value))
      (bas : list (list Z * list Z)) :
  Forall2 enc_pair kvs bas ->
  (List.length (flat bas) < fuel)%nat ->
  forall n d d' rest,
    (List.length kvs < n)%nat ->
    dict_of py_hashable py_eq d
            (map (fun '(k, x) => (decoded k, decoded x)) kvs) = Ok d' ->
    _read_map_loop py_hashable py_eq (toObject' fuel) n (len kvs) d
                   (flat bas ++ rest)
    = Ok (d', rest).
Proof.
  unfold flat.
  induction 1 as [|[k x] [bk bx] kvs bas [Hk Hx] _ IH];
    intros Hf n d d' rest Hn Hd;
    (destruct n as [|n]; [cbn in Hn; lia|]); cbn [_read_map_loop].
  - rewrite len_nil_pos. cbn [map dict_of] in Hd. inversion Hd; subst.
    reflexivity.
  - rewrite len_cons_pos, len_cons_pred.
    cbn [List.concat map fst snd dict_of] in *.
    unfold rd_bind at 1. rewrite <- !app_assoc.
    rewrite (read_enc k bk fuel _ Hk) by fuel_lia.
    unfold rd_bind at 1.
    rewrite (read_enc x bx fuel _ Hx) by fuel_lia.
    unfold rd_bind at 1. unfold rd_lift.
    destruct (dict_setitem py_hashable py_eq d (decoded k) (decoded x))
      as [d1| | |]; cbn [bind] in *; try discriminate.
    apply IH; [fuel_lia | cbn in Hn; lia | exact Hd].
Qed.

Lemma map_fst_decoded (kvs : list (value * value)) :
  map fst (map (fun '(k, x) => (decoded k, decoded x)) kvs)
  = map (fun kv => decoded (fst kv)) kvs.
Proof.
  induction kvs as [|[k x] kvs IH]; cbn [map fst]; congruence.
Qed.

Lemma encodes_map (kvs : list (value * value))
      (bas : list (list Z * list Z)) :
  Forall2 enc_pair kvs bas -> len kvs <= 2147483647 ->
  distinct py_hashable py_eq (map (fun kv => decoded (fst kv)) kvs) ->
  encodes (VMap kvs) (10 :: 0 :: be_bytes 4 (len kvs) ++ flat bas).
Proof.
  intros Hl Hn [Hh Hd].
  apply (encodes_intro (VMap kvs) dt_map MapIO); try reflexivity.
  - cbn [dictify]. unfold MapIO_dictify.
    rewrite (extend_items_enc kvs bas Hl). cbn [bind app].
    apply as_bytes_sized; [now left | now apply len_range].
  - intros fuel rest Hf. cbn [objectify]. unfold MapIO_objectify.
    rewrite is_null_nonnull. unfold _read_map, rd_bind.
    rewrite <- app_assoc, read_int_be by (now apply len_range).
    pose proof (enc_pair_count kvs bas Hl) as Hc.
    rewrite (_read_map_loop_enc fuel kvs bas Hl) with
        (d' := map (fun '(k, x) => (decoded k, decoded x)) kvs);
      [reflexivity | fuel_lia | fuel_lia |].
    apply (dict_of_distinct _ []); rewrite map_fst_decoded; assumption.
Qed.

(** *** Bytecode *)

Lemma extend_instructions_enc (insts : list (pystr * list value))
      (ibs : list (list Z)) :
  Forall2 enc_inst insts ibs ->
  forall ba, extend_instructions toDict' ba insts = Ok (ba ++ List.concat ibs).
Proof.
  induction 1 as [|[name args] ib insts ibs [Hs [Hn [bas [Ha ->]]]] _ IH];
    intros ba; cbn [extend_instructions List.concat fst snd] in *.
  - now rewrite app_nil_r.
  - rewrite extend_string_raw by assumption. cbn [bind].
    rewrite struct_pack_in_range by (cbn; unfold len in *; lia).
    cbn [bind fmt_size]. rewrite (extend_objects_enc args bas Ha).
    cbn [bind]. rewrite IH. now rewrite <- !app_assoc.
Qed.

Lemma _read_args_enc (fuel : nat) (l : list value) (bas : list (list Z)) :
  Forall2 encodes l bas ->
  (List.length (List.concat bas) < fuel)%nat ->
  forall n inst_ct iy acc rest,
    (List.length l < n)%nat ->
    inst_ct = iy + len l ->
    _read_args (toObject' fuel) n inst_ct iy acc (List.concat bas ++ rest)
    = Ok (acc ++ map decoded l, rest).
Proof.
  induction 1 as [|x bx l bas Hx _ IH]; intros Hf n inst_ct iy acc rest Hn Hc;
    (destruct n as [|n]; [cbn in Hn; lia|]); cbn [_read_args].
  - replace (iy <? inst_ct) with false
      by (symmetry; apply Z.ltb_ge; unfold len in Hc; cbn in Hc; lia).
    cbn [map]. now rewrite app_nil_r.
  - replace (iy <? inst_ct) with true
      by (symmetry; apply Z.ltb_lt; unfold len in Hc; cbn in Hc; lia).
    unfold rd_bind at 1. cbn [List.concat] in *. rewrite <- app_assoc.
    rewrite (read_enc x bx fuel _ Hx) by fuel_lia.
    rewrite IH;
      [cbn [map]; now rewrite <- app_assoc | fuel_lia | cbn in Hn; lia |].
    unfold len in *. cbn [List.length] in Hc. lia.
Qed.

Lemma _read_instructions_enc (fuel : nat)
      (insts : list (pystr * list value)) (ibs : list (list Z)) :
  Forall2 enc_inst insts ibs ->
  (List.length (List.concat ibs) < fuel)%nat ->
  forall n count ix acc rest,
    (List.length (List.concat ibs) < n)%nat ->
    count = ix + len insts ->
    _read_instructions (toObject' fuel) n count ix acc
                       (List.concat ibs ++ rest)
    = Ok (acc ++ map (fun '(name, args) => (name, map decoded args)) insts,
          rest).
Proof.
  induction 1 as [|[name args] ib insts ibs [Hs [Hl [bas [Ha ->]]]] _ IH];
    intros Hf n count ix acc rest Hn Hc;
    (destruct n as [|n]; [cbn in Hn; lia|]); cbn [_read_instructions].
  - replace (ix <? count) with false
      by (symmetry; apply Z.ltb_ge; unfold len in Hc; cbn in Hc; lia).
    cbn [map]. now rewrite app_nil_r.
  - replace (ix <? count) with true
      by (symmetry; apply Z.ltb_lt; unfold len in Hc; cbn in Hc; lia).
    cbn [List.concat fst snd] in *.
    pose proof (encodes_count args bas Ha) as Hargs.
    unfold rd_bind at 1. rewrite <- !app_assoc.
    rewrite read_string_raw by assumption.
    unfold rd_bind at 1. rewrite read_int_be by (now apply len_range).
    unfold rd_bind at 1.
    rewrite (_read_args_enc fuel args bas Ha)
      by (try fuel_lia; unfold len; lia).
    cbn [app].
    rewrite IH;
      [cbn [map]; now rewrite <- app_assoc | fuel_lia | fuel_lia |].
    unfold len in *. cbn [List.length] in Hc. lia.
Qed.

Lemma encodes_bytecode (steps sources : list (pystr * list value))
      (sbs qbs : list (list Z)) :
  Forall2 enc_inst steps sbs -> Forall2 enc_inst sources qbs ->
  len steps <= 2147483647 -> len sources <= 2147483647 ->
  encodes (VBytecode steps sources)
          (21 :: 0 :: be_bytes 4 (len steps) ++ List.concat sbs
              ++ be_bytes 4 (len sources) ++ List.concat qbs).
Proof.
  intros Hs Hq Hns Hnq.
  apply (encodes_intro (VBytecode steps sources) dt_bytecode BytecodeIO);
    try reflexivity.
  - cbn [dictify]. unfold BytecodeIO_dictify.
    rewrite struct_pack_in_range by (cbn; unfold len in *; lia).
    cbn [bind fmt_size]. rewrite (extend_instructions_enc steps sbs Hs).
    cbn [bind].
    rewrite struct_pack_in_range by (cbn; unfold len in *; lia).
    cbn [bind fmt_size]. rewrite (extend_instructions_enc sources qbs Hq).
    cbn [bind graphbinary_type write_as_value].
    rewrite as_bytes_code. now rewrite <- !app_assoc.
  - intros fuel rest Hf. cbn [objectify]. unfold BytecodeIO_objectify.
    rewrite is_null_nonnull. unfold _read_bytecode.
    unfold rd_bind at 1. rewrite <- !app_assoc.
    rewrite read_int_be by (now apply len_range).
    unfold rd_bind at 1.
    rewrite (_read_instructions_enc fuel steps sbs Hs)
      by (try fuel_lia; unfold len; lia).
    unfold rd_bind at 1. rewrite read_int_be by (now apply len_range).
    unfold rd_bind at 1.
    rewrite (_read_instructions_enc fuel sources qbs Hq)
      by (try fuel_lia; unfold len; lia).
    reflexivity.
Qed.

(** *** Every supported value *)

Lemma Forall2_of_Forall {A B : Type} (P : A -> Prop) (R : A -> B -> Prop)
      (l : list A) :
  Forall (fun x => P x -> exists y, R x y) l -> Forall P l ->
  exists ys, Forall2 R l ys.
Proof.
  induction 1 as [|x l Hx _ IH]; intros HP.
  - exists []. constructor.
  - inversion HP as [|? ? Hpx HPl]; subst.
    destruct (Hx Hpx) as [y Hy]. destruct (IH HPl) as [ys Hys].
    exists (y :: ys). now constructor.
Qed.

Let supported' := supported py_hashable py_eq enum_members.

Lemma supported_instructions_enc (insts : list (pystr * list value)) :
  Forall (fun inst =>
            Forall (fun v => supported' v -> exists ba, encodes v ba)
                   (snd inst)) insts ->
  Forall (supported_instruction supported') insts ->
  exists ibs, Forall2 enc_inst insts ibs.
Proof.
  intros IH Hs.
  apply (Forall2_of_Forall (supported_instruction supported')); [|exact Hs].
  clear Hs. induction IH as [|inst insts Hi _ IH']; constructor; [|exact IH'].
  intros [Hn [Ha Hl]].
  destruct (Forall2_of_Forall supported' encodes (snd inst) Hi Ha)
    as [bas Hbas].
  eexists. split; [exact Hn|]. split; [exact Hl|].
  exists bas. split; [exact Hbas | reflexivity].
Qed.

Lemma supported_encodes (v : value) :
  supported' v -> exists ba, encodes v ba.
Proof.
  induction v using value_induction; intros Hs; inversion Hs; subst.
  - eexists. now apply encodes_int.
  - eexists. now apply encodes_long.
  - eexists. apply encodes_bool.
  - eexists. now apply encodes_byte.
  - eexists. now apply encodes_str.
  - eexists. now apply encodes_bytes.
  - eexists. now apply encodes_uuid.
  - destruct (Forall2_of_Forall supported' encodes l) as [bas Hbas];
      [assumption | assumption |].
    eexists. now apply (encodes_list l bas).
  - destruct (Forall2_of_Forall supported' encodes l) as [bas Hbas];
      [assumption | assumption |].
    eexists. now apply (encodes_set l bas).
  - destruct (Forall2_of_Forall
                (fun kv => supported' (fst kv) /\ supported' (snd kv))
                enc_pair kvs) as [bas Hbas]; [|assumption|].
    { match goal with
      | IH : Forall (fun kv => (_ -> _) /\ _) kvs |- _ =>
        revert IH; apply Forall_impl
      end.
      intros [k x] [IHk IHx] [Hk Hx]. cbn [fst snd] in *.
      destruct (IHk Hk) as [bk Hbk]. destruct (IHx Hx) as [bx Hbx].
      exists (bk, bx). split; assumption. }
    eexists. now apply (encodes_map kvs bas).
  - destruct IHv1 as [b1 Hb1]; [assumption|].
    destruct IHv2 as [b2 Hb2]; [assumption|].
    destruct IHv3 as [b3 Hb3]; [assumption|].
    eexists. now apply (encodes_edge v1 v2 v3 _ _ _ b1 b2 b3).
  - destruct IHv1 as [b1 Hb1]; [assumption|].
    destruct IHv2 as [b2 Hb2]; [assumption|].
    eexists. now apply (encodes_path v1 v2 b1 b2).
  - destruct IHv as [b Hb]; [assumption|].
    eexists. now apply (encodes_property _ v b).
  - destruct IHv as [b Hb]; [assumption|].
    eexists. now apply (encodes_vertex v _ b).
  - destruct IHv1 as [b1 Hb1]; [assumption|].
    destruct IHv2 as [b2 Hb2]; [assumption|].
    eexists. now apply (encodes_vertexproperty v1 _ v2 b1 b2).
  - eexists. now apply encodes_enum.
  - destruct IHv as [b Hb]; [assumption|].
    eexists. now apply (encodes_binding _ v b).
  - destruct (supported_instructions_enc steps) as [sbs Hsbs];
      [assumption | assumption |].
    destruct (supported_instructions_enc sources) as [qbs Hqbs];
      [assumption | assumption |].
    eexists. now apply (encodes_bytecode steps sources sbs qbs).
  - destruct IHv as [b Hb]; [assumption|].
    eexists. now apply (encodes_traverser v _ b).
Qed.

Lemma Forall2_map_of_Forall {A : Type} (P : A -> Prop) (R : A -> A -> Prop)
      (f : A -> A) (l : list A) :
  Forall (fun x => P x -> R x (f x)) l -> Forall P l ->
  Forall2 R l (map f l).
Proof.
  induction 1 as [|x l Hx _ IH]; intros HP; cbn [map]; [constructor|].
  inversion HP; subst. constructor; auto.
Qed.

Lemma supported_instructions_same (insts : list (pystr * list value)) :
  Forall (fun inst =>
            Forall (fun v => supported' v -> same v (decoded v)) (snd inst))
         insts ->
  Forall (supported_instruction supported') insts ->
  Forall2 (fun a b => fst a = fst b /\ Forall2 same (snd a) (snd b)) insts
          (map (fun '(name, args) => (name, map decoded args)) insts).
Proof.
  induction 1 as [|[name args] insts Hi _ IH]; intros Hs; cbn [map];
    [constructor|].
  inversion Hs as [|? ? [_ [Ha _]] Hs']; subst.
  constructor; [|now apply IH].
  cbn [fst snd] in *. split; [reflexivity|].
  now apply (Forall2_map_of_Forall supported').
Qed.

Lemma supported_pairs_same (kvs : list (value * value)) :
  Forall (fun kv => (supported' (fst kv) -> same (fst kv) (decoded (fst kv)))
                    /\ (supported' (snd kv) ->
                        same (snd kv) (decoded (snd kv)))) kvs ->
  Forall (fun kv => supported' (fst kv) /\ supported' (snd kv)) kvs ->
  Forall2 (fun a b => same (fst a) (fst b) /\ same (snd a) (snd b)) kvs
          (map (fun '(k, x) => (decoded k, decoded x)) kvs).
Proof.
  induction 1 as [|[k x] kvs [IHk IHx] _ IH]; intros Hs; cbn [map];
    [constructor|].
  inversion Hs as [|? ? [Hk Hx] Hs']; subst.
  constructor; [|now apply IH].
  cbn [fst snd] in *. split; auto.
Qed.

Lemma supported_same (v : value) : supported' v -> same v (decoded v).
Proof.
  induction v using value_induction; intros Hs; inversion Hs; subst;
    cbn [decoded]; try (constructor; auto; fail).
  - constructor. now apply (Forall2_map_of_Forall supported').
  - apply (same_set l _ (map decoded l)); [|apply Permutation_refl].
    now apply (Forall2_map_of_Forall supported').
  - constructor. now apply supported_pairs_same.
  - constructor; now apply supported_instructions_same.
Qed.

End RoundTrip.

(** C1, as the code has it: for every supported value (see [supported]) the
    writer returns a byte array, and the reader turns that byte array, read
    to its end, into an equal value (see [same]). *)
Theorem round_trip :
  forall py_hashable py_eq enum_members (v : value),
    supported py_hashable py_eq enum_members v ->
    exists ba v',
      writeObject py_hashable py_eq v = Ok (VByteArray ba) /\
      readObject py_hashable py_eq enum_members (Object (VByteArray ba))
      = Ok (v', []) /\
      same v v'.
Proof.
  intros h e m v Hs.
  destruct (supported_encodes h e m v Hs) as [ba [Hw [_ Hr]]].
  exists ba, (decoded v). split; [exact Hw|]. split.
  - unfold readObject.
    change (isinstance (VByteArray ba) PyByteArray) with true.
    cbn [bytes_of]. specialize (Hr (S (List.length ba)) []).
    rewrite app_nil_r in Hr. apply Hr. lia.
  - now apply (supported_same h e m).
Qed.

Ltac solve_supported :=
  repeat
    match goal with
    | |- supported _ _ _ _ => constructor
    | |- Forall _ _ => constructor
    | |- ForallOrdPairs _ _ => constructor
    | |- distinct _ _ _ => split
    | |- raw_string _ => split
    | |- supported_instruction _ _ => split
    | |- _ /\ _ => split
    | |- In _ _ => vm_compute; tauto
    | |- _ <= _ => vm_compute; discriminate
    | |- @eq bool _ _ => reflexivity
    | |- @eq pystr _ _ => reflexivity
    | |- @eq nat _ _ => reflexivity
    | |- _ < _ => reflexivity
    | _ => progress cbn [fst snd map decoded]
    end.

Lemma round_trip_witness :
  exists ba v',
    writeObject example_hashable example_eq
      (VMap [(VStr (of_string "name"), VList [VInt 1; VLong 2]);
             (VEnum Order (of_string "desc"),
              VVertex (VInt 1) (of_string "person"));
             (VInt 7, VSet [VByte 1; VByte 2])])
    = Ok (VByteArray ba) /\
    readObject example_hashable example_eq example_members
               (Object (VByteArray ba)) = Ok (v', []) /\
    same (VMap [(VStr (of_string "name"), VList [VInt 1; VLong 2]);
                (VEnum Order (of_string "desc"),
                 VVertex (VInt 1) (of_string "person"));
                (VInt 7, VSet [VByte 1; VByte 2])]) v'.
Proof.
  apply round_trip. solve_supported.
Defined.

(** C1 as stated fails: the member [id_] of T is written under the name
    [id], so whatever members T has, the reader cannot give [id_] back; an
    int of 2^31 and a long of 2^63 are refused by the writer; the string
    U+00E9 is written with a length the reader cannot use. *)
Lemma round_trip_fails :
  ~ (exists py_hashable py_eq enum_members ba v',
        writeObject py_hashable py_eq (VEnum T (of_string "id_"))
        = Ok (VByteArray ba) /\
        readObject py_hashable py_eq enum_members (Object (VByteArray ba))
        = Ok (v', []) /\
        same (VEnum T (of_string "id_")) v') /\
  writeObject example_hashable example_eq (VInt (2 ^ 31)) = Raise StructError /\
  writeObject example_hashable example_eq (VLong (2 ^ 63))
  = Raise (Exception "TODO: don't forget bigint") /\
  writeObject example_hashable example_eq (VStr [0xE9])
  = Ok (VByteArray [0x03; 0; 0; 0; 0; 1; 0xC3; 0xA9]) /\
  readObject example_hashable example_eq example_members
             (Object (VByteArray [0x03; 0; 0; 0; 0; 1; 0xC3; 0xA9]))
  = Raise UnicodeDecodeError.
Proof.
  split; [|repeat split; reflexivity].
  intros (h & e & m & ba & v' & Hw & Hr & Hs).
  assert (Hba : ba = [32; 0; 0; 0; 0; 2; 105; 100]).
  { change (writeObject h e (VEnum T (of_string "id_")))
      with (Ok (VByteArray [32; 0; 0; 0; 0; 2; 105; 100])) in Hw.
    now inversion Hw. }
  subst ba.
  change (readObject h e m (Object (VByteArray [32; 0; 0; 0; 0; 2; 105; 100])))
    with (bind (enum_getitem m TIO [105; 100])
               (fun v => Ok (v, @nil Z))) in Hr.
  unfold enum_getitem in Hr. cbn [python_type] in Hr.
  destruct (existsb (pystr_eqb [105; 100]) (m T)); [|discriminate].
  inversion Hr; subst v'. inversion Hs.
Qed.

(** ** The fuel readObject starts with

    Every nested readObject takes the byte of a type code and every pass
    through a loop takes a byte or more, so a reader started with more fuel
    than the buffer has bytes never runs out of it. *)

Section Fuel.

Variable py_hashable : value -> bool.
Variable py_eq : value -> value -> bool.
Variable enum_members : EnumClass -> list pystr.

Lemma takes_a_byte_fuel_ok {A : Type} (n : nat) (m : Rd A) :
  takes_a_byte n m -> fuel_ok n m.
Proof.
  intros H buff Hb. destruct (H buff Hb) as [H1 H2]. split; [exact H1|].
  intros a buff' Hm. specialize (H2 a buff' Hm). lia.
Qed.

Lemma fuel_ok_ret {A : Type} (n : nat) (a : A) : fuel_ok n (rd_ret a).
Proof.
  intros buff _. split; [discriminate|].
  intros a' buff' H. inversion H; subst. lia.
Qed.

Lemma fuel_ok_lift {A : Type} (n : nat) (m : result A) :
  m <> OutOfFuel -> fuel_ok n (rd_lift m).
Proof.
  intros Hm buff _. unfold rd_lift. destruct m; cbn [bind];
    (split; [congruence|]); intros a' buff' H; inversion H; subst; lia.
Qed.

Lemma fuel_ok_raise {A : Type} (n : nat) (e : pyexn) :
  fuel_ok n (@rd_raise A e).
Proof. apply fuel_ok_lift. discriminate. Qed.

Lemma fuel_ok_unmodelled {A : Type} (n : nat) : fuel_ok n (@rd_unmodelled A).
Proof. intros buff _. split; discriminate. Qed.

Lemma buff_read_length (k : Z) (buff : buffer) :
  (List.length (snd (buff_read k buff)) <= List.length buff)%nat.
Proof.
  unfold buff_read. destruct (k <? 0); cbn [snd List.length]; [lia|].
  rewrite length_skipn. lia.
Qed.

Lemma fuel_ok_read (n : nat) (k : Z) : fuel_ok n (rd_read k).
Proof.
  intros buff _. unfold rd_read. split; [discriminate|].
  intros a buff' H. inversion H as [H1].
  pose proof (buff_read_length k buff) as Hl. rewrite H1 in Hl. exact Hl.
Qed.

Lemma fuel_ok_bind {A B : Type} (n : nat) (m : Rd A) (k : A -> Rd B) :
  fuel_ok n m -> (forall a, fuel_ok n (k a)) -> fuel_ok n (rd_bind m k).
Proof.
  intros Hm Hk buff Hb. unfold rd_bind.
  destruct (Hm buff Hb) as [H1 H2].
  destruct (m buff) as [[a b1]| | |]; try (split; [discriminate|discriminate]).
  - specialize (H2 a b1 eq_refl).
    destruct (Hk a b1) as [H3 H4]; [lia|].
    split; [exact H3|]. intros a' buff' H. specialize (H4 a' buff' H). lia.
  - contradiction.
Qed.

Lemma struct_unpack_fueled (f : fmt) (bs : list Z) :
  struct_unpack f bs <> OutOfFuel.
Proof.
  unfold struct_unpack. destruct (Nat.eqb _ _); discriminate.
Qed.

Lemma bind_fueled {A B : Type} (m : result A) (k : A -> result B) :
  m <> OutOfFuel -> (forall a, k a <> OutOfFuel) -> bind m k <> OutOfFuel.
Proof. intros Hm Hk. destruct m; cbn [bind]; auto; discriminate. Qed.

Lemma utf8_decode_fuel_fueled (fuel : nat) :
  forall bs, (List.length bs <= fuel)%nat ->
             utf8_decode_fuel fuel bs <> OutOfFuel.
Proof.
  induction fuel as [|fuel IH]; intros bs Hl.
  - destruct bs; [discriminate | cbn in Hl; lia].
  - cbn [utf8_decode_fuel].
    destruct bs as [|b0 r0]; [discriminate|]. cbn [List.length] in Hl.
    repeat match goal with
           | |- (if ?c then _ else _) <> _ => destruct c
           | |- match ?l with [] => _ | _ :: _ => _ end <> _ =>
             destruct l; cbn [List.length] in Hl
           | |- bind _ _ <> _ =>
             apply bind_fueled; [apply IH; lia | discriminate]
           | |- Raise _ <> _ => discriminate
           end.
Qed.

Lemma utf8_decode_fueled (bs : list Z) : utf8_decode bs <> OutOfFuel.
Proof. apply utf8_decode_fuel_fueled. lia. Qed.

Lemma fuel_ok_read_int (n : nat) : fuel_ok n read_int.
Proof.
  unfold read_int. apply fuel_ok_bind; [apply fuel_ok_read|].
  intros bs. apply fuel_ok_lift, struct_unpack_fueled.
Qed.

(** A successful read_int has taken four bytes. *)
Lemma read_int_takes (buff : buffer) (z : Z) (buff' : buffer) :
  read_int buff = Ok (z, buff') ->
  (List.length buff' + 4 = List.length buff)%nat.
Proof.
  destruct buff as [|a [|b [|c [|d l]]]]; try discriminate.
  change (read_int (a :: b :: c :: d :: l))
    with (Ok (to_signed 4 (be_unsigned [a; b; c; d]), l)).
  intros H. injection H as _ <-. cbn [List.length]. lia.
Qed.

Lemma fuel_ok_read_string (n : nat) : fuel_ok n read_string.
Proof.
  unfold read_string. apply fuel_ok_bind; [apply fuel_ok_read_int|].
  intros k. apply fuel_ok_bind; [apply fuel_ok_read|].
  intros bs. apply fuel_ok_lift, utf8_decode_fueled.
Qed.

Lemma read_string_takes (buff : buffer) (s : pystr) (buff' : buffer) :
  read_string buff = Ok (s, buff') ->
  (List.length buff' + 4 <= List.length buff)%nat.
Proof.
  unfold read_string. unfold rd_bind at 1.
  destruct (read_int buff) as [[k b1]| | |] eqn:Hi; try discriminate.
  apply read_int_takes in Hi. intros H.
  destruct (fuel_ok_bind (S (List.length b1)) (rd_read k)
              (fun bs => rd_lift (utf8_decode bs))
              (fuel_ok_read _ k)
              (fun bs => fuel_ok_lift _ _ (utf8_decode_fueled bs))
              b1 (Nat.lt_succ_diag_r _)) as [_ Hs].
  specialize (Hs s buff' H). lia.
Qed.

Lemma fuel_ok_is_null (n : nat) (else_opt : Rd value) :
  fuel_ok n else_opt -> fuel_ok n (is_null else_opt).
Proof.
  intros He. unfold is_null. apply fuel_ok_bind; [apply fuel_ok_read|].
  intros [|b bt]; [apply fuel_ok_raise|].
  destruct (b =? 1); [apply fuel_ok_ret | exact He].
Qed.

Ltac fuel_steps :=
  repeat first
         [ apply fuel_ok_is_null
         | apply fuel_ok_ret
         | apply fuel_ok_raise
         | apply fuel_ok_unmodelled
         | apply fuel_ok_read_string
         | apply fuel_ok_read_int
         | apply fuel_ok_read
         | apply fuel_ok_lift; first [ apply struct_unpack_fueled
                                     | apply utf8_decode_fueled ]
         | apply takes_a_byte_fuel_ok; assumption
         | apply fuel_ok_bind; [|intro] ].

Section Handlers.

Variable n : nat.
Variable readObject : Rd value.
Hypothesis readObject_ok : takes_a_byte n readObject.

Lemma good_bind {A B : Type} (m : Rd A) (k : A -> Rd B) (buff : buffer) :
  m buff <> OutOfFuel ->
  (forall a b1, m buff = Ok (a, b1) ->
                (List.length b1 <= List.length buff)%nat /\ good (k a) b1) ->
  good (rd_bind m k) buff.
Proof.
  intros Hm Hk. unfold good, rd_bind.
  destruct (m buff) as [[a b1]| | |];
    try (split; [discriminate|discriminate]); [|contradiction].
  destruct (Hk a b1 eq_refl) as [Hl [H3 H4]].
  split; [exact H3|]. intros r b H. specialize (H4 r b H). lia.
Qed.

Lemma good_readObject {A : Type} (k : value -> Rd A) (buff : buffer) :
  (List.length buff < n)%nat ->
  (forall x b1, (List.length b1 < List.length buff)%nat -> good (k x) b1) ->
  good (rd_bind readObject k) buff.
Proof.
  intros Hb Hk. destruct (readObject_ok buff Hb) as [H1 H2].
  apply good_bind; [exact H1|].
  intros x b1 Hx. specialize (H2 x b1 Hx). split; [lia|].
  apply Hk. exact H2.
Qed.

Lemma good_read_int {A : Type} (k : Z -> Rd A) (buff : buffer) :
  (forall z b1, (List.length b1 + 4 = List.length buff)%nat -> good (k z) b1) ->
  good (rd_bind read_int k) buff.
Proof.
  intros Hk. apply good_bind.
  - apply (fuel_ok_read_int (S (List.length buff))). lia.
  - intros z b1 Hz. apply read_int_takes in Hz. split; [lia|].
    now apply Hk.
Qed.

Lemma good_read_string {A : Type} (k : pystr -> Rd A) (buff : buffer) :
  (forall s b1, (List.length b1 + 4 <= List.length buff)%nat -> good (k s) b1) ->
  good (rd_bind read_string k) buff.
Proof.
  intros Hk. apply good_bind.
  - apply (fuel_ok_read_string (S (List.length buff))). lia.
  - intros z b1 Hz. apply read_string_takes in Hz. split; [lia|].
    now apply Hk.
Qed.

Lemma good_ret {A : Type} (a : A) (buff : buffer) : good (rd_ret a) buff.
Proof. apply (fuel_ok_ret (S (List.length buff))). lia. Qed.

Lemma _read_list_loop_fuel (c : nat) :
  (c <= n)%nat ->
  forall size the_list buff,
    (List.length buff < c)%nat ->
    good (_read_list_loop readObject c size the_list) buff.
Proof.
  induction c as [|c IH]; intros Hc size the_list buff Hb; [lia|].
  cbn [_read_list_loop]. destruct (size >? 0); [|apply good_ret].
  apply good_readObject; [lia|].
  intros x b1 Hb1. apply IH; lia.
Qed.

Lemma _read_bulkset_loop_fuel (c : nat) :
  (c <= n)%nat ->
  forall size the_list buff,
    (List.length buff < c)%nat ->
    good (_read_bulkset_loop readObject c size the_list) buff.
Proof.
  induction c as [|c IH]; intros Hc size the_list buff Hb; [lia|].
  cbn [_read_bulkset_loop]. destruct (size >? 0); [|apply good_ret].
  apply good_readObject; [lia|].
  intros x b1 Hb1. apply good_read_int.
  intros bulk b2 Hb2. apply IH; lia.
Qed.

Lemma _read_map_loop_fuel (c : nat) :
  (c <= n)%nat ->
  forall size the_dict buff,
    (List.length buff < c)%nat ->
    good (_read_map_loop py_hashable py_eq readObject c size the_dict) buff.
Proof.
  induction c as [|c IH]; intros Hc size the_dict buff Hb; [lia|].
  cbn [_read_map_loop]. destruct (size >? 0); [|apply good_ret].
  apply good_readObject; [lia|].
  intros k b1 Hb1. apply good_readObject; [lia|].
  intros x b2 Hb2. apply good_bind.
  - unfold rd_lift, dict_setitem. destruct (py_hashable k); discriminate.
  - intros d b3. unfold rd_lift, dict_setitem.
    destruct (py_hashable k); cbn [bind]; [|discriminate].
    intros H. injection H as <- <-. split; [lia|]. apply IH; lia.
Qed.

Lemma _read_args_fuel (c : nat) :
  (c <= n)%nat ->
  forall inst_ct iy args buff,
    (List.length buff < c)%nat ->
    good (_read_args readObject c inst_ct iy args) buff.
Proof.
  induction c as [|c IH]; intros Hc inst_ct iy args buff Hb; [lia|].
  cbn [_read_args]. destruct (iy <? inst_ct); [|apply good_ret].
  apply good_readObject; [lia|].
  intros x b1 Hb1. apply IH; lia.
Qed.

Lemma _read_instructions_fuel (c : nat) :
  (c <= n)%nat ->
  forall count ix insts buff,
    (List.length buff < c)%nat ->
    good (_read_instructions readObject c count ix insts) buff.
Proof.
  induction c as [|c IH]; intros Hc count ix insts buff Hb; [lia|].
  cbn [_read_instructions]. destruct (ix <? count); [|apply good_ret].
  apply good_read_string. intros name b1 Hb1.
  apply good_read_int. intros inst_ct b2 Hb2.
  apply good_bind.
  - apply _read_args_fuel; lia.
  - intros args b3 Ha.
    destruct (_read_args_fuel c ltac:(lia) inst_ct 0 [] b2 ltac:(lia))
      as [_ Hl].
    specialize (Hl args b3 Ha). split; [exact Hl|]. apply IH; lia.
Qed.

Lemma set_of_fueled (items s : list value) :
  set_of py_hashable py_eq s items <> OutOfFuel.
Proof.
  revert s. induction items as [|x items IH]; intros s; cbn [set_of];
    [discriminate|].
  unfold set_add. destruct (py_hashable x); cbn [bind];
    [apply IH | discriminate].
Qed.

Lemma objectify_fuel_ok (cls : handler) :
  fuel_ok n (objectify py_hashable py_eq enum_members readObject n cls).
Proof.
  destruct cls; cbn [objectify];
    unfold LongIO_objectify, IntIO_objectify, StringIO_objectify,
    ListIO_objectify, SetIO_objectify, ListIO_objectify, MapIO_objectify,
    UuidIO_objectify, EdgeIO_objectify, PathIO_objectify,
    PropertyIO_objectify, TinkerGraphIO_objectify, VertexIO_objectify,
    VertexPropertyIO_objectify, _EnumIO_objectify, BindingIO_objectify,
    BytecodeIO_objectify, TraverserIO_objectify, ByteIO_objectify,
    ByteBufferIO_objectify, BooleanIO_objectify, BulkSetIO_objectify,
    _read_list, _read_map, _read_edge, _read_property, _read_vertex,
    _read_vertexproperty, _read_bytecode, _read_traverser, _read_bytebuffer,
    _read_bulkset;
    fuel_steps;
    match goal with
    | |- fuel_ok _ (_read_list_loop _ _ _ _) =>
      intros buff Hb; apply _read_list_loop_fuel; [lia | exact Hb]
    | |- fuel_ok _ (_read_map_loop _ _ _ _ _ _) =>
      intros buff Hb; apply _read_map_loop_fuel; [lia | exact Hb]
    | |- fuel_ok _ (_read_bulkset_loop _ _ _ _) =>
      intros buff Hb; apply _read_bulkset_loop_fuel; [lia | exact Hb]
    | |- fuel_ok _ (_read_instructions _ _ _ _ _) =>
      intros buff Hb; apply _read_instructions_fuel; [lia | exact Hb]
    | |- fuel_ok _ (rd_lift (enum_getitem _ _ _)) =>
      apply fuel_ok_lift; unfold enum_getitem; cbn [python_type];
        destruct (existsb _ _); discriminate
    | |- fuel_ok _ (if ?c then _ else _) => destruct c; fuel_steps
    | |- fuel_ok _ (match ?a with VList _ => _ | _ => _ end) =>
      destruct a; fuel_steps; apply fuel_ok_lift, set_of_fueled
    end.
Qed.

End Handlers.

Lemma toObject_takes_a_byte (fuel : nat) :
  takes_a_byte fuel (toObject py_hashable py_eq enum_members fuel).
Proof.
  induction fuel as [|fuel IH]; intros buff Hb; [lia|].
  destruct buff as [|b rest]; [split; discriminate|].
  cbn [List.length] in *.
  remember (toObject py_hashable py_eq enum_members (S fuel) (b :: rest))
    as r eqn:Hr.
  cbn [toObject] in Hr. unfold rd_bind in Hr. rewrite rd_read_1 in Hr.
  destruct (b =? DataType_value dt_null).
  { subst r. split; [discriminate|].
    intros a buff' H. injection H as _ <-. lia. }
  unfold rd_lift in Hr.
  destruct (struct_unpack fmt_b [b]) as [bt_value| | |] eqn:Hu;
    cbn [bind] in Hr; try (subst r; split; discriminate).
  unfold DataType_of_value in Hr.
  destruct (find _ DataType_members) as [t|]; cbn [bind] in Hr;
    [|subst r; split; discriminate].
  destruct (getitem DataType_eqb deserializers t) as [cls|];
    [|subst r; split; discriminate].
  destruct (objectify_fuel_ok fuel _ IH cls rest) as [H1 H2]; [lia|].
  subst r. split; [exact H1|].
  intros a buff' H. specialize (H2 a buff' H). lia.
Qed.

End Fuel.

(** X1: readObject never stops for lack of fuel: every outcome it has in the
    model is an object or an exception of the code (or a payload outside
    the embedding). *)
Theorem readObject_fueled :
  forall py_hashable py_eq enum_members (b : source),
    readObject py_hashable py_eq enum_members b <> OutOfFuel.
Proof.
  intros h e m [o | buff]; unfold readObject.
  - destruct (isinstance o PyByteArray); [|discriminate].
    apply (toObject_takes_a_byte h e m). lia.
  - apply (toObject_takes_a_byte h e m). lia.
Qed.

(** * Further properties *)

(** ** The writer never raises KeyError, so an exact registry entry decides *)

Lemma nk_bind {A B : Type} (m : result A) (k : A -> result B) :
  no_KeyError m -> (forall a, no_KeyError (k a)) -> no_KeyError (bind m k).
Proof.
  unfold no_KeyError. intros Hm Hk.
  destruct m; cbn [bind]; auto; try discriminate.
  intros H. apply Hm. inversion H. reflexivity.
Qed.

Lemma nk_struct_pack f v : no_KeyError (struct_pack f v).
Proof. unfold no_KeyError, struct_pack. destruct (_ || _); discriminate. Qed.

Lemma nk_utf8_encode s : no_KeyError (utf8_encode s).
Proof.
  induction s as [|c s IH]; cbn [utf8_encode]; [discriminate|].
  apply nk_bind.
  - unfold no_KeyError, utf8_encode_char.
    repeat match goal with |- (if ?c then _ else _) <> _ => destruct c end;
      discriminate.
  - intros bs. apply nk_bind; [exact IH | discriminate].
Qed.

Lemma nk_string_as_bytes s : no_KeyError (string_as_bytes s).
Proof.
  unfold string_as_bytes. apply nk_bind; [apply nk_struct_pack|].
  intros n. apply nk_bind; [apply nk_utf8_encode | discriminate].
Qed.

Lemma nk_mapM_index_byte l : no_KeyError (mapM index_byte l).
Proof.
  induction l as [|x l IH]; cbn [mapM]; [discriminate|].
  apply nk_bind.
  - unfold no_KeyError. destruct x; cbn [index_byte]; try discriminate;
      destruct (in_range 0 255 z); discriminate.
  - intros b. apply nk_bind; [exact IH | discriminate].
Qed.

Lemma nk_bytearray_extend ba x : no_KeyError (bytearray_extend ba x).
Proof.
  destruct x; cbn [bytearray_extend]; try discriminate;
    try (apply nk_bind; [apply nk_mapM_index_byte | discriminate]).
  destruct s; discriminate.
Qed.

Lemma nk_extend_each l : forall ba, no_KeyError (extend_each ba l).
Proof.
  induction l as [|a l IH]; intros ba; cbn [extend_each]; [discriminate|].
  apply nk_bind; [apply nk_bytearray_extend | intros; apply IH].
Qed.

Lemma nk_as_bytes_args args : forall ba, no_KeyError (as_bytes_args ba args).
Proof.
  induction args as [|a args IH]; intros ba; cbn [as_bytes_args];
    [discriminate|].
  destruct a; try discriminate; apply IH.
Qed.

Lemma nk_as_bytes t size args : no_KeyError (as_bytes t size args).
Proof.
  unfold as_bytes. apply nk_bind; [apply nk_struct_pack|]. intros flag.
  apply nk_bind.
  - destruct size; [|discriminate].
    apply nk_bind; [apply nk_struct_pack | discriminate].
  - intros ba. apply nk_bind; [apply nk_as_bytes_args | discriminate].
Qed.

Section WriterErrors.

Variable w : value -> result value.

Lemma nk_extend_object ba x :
  no_KeyError (w x) -> no_KeyError (extend_object w ba x).
Proof.
  intros Hx. unfold extend_object.
  apply nk_bind; [exact Hx | intros; apply nk_bytearray_extend].
Qed.

Lemma nk_extend_string ba s : no_KeyError (extend_string ba s).
Proof.
  unfold extend_string. apply nk_bind; [apply nk_string_as_bytes|discriminate].
Qed.

Lemma nk_extend_objects l :
  Forall (fun x => no_KeyError (w x)) l ->
  forall ba, no_KeyError (extend_objects w ba l).
Proof.
  induction 1 as [|x l Hx _ IH]; intros ba; cbn [extend_objects];
    [discriminate|].
  apply nk_bind; [now apply nk_extend_object | intros; apply IH].
Qed.

Lemma nk_extend_items kvs :
  Forall (fun kv => no_KeyError (w (fst kv)) /\ no_KeyError (w (snd kv))) kvs ->
  forall ba, no_KeyError (extend_items w ba kvs).
Proof.
  induction 1 as [|[k x] kvs [Hk Hx] _ IH]; intros ba; cbn [extend_items];
    [discriminate|].
  cbn [fst snd] in *.
  apply nk_bind; [now apply nk_extend_object | intros].
  apply nk_bind; [now apply nk_extend_object | intros; apply IH].
Qed.

Lemma nk_extend_instructions insts :
  Forall (fun inst => Forall (fun x => no_KeyError (w x)) (snd inst)) insts ->
  forall ba, no_KeyError (extend_instructions w ba insts).
Proof.
  induction 1 as [|[name args] insts Ha _ IH]; intros ba;
    cbn [extend_instructions]; [discriminate|].
  cbn [snd] in Ha.
  apply nk_bind; [apply nk_extend_string | intros].
  apply nk_bind; [apply nk_struct_pack | intros].
  apply nk_bind; [now apply nk_extend_objects | intros; apply IH].
Qed.

End WriterErrors.

Ltac nk_steps :=
  repeat first
         [ assumption
         | apply nk_as_bytes
         | apply nk_struct_pack
         | apply nk_utf8_encode
         | apply nk_extend_string
         | apply nk_extend_each
         | apply nk_extend_object; solve [auto]
         | apply nk_extend_objects;
           first [assumption | apply Forall_forall; solve [auto]]
         | apply nk_extend_items;
           first [assumption | apply Forall_forall; solve [auto]]
         | apply nk_extend_instructions;
           first [assumption
                 | apply Forall_forall; intros; apply Forall_forall; solve [auto]]
         | apply nk_bind; [|intro]
         | discriminate ].

Ltac unfold_dictify :=
  cbn [dictify];
  unfold LongIO_dictify, StringIO_dictify, ListIO_dictify,
  MapIO_dictify, UuidIO_dictify, EdgeIO_dictify, PathIO_dictify,
  PropertyIO_dictify, TinkerGraphIO_dictify, VertexIO_dictify,
  VertexPropertyIO_dictify, _EnumIO_dictify, BindingIO_dictify,
  BytecodeIO_dictify, PIO_dictify, TextPIO_dictify,
  TraverserIO_dictify, ByteIO_dictify, ByteBufferIO_dictify,
  BooleanIO_dictify.

Lemma nk_P_dictify_body w cls operator val other as_value :
  no_KeyError (w val) -> no_KeyError (w other) ->
  no_KeyError (P_dictify_body w cls operator val other as_value).
Proof.
  intros Hv Ho. unfold P_dictify_body.
  apply nk_bind; [apply nk_extend_string | intros ba].
  apply nk_bind.
  - destruct other; nk_steps.
  - intros additional. nk_steps.
Qed.

(** No handler raises KeyError of its own: one can only come out of the
    writer it calls back. *)
Lemma dictify_no_KeyError w cls obj as_value :
  (forall x, no_KeyError (w x)) ->
  no_KeyError (dictify w cls obj as_value).
Proof.
  intros Hw. destruct cls; unfold_dictify; try discriminate;
    try (destruct (as_int obj); [|discriminate]);
    try match goal with
        | |- no_KeyError (if ?c then _ else _) => destruct c
        end;
    try (destruct obj; try discriminate;
         try (apply nk_P_dictify_body; apply Hw));
    nk_steps.
Qed.

Section Dispatch.

Variable py_hashable : value -> bool.
Variable py_eq : value -> value -> bool.

Let toDict' := toDict py_hashable py_eq.

Lemma toDict_of_handler (v : value) (cls : handler) :
  getitem pytype_eqb serializers (type_of v) = Some cls ->
  no_KeyError (dictify toDict' cls v false) ->
  toDict' v = dictify toDict' cls v false.
Proof.
  intros H1 H2. unfold toDict'. rewrite toDict_eq. unfold toDict_body.
  rewrite H1. fold toDict'.
  destruct (dictify toDict' cls v false) as [|[]| |]; try reflexivity.
  now elim H2.
Qed.

Lemma toDict_no_KeyError (v : value) : no_KeyError (toDict' v).
Proof.
  induction v using value_induction;
    try match goal with
        | |- no_KeyError (toDict' (VEnum ?c _)) => destruct c
        end;
    match goal with
    | |- no_KeyError (toDict' ?x) =>
      let r := eval vm_compute in (getitem pytype_eqb serializers (type_of x)) in
      match r with
      | None => unfold toDict'; rewrite toDict_eq; discriminate
      | Some ?cls =>
        rewrite (toDict_of_handler x cls eq_refl);
          unfold_dictify; cbn [as_int];
          try (apply nk_P_dictify_body; assumption);
          try match goal with
              | |- no_KeyError (if ?c then _ else _) => destruct c
              end;
          nk_steps
      end
    end.
Qed.

Lemma toDict_registered (v : value) (cls : handler) :
  getitem pytype_eqb serializers (type_of v) = Some cls ->
  toDict' v = dictify toDict' cls v false.
Proof.
  intros H. apply toDict_of_handler; [exact H|].
  apply dictify_no_KeyError, toDict_no_KeyError.
Qed.

End Dispatch.

(** X2: a value made of objects of the embedding (no float, datetime,
    timestamp, function or class anywhere in it) whose class has an entry
    in the registry, the entry being none of the [unmodelled] handlers, is
    written by that entry's handler and by no other: the handler's outcome,
    an error included, is the writer's outcome, since none of these
    handlers raises the KeyError that would send toDict on to the
    isinstance search.  So a bool goes to BooleanIO and a long to LongIO,
    although both are instances of int.  Nothing is said of LambdaIO and
    TypeSerializer, which run code of the caller: a KeyError raised there
    is caught by toDict. *)
Theorem writeObject_dispatch :
  forall py_hashable py_eq (v : value) (cls : handler),
    getitem pytype_eqb serializers (type_of v) = Some cls ->
    ~ In cls unmodelled ->
    writeObject py_hashable py_eq v
    = dictify (writeObject py_hashable py_eq) cls v false.
Proof.
  intros h e v cls H _.
  change (toDict h e v = dictify (toDict h e) cls v false).
  now apply toDict_registered.
Qed.

Lemma writeObject_dispatch_witness :
  writeObject example_hashable example_eq (VBool true)
  = dictify (writeObject example_hashable example_eq) BooleanIO (VBool true)
            false.
Proof.
  apply writeObject_dispatch; [reflexivity|].
  cbn [In unmodelled]. intuition discriminate.
Defined.

(** ** The registries the metaclass fills *)

(** X3: DataType(v) finds the member whose value is v, and only that one: no
    two members share a value. *)
Theorem DataType_of_value_spec :
  forall (d : DataType) (z : Z),
    DataType_of_value z = Ok d <-> DataType_value d = z.
Proof.
  intros d z. split.
  - unfold DataType_of_value.
    destruct (find _ DataType_members) as [d'|] eqn:Hf; [|discriminate].
    intros H. injection H as ->.
    apply find_some in Hf. destruct Hf as [_ Hf]. now apply Z.eqb_eq.
  - intros <-. destruct d; reflexivity.
Qed.

(** X4: the reader's registry holds a handler under a wire type exactly when
    the handler declares that wire type: every handler with a wire type is
    found under it, and none has been replaced by a later one. *)
Theorem deserializers_spec :
  forall (t : DataType) (cls : handler),
    getitem DataType_eqb deserializers t = Some cls
    <-> graphbinary_type cls = Some t.
Proof.
  intros t cls. destruct t;
    match goal with
    | |- getitem _ _ ?t = _ <-> _ =>
      let r := eval vm_compute in (getitem DataType_eqb deserializers t) in
      change (getitem DataType_eqb deserializers t) with r
    end;
    destruct cls; cbn [graphbinary_type]; split; intros H;
      first [reflexivity | discriminate H].
Qed.

(** X5: the writer's registry holds a handler under a Python class exactly
    when the handler declares that class and is not FloatIO: DoubleIO,
    declared later for the same class float, has taken FloatIO's place, so
    a float is never written as a 4-byte float. *)
Theorem serializers_spec :
  forall (t : pytype) (cls : handler),
    getitem pytype_eqb serializers t = Some cls
    <-> python_type cls = Some t /\ cls <> FloatIO.
Proof.
  intros t cls.
  destruct t as [| | | | | | | | | | | | | | | | | | |c| | | | | | | | | |];
    try destruct c;
    match goal with
    | |- getitem _ _ ?t = _ <-> _ =>
      let r := eval vm_compute in (getitem pytype_eqb serializers t) in
      change (getitem pytype_eqb serializers t) with r
    end;
    destruct cls; cbn [python_type]; split;
      first [ intros [H1 H2]; first [discriminate H1 | now elim H2 | reflexivity]
            | intros H; first [discriminate H | split; [reflexivity | discriminate]] ].
Qed.

(** ** The head of what a handler writes *)

Lemma as_bytes_args_cons (c : Z) (args : list value) : forall ba,
  as_bytes_args (c :: ba) args
  = bind (as_bytes_args ba args) (fun r => Ok (c :: r)).
Proof.
  induction args as [|a args IH]; intros ba; cbn [as_bytes_args];
    [reflexivity|].
  destruct a; try reflexivity; apply (IH (ba ++ _)).
Qed.

Lemma as_bytes_args_app (args : list value) : forall ba r,
  as_bytes_args ba args = Ok r -> exists tail, r = ba ++ tail.
Proof.
  induction args as [|a args IH]; intros ba r; cbn [as_bytes_args].
  - intros H. injection H as <-. exists []. now rewrite app_nil_r.
  - destruct a; try discriminate; intros H;
      destruct (IH _ _ H) as [tail ->]; eexists;
        rewrite <- app_assoc; reflexivity.
Qed.

Lemma as_bytes_prepend (t : DataType) (size : option Z) (args : list value) :
  as_bytes (Some t) size args
  = prepend (DataType_value t) (as_bytes None size args).
Proof.
  unfold as_bytes.
  change (struct_pack fmt_b 0) with (@Ok (list Z) [0]). cbn [bind app].
  destruct size as [n|]; cbn [bind].
  - destruct (struct_pack fmt_i n) as [bs| | |]; cbn [bind app];
      try reflexivity.
    rewrite as_bytes_args_cons.
    destruct (as_bytes_args _ args); reflexivity.
  - rewrite as_bytes_args_cons.
    destruct (as_bytes_args _ args); reflexivity.
Qed.

Lemma as_bytes_frame (t : DataType) (size : option Z) (args : list value)
      (r : value) :
  as_bytes (Some t) size args = Ok r ->
  exists payload, r = VByteArray (DataType_value t :: 0 :: payload).
Proof.
  unfold as_bytes.
  change (struct_pack fmt_b 0) with (@Ok (list Z) [0]). cbn [bind app].
  destruct size as [n|]; cbn [bind].
  - destruct (struct_pack fmt_i n) as [bs| | |]; cbn [bind app];
      try discriminate.
    destruct (as_bytes_args _ args) as [ba| | |] eqn:Ha; cbn [bind];
      try discriminate.
    intros H. injection H as <-.
    destruct (as_bytes_args_app _ _ _ Ha) as [tail ->]. now eexists.
  - destruct (as_bytes_args _ args) as [ba| | |] eqn:Ha; cbn [bind];
      try discriminate.
    intros H. injection H as <-.
    destruct (as_bytes_args_app _ _ _ Ha) as [tail ->]. now eexists.
Qed.

(** Walks down the binds on both sides of a goal that compares a handler's
    two forms. *)
Ltac prepend_steps :=
  repeat match goal with
         | |- bind ?m _ = prepend _ (bind ?m _) =>
           destruct m; cbn [bind prepend]; try reflexivity
         | |- as_bytes (Some _) _ _ = prepend _ _ => apply as_bytes_prepend
         end.

(** X6: as_value decides one thing only, for every handler that has a wire
    type: with as_value false the output is the as_value output with the
    type code put in front; the outcome is otherwise the same, errors
    included. *)
Theorem dictify_as_value :
  forall (writeObject : value -> result value) (cls : handler) (t : DataType)
         (obj : value),
    graphbinary_type cls = Some t ->
    dictify writeObject cls obj false
    = prepend (DataType_value t) (dictify writeObject cls obj true).
Proof.
  intros w cls t obj Ht.
  destruct cls; cbn [graphbinary_type] in Ht; try discriminate Ht;
    injection Ht as <-; unfold_dictify; try reflexivity;
      try (destruct (as_int obj); [|reflexivity]);
      try match goal with
          | |- (if ?c then _ else _) = _ => destruct c; [reflexivity|]
          end;
      try (destruct obj; try reflexivity;
           try (apply P_dictify_body_code; reflexivity));
      cbn [write_as_value graphbinary_type];
      prepend_steps.
Qed.

Lemma dictify_as_value_witness :
  dictify (writeObject example_hashable example_eq) VertexIO
          (VVertex (VInt 1) (of_string "person")) false
  = prepend (DataType_value dt_vertex)
            (dictify (writeObject example_hashable example_eq) VertexIO
                     (VVertex (VInt 1) (of_string "person")) true).
Proof. apply dictify_as_value. reflexivity. Defined.

Ltac frame_steps :=
  repeat match goal with
         | H : bind ?m _ = Ok _ |- _ =>
           destruct m; cbn [bind] in H; try discriminate H
         | H : as_bytes (Some _) _ _ = Ok _ |- _ =>
           exact (as_bytes_frame _ _ _ _ H)
         end.

Lemma dictify_frame (w : value -> result value) (cls : handler)
      (t : DataType) (obj r : value) :
  graphbinary_type cls = Some t -> cls <> PIO -> cls <> TextPIO ->
  dictify w cls obj false = Ok r ->
  exists payload, r = VByteArray (DataType_value t :: 0 :: payload).
Proof.
  intros Ht H1 H2.
  destruct cls; cbn [graphbinary_type] in Ht; try discriminate Ht;
    try (now elim H1); try (now elim H2);
    injection Ht as <-; unfold_dictify; try discriminate;
      try (destruct (as_int obj); [|discriminate]);
      try match goal with
          | |- (if ?c then _ else _) = _ -> _ => destruct c; [discriminate|]
          end;
      try (destruct obj; try discriminate);
      cbn [write_as_value graphbinary_type];
      intros H; frame_steps.
Qed.

(** X7: whatever the writer returns for a value made of objects of the
    embedding, of a registered class whose handler is none of PIO, TextPIO
    and the [unmodelled] ones, starts with two bytes: the type code of the
    class's handler and the value flag 0x00; these handlers never set the
    null flag.  (PIO and TextPIO write no flag, and neither does LambdaIO,
    which is not covered; TypeSerializer writes what the writer returns for
    [typ()].) *)
Theorem writeObject_frame :
  forall py_hashable py_eq (v r : value) (cls : handler) (t : DataType),
    getitem pytype_eqb serializers (type_of v) = Some cls ->
    graphbinary_type cls = Some t ->
    cls <> PIO -> cls <> TextPIO -> ~ In cls unmodelled ->
    writeObject py_hashable py_eq v = Ok r ->
    exists payload, r = VByteArray (DataType_value t :: 0x00 :: payload).
Proof.
  intros h e v r cls t Hs Ht H1 H2 _ Hw.
  change (toDict h e v = Ok r) in Hw.
  rewrite (toDict_registered h e v cls Hs) in Hw.
  exact (dictify_frame _ cls t v r Ht H1 H2 Hw).
Qed.

Lemma writeObject_frame_witness :
  exists payload,
    VByteArray [0x11; 0; 1; 0; 0; 0; 0; 1; 0; 0; 0; 1; 97; 0xfe]
    = VByteArray (DataType_value dt_vertex :: 0x00 :: payload).
Proof.
  apply (writeObject_frame example_hashable example_eq
                           (VVertex (VInt 1) (of_string "a")) _ VertexIO);
    [ reflexivity | reflexivity | discriminate | discriminate
    | cbn [In unmodelled]; intuition discriminate | reflexivity ].
Defined.

(** ** What the reader does with a byte it cannot dispatch on *)

Lemma readObject_bytearray h e m (ba : list Z) :
  readObject h e m (Object (VByteArray ba))
  = readObject h e m (BufferedReader ba).
Proof. reflexivity. Qed.

Lemma DataType_of_value_unknown (z : Z) :
  z < 0 \/ 0x2d < z -> z <> 0xfe -> DataType_of_value z = Raise ValueError.
Proof.
  intros Hz Hn. unfold DataType_of_value.
  cbn [find DataType_members DataType_value].
  repeat match goal with
         | |- context [?a =? z] => destruct (Z.eqb_spec a z); [lia|]
         end.
  reflexivity.
Qed.

(** X8: a first byte that is no value of DataType makes the reader raise
    ValueError.  The byte is unpacked as a signed one, so besides 0x2e to
    0x7f these are all the bytes from 0x80 on, read as negative numbers,
    0xfe apart, which is taken for null before the unpacking. *)
Theorem readObject_unknown_code :
  forall py_hashable py_eq enum_members (b : Z) (rest : list Z),
    0x2e <= b <= 0xfd \/ b = 0xff ->
    readObject py_hashable py_eq enum_members (BufferedReader (b :: rest))
    = Raise ValueError.
Proof.
  intros h e m b rest Hb. unfold readObject. cbn [toObject].
  unfold rd_bind at 1. rewrite rd_read_1.
  destruct (Z.eqb_spec b (DataType_value dt_null)) as [Hn|_];
    [cbn in Hn; lia|].
  unfold rd_bind at 1. unfold rd_lift at 1, struct_unpack.
  cbn [List.length fmt_size Nat.eqb bind].
  unfold to_signed, be_unsigned. cbn [fold_left].
  unfold rd_bind, rd_lift.
  rewrite DataType_of_value_unknown; [reflexivity| |];
    destruct (Z.ltb_spec (0 * 256 + b) (2 ^ (8 * Z.of_nat 1 - 1)));
    change (2 ^ (8 * Z.of_nat 1 - 1)) with 128 in *;
    change (2 ^ (8 * Z.of_nat 1)) with 256 in *; lia.
Qed.

Lemma readObject_unknown_code_witness :
  readObject example_hashable example_eq example_members
             (BufferedReader [0x80; 0; 1])
  = Raise ValueError.
Proof. apply readObject_unknown_code. lia. Defined.

(** X9: a first byte that is the value of a DataType member for which no
    handler is declared (custom, clazz, bigdecimal, biginteger, short,
    traversalstrategy, tree, metrics, traversalmetrics) makes the reader
    raise KeyError, whatever follows. *)
Theorem readObject_unhandled_type :
  forall py_hashable py_eq enum_members (t : DataType) (rest : list Z),
    t <> dt_null ->
    getitem DataType_eqb deserializers t = None ->
    readObject py_hashable py_eq enum_members
               (BufferedReader (DataType_value t :: rest))
    = Raise KeyError.
Proof.
  intros h e m t rest Hn Hd.
  destruct t; try (now elim Hn); vm_compute in Hd; try discriminate Hd;
    reflexivity.
Qed.

Lemma readObject_unhandled_type_witness :
  readObject example_hashable example_eq example_members
             (BufferedReader [DataType_value dt_biginteger; 0; 0; 0; 0; 1; 5])
  = Raise KeyError.
Proof.
  apply readObject_unhandled_type; [discriminate | reflexivity].
Defined.

Lemma P_dictify_body_bytearray w cls operator val other as_value r :
  P_dictify_body w cls operator val other as_value = Ok r ->
  exists ba, r = VByteArray ba.
Proof.
  unfold P_dictify_body. intros H.
  repeat match goal with
         | H : bind ?m _ = Ok _ |- _ =>
           destruct m; cbn [bind] in H; try discriminate H
         end.
  injection H as <-. now eexists.
Qed.

(** X10: the reader has no use for what the writer makes of a predicate:
    whatever the writer returns for a P or a TextP, the reader raises on
    it (PIO and TextPIO declare no objectify). *)
Theorem predicate_not_readable :
  forall py_hashable py_eq enum_members (operator : pystr) (val other r : value),
    writeObject py_hashable py_eq (VP operator val other) = Ok r \/
    writeObject py_hashable py_eq (VTextP operator val other) = Ok r ->
    exists ex,
      readObject py_hashable py_eq enum_members (Object r) = Raise ex.
Proof.
  intros h e m op val other r H.
  assert (Hr : exists ba, r = VByteArray (0x1e :: ba)
                          \/ r = VByteArray (0x28 :: ba)).
  { destruct H as [H|H]; unfold writeObject in H;
      [ rewrite (toDict_registered h e (VP op val other) PIO eq_refl) in H
      | rewrite (toDict_registered h e (VTextP op val other) TextPIO eq_refl)
          in H ];
      cbn [dictify] in H; unfold PIO_dictify, TextPIO_dictify in H;
        match type of H with
        | P_dictify_body _ ?cls _ _ _ _ = _ =>
          rewrite (P_dictify_body_code _ cls _ _ _ _ eq_refl) in H
        end;
        destruct (P_dictify_body _ _ op val other true) as [r'| | |] eqn:Hb;
        cbn [prepend] in H; try discriminate H;
          destruct (P_dictify_body_bytearray _ _ _ _ _ _ _ Hb) as [ba ->];
          injection H as <-; exists ba;
            first [left; reflexivity | right; reflexivity]. }
  destruct Hr as [ba [-> | ->]]; eexists; reflexivity.
Qed.

Lemma predicate_not_readable_witness :
  exists ex,
    readObject example_hashable example_eq example_members
               (Object (VByteArray [0x1e; 0; 0; 0; 2; 101; 113;
                                    0; 0; 0; 1; 1; 0; 0; 0; 0; 1]))
    = Raise ex.
Proof.
  apply (predicate_not_readable example_hashable example_eq example_members
                                (of_string "eq") (VInt 1) VNone).
  left. reflexivity.
Defined.

(** ** Input that ends early *)

(** X11: on an exhausted buffer the reader raises IndexError (it indexes the
    empty result of read(1)); so does every handler that starts with the
    value flag when the input ends after the type code. *)
Theorem readObject_end_of_input :
  forall py_hashable py_eq enum_members,
    readObject py_hashable py_eq enum_members (BufferedReader [])
    = Raise IndexError /\
    forall (t : DataType) (cls : handler),
      getitem DataType_eqb deserializers t = Some cls ->
      cls <> TinkerGraphIO -> cls <> LambdaIO -> cls <> PIO ->
      cls <> TextPIO ->
      readObject py_hashable py_eq enum_members
                 (BufferedReader [DataType_value t])
      = Raise IndexError.
Proof.
  intros h e m. split; [reflexivity|].
  intros t cls Hd H1 H2 H3 H4.
  destruct t; vm_compute in Hd; try discriminate Hd;
    injection Hd as <-;
    try (now elim H1); try (now elim H2); try (now elim H3);
      try (now elim H4); reflexivity.
Qed.

Lemma readObject_end_of_input_witness :
  readObject example_hashable example_eq example_members
             (BufferedReader [DataType_value dt_map])
  = Raise IndexError.
Proof.
  apply (proj2 (readObject_end_of_input example_hashable example_eq
                                        example_members) dt_map MapIO);
    [reflexivity | discriminate | discriminate | discriminate | discriminate].
Defined.

(** X12: a payload of fixed width that ends early is an error, nothing is
    padded: an int with fewer than four payload bytes and a long with fewer
    than eight make the reader raise struct.error, a UUID with fewer than
    sixteen ValueError. *)
Theorem readObject_short_payload :
  forall py_hashable py_eq enum_members (payload : list Z),
    ((List.length payload < 4)%nat ->
     readObject py_hashable py_eq enum_members
                (BufferedReader (0x01 :: 0x00 :: payload))
     = Raise StructError) /\
    ((List.length payload < 8)%nat ->
     readObject py_hashable py_eq enum_members
                (BufferedReader (0x02 :: 0x00 :: payload))
     = Raise StructError) /\
    ((List.length payload < 16)%nat ->
     readObject py_hashable py_eq enum_members
                (BufferedReader (0x0c :: 0x00 :: payload))
     = Raise ValueError).
Proof.
  intros h e m payload. split; [|split]; intros Hl.
  - destruct payload as [|a [|b [|c [|d l]]]]; cbn [List.length] in Hl;
      try lia; reflexivity.
  - destruct payload as [|a [|b [|c [|d [|x [|y [|z [|u l]]]]]]]];
      cbn [List.length] in Hl; try lia; reflexivity.
  - unfold readObject.
    change 0x0c with (DataType_value dt_uuid).
    rewrite (toObject_code h e m dt_uuid UuidIO) by reflexivity.
    cbn [objectify]. unfold UuidIO_objectify.
    rewrite is_null_nonnull. unfold rd_bind, rd_read, buff_read.
    change (16 <? 0) with false. cbv iota.
    change (Z.to_nat 16) with 16%nat.
    rewrite firstn_all2 by lia.
    destruct (Nat.eqb_spec (List.length payload) 16); [lia|]. reflexivity.
Qed.

Lemma readObject_short_payload_witness :
  readObject example_hashable example_eq example_members
             (BufferedReader [0x01; 0x00; 0; 0; 7])
  = Raise StructError.
Proof.
  apply (proj1 (readObject_short_payload example_hashable example_eq
                                         example_members [0; 0; 7])).
  cbn. lia.
Defined.

(** ** Length prefixes the reader does not check *)



(** ** The value flag, through the dispatch *)

(** X14: with the value flag 0x01 every handler that starts with the flag
    check returns None and leaves the payload, if there is one, unread; the
    one exception is a set, where the None goes into set() and TypeError is
    raised. *)
Theorem null_flag_read :
  forall py_hashable py_eq enum_members (rest : list Z),
    (forall (t : DataType) (cls : handler),
        getitem DataType_eqb deserializers t = Some cls ->
        cls <> TinkerGraphIO -> cls <> LambdaIO -> cls <> PIO ->
        cls <> TextPIO -> cls <> SetIO ->
        readObject py_hashable py_eq enum_members
                   (BufferedReader (DataType_value t :: 0x01 :: rest))
        = Ok (VNone, rest)) /\
    readObject py_hashable py_eq enum_members
               (BufferedReader (DataType_value dt_set :: 0x01 :: rest))
    = Raise TypeError.
Proof.
  intros h e m rest. split; [|reflexivity].
  intros t cls Hd H1 H2 H3 H4 H5.
  destruct t; vm_compute in Hd; try discriminate Hd;
    injection Hd as <-;
    try (now elim H1); try (now elim H2); try (now elim H3);
      try (now elim H4); try (now elim H5); reflexivity.
Qed.

Lemma null_flag_read_witness :
  readObject example_hashable example_eq example_members
             (BufferedReader (DataType_value dt_vertex :: 0x01 :: [1; 2]))
  = Ok (VNone, [1; 2]).
Proof.
  apply (proj1 (null_flag_read example_hashable example_eq example_members
                               [1; 2]) dt_vertex VertexIO);
    [reflexivity | discriminate | discriminate | discriminate | discriminate
     | discriminate].
Defined.

(** ** Reading back in a stream *)

Lemma supported_writes h e m (v : value) (ba : list Z) :
  supported h e m v -> toDict h e v = Ok (VByteArray ba) -> encodes h e m v ba.
Proof.
  intros Hs Hw. destruct (supported_encodes h e m v Hs) as [ba' Hba'].
  destruct Hba' as [Hw' H']. rewrite Hw in Hw'. injection Hw' as ->.
  split; [exact Hw | exact H'].
Qed.

Lemma readObject_enc h e m (v : value) (ba rest : list Z) :
  encodes h e m v ba ->
  readObject h e m (BufferedReader (ba ++ rest)) = Ok (decoded v, rest).
Proof.
  intros Hv. unfold readObject. apply (read_enc h e m v ba); [exact Hv|].
  rewrite length_app. lia.
Qed.

(** X15: what the writer returns for a supported value is read back from the
    front of any buffer that starts with it: the reader returns the decoded
    value (the value itself, but a long as the int of the same value and an
    edge as _read_edge builds it) and leaves exactly the bytes that follow,
    so values written one after the other are read back one after the
    other. *)
Theorem readObject_stream :
  forall py_hashable py_eq enum_members (v : value),
    supported py_hashable py_eq enum_members v ->
    exists ba,
      writeObject py_hashable py_eq v = Ok (VByteArray ba) /\
      forall rest,
        readObject py_hashable py_eq enum_members (BufferedReader (ba ++ rest))
        = Ok (decoded v, rest).
Proof.
  intros h e m v Hs. destruct (supported_encodes h e m v Hs) as [ba Hba].
  exists ba. split; [exact (proj1 Hba)|].
  intros rest. now apply readObject_enc.
Qed.

Lemma readObject_stream_witness :
  exists ba,
    writeObject example_hashable example_eq (VList [VInt 1; VLong 2])
    = Ok (VByteArray ba) /\
    forall rest,
      readObject example_hashable example_eq example_members
                 (BufferedReader (ba ++ rest))
      = Ok (decoded (VList [VInt 1; VLong 2]), rest).
Proof.
  apply readObject_stream.
  apply sup_list; [|cbn; lia].
  repeat constructor; lia.
Defined.

(** ** Integers *)

(** X16: IntIO writes with LongIO's method and the format ">i": an int
    within 32 bits gives the code 0x01, the flag and four bytes; an int
    beyond 32 bits but within 64 is not promoted to a long, struct.pack
    raises; beyond 64 bits LongIO's own exception is raised. *)
Theorem IntIO_dictify_range :
  forall py_hashable py_eq (z : Z),
    (- 2 ^ 31 <= z <= 2 ^ 31 - 1 ->
     writeObject py_hashable py_eq (VInt z)
     = Ok (VByteArray (0x01 :: 0x00 :: be_bytes 4 z))) /\
    ((- 2 ^ 63 <= z < - 2 ^ 31 \/ 2 ^ 31 - 1 < z <= 2 ^ 63 - 1) ->
     writeObject py_hashable py_eq (VInt z) = Raise StructError) /\
    ((z < - 2 ^ 63 \/ 2 ^ 63 - 1 < z) ->
     writeObject py_hashable py_eq (VInt z)
     = Raise (Exception "TODO: don't forget bigint")).
Proof.
  intros h e z. unfold writeObject.
  rewrite (toDict_registered h e (VInt z) IntIO eq_refl).
  cbn [dictify]. unfold LongIO_dictify. cbn [as_int byte_format].
  split; [|split]; intros Hz.
  - replace ((z <? -9223372036854775808) || (z >? 9223372036854775807))
      with false by (symmetry; apply orb_false_iff; lia).
    rewrite struct_pack_in_range by (cbn; lia). reflexivity.
  - replace ((z <? -9223372036854775808) || (z >? 9223372036854775807))
      with false by (symmetry; apply orb_false_iff; lia).
    unfold struct_pack.
    replace ((z <? fmt_min fmt_i) || (fmt_max fmt_i <? z)) with true;
      [reflexivity|].
    symmetry. apply orb_true_iff. cbn. lia.
  - replace ((z <? -9223372036854775808) || (z >? 9223372036854775807))
      with true; [reflexivity|].
    symmetry. apply orb_true_iff. lia.
Qed.

Lemma IntIO_dictify_range_witness :
  writeObject example_hashable example_eq (VInt (2 ^ 40)) = Raise StructError.
Proof.
  apply (proj1 (proj2 (IntIO_dictify_range example_hashable example_eq
                                           (2 ^ 40)))).
  right. lia.
Defined.

(** X17: a long beyond 32 bits does not survive a second trip: it is written
    as a long and read back as a plain int of the same value, and that int
    the writer refuses. *)
Theorem long_read_back_as_int :
  forall py_hashable py_eq enum_members (z : Z),
    - 2 ^ 63 <= z <= 2 ^ 63 - 1 ->
    z < - 2 ^ 31 \/ 2 ^ 31 - 1 < z ->
    exists ba,
      writeObject py_hashable py_eq (VLong z) = Ok (VByteArray ba) /\
      readObject py_hashable py_eq enum_members (Object (VByteArray ba))
      = Ok (VInt z, []) /\
      writeObject py_hashable py_eq (VInt z) = Raise StructError.
Proof.
  intros h e m z Hz Hbig.
  pose proof (encodes_long h e m z Hz) as Hl.
  eexists. split; [exact (proj1 Hl)|]. split.
  - rewrite readObject_bytearray.
    rewrite <- (app_nil_r (2 :: 0 :: be_bytes 8 z)).
    now rewrite (readObject_enc h e m (VLong z)).
  - unfold writeObject.
    rewrite (toDict_registered h e (VInt z) IntIO eq_refl).
    cbn [dictify]. unfold LongIO_dictify. cbn [as_int byte_format].
    replace ((z <? -9223372036854775808) || (z >? 9223372036854775807))
      with false by (symmetry; apply orb_false_iff; lia).
    unfold struct_pack.
    replace ((z <? fmt_min fmt_i) || (fmt_max fmt_i <? z)) with true;
      [reflexivity|].
    symmetry. apply orb_true_iff. cbn. lia.
Qed.

Lemma long_read_back_as_int_witness :
  exists ba,
    writeObject example_hashable example_eq (VLong (2 ^ 40))
    = Ok (VByteArray ba) /\
    readObject example_hashable example_eq example_members
               (Object (VByteArray ba))
    = Ok (VInt (2 ^ 40), []) /\
    writeObject example_hashable example_eq (VInt (2 ^ 40)) = Raise StructError.
Proof. apply long_read_back_as_int; lia. Defined.

(** X18: the one-byte payloads are read as signed bytes: a boolean is True
    for the payload 0x01 and False for every other byte, 0xff included; a
    SingleByte from 0x80 on comes back negative. *)
Theorem single_byte_payloads :
  forall py_hashable py_eq enum_members (b : Z) (rest : list Z),
    0 <= b <= 255 ->
    readObject py_hashable py_eq enum_members
               (BufferedReader (0x27 :: 0x00 :: b :: rest))
    = Ok (VBool (b =? 1), rest) /\
    readObject py_hashable py_eq enum_members
               (BufferedReader (0x24 :: 0x00 :: b :: rest))
    = Ok (VByte (if b <? 128 then b else b - 256), rest).
Proof.
  intros h e m b rest Hb.
  assert (Hu : struct_unpack fmt_b [b]
               = Ok (if b <? 128 then b else b - 256)).
  { unfold struct_unpack. cbn [List.length fmt_size Nat.eqb].
    unfold to_signed, be_unsigned. cbn [fold_left].
    change (2 ^ (8 * Z.of_nat 1 - 1)) with 128.
    change (2 ^ (8 * Z.of_nat 1)) with 256.
    replace (0 * 256 + b) with b by lia. reflexivity. }
  split; unfold readObject.
  - change 0x27 with (DataType_value dt_boolean).
    rewrite (toObject_code h e m dt_boolean BooleanIO) by reflexivity.
    cbn [objectify]. unfold BooleanIO_objectify.
    rewrite is_null_nonnull. unfold rd_bind. rewrite rd_read_1.
    unfold rd_lift. rewrite Hu. cbn [bind]. unfold rd_ret.
    do 3 f_equal.
    destruct (Z.ltb_spec b 128); destruct (Z.eqb_spec b 1);
      destruct (Z.eqb_spec (b - 256) 1); destruct (Z.eqb_spec b 1);
        try reflexivity; lia.
  - change 0x24 with (DataType_value dt_byte).
    rewrite (toObject_code h e m dt_byte ByteIO) by reflexivity.
    cbn [objectify]. unfold ByteIO_objectify.
    rewrite is_null_nonnull. unfold rd_bind. rewrite rd_read_1.
    unfold rd_lift. rewrite Hu. reflexivity.
Qed.

Lemma single_byte_payloads_witness :
  readObject example_hashable example_eq example_members
             (BufferedReader [0x27; 0x00; 0xff])
  = Ok (VBool false, []).
Proof.
  refine (proj1 (single_byte_payloads example_hashable example_eq
                                      example_members 0xff [] _)).
  lia.
Defined.

(** ** Elements *)

(** X19: an edge comes back with its endpoints exchanged.  The writer puts
    the in-vertex before the out-vertex; _read_edge hands the vertex it
    reads first to Edge as the out-vertex and the second as the
    in-vertex. *)
Theorem edge_endpoints_exchanged :
  forall py_hashable py_eq enum_members (id outV_id inV_id : value)
         (label outV_label inV_label : pystr),
    supported py_hashable py_eq enum_members
              (VEdge id outV_id outV_label label inV_id inV_label) ->
    exists ba,
      writeObject py_hashable py_eq
                  (VEdge id outV_id outV_label label inV_id inV_label)
      = Ok (VByteArray ba) /\
      readObject py_hashable py_eq enum_members (Object (VByteArray ba))
      = Ok (VEdge (decoded id) (decoded inV_id) inV_label label
                  (decoded outV_id) outV_label, []).
Proof.
  intros h e m id o i l ol il Hs.
  destruct (supported_encodes h e m _ Hs) as [ba Hba].
  exists ba. split; [exact (proj1 Hba)|].
  rewrite readObject_bytearray, <- (app_nil_r ba).
  now rewrite (readObject_enc h e m _ ba [] Hba).
Qed.

Lemma edge_endpoints_exchanged_witness :
  exists ba,
    writeObject example_hashable example_eq
                (VEdge (VInt 7) (VInt 1) (of_string "person")
                       (of_string "knows") (VInt 2) (of_string "dog"))
    = Ok (VByteArray ba) /\
    readObject example_hashable example_eq example_members
               (Object (VByteArray ba))
    = Ok (VEdge (decoded (VInt 7)) (decoded (VInt 2)) (of_string "dog")
                (of_string "knows") (decoded (VInt 1)) (of_string "person"),
          []).
Proof.
  apply edge_endpoints_exchanged.
  apply sup_edge; try (apply sup_int; lia);
    (split; [repeat constructor; lia | cbn; lia]).
Defined.

Lemma rd_read_1_any (tail : list Z) :
  rd_read 1 tail = Ok (firstn 1 tail, skipn 1 tail).
Proof. reflexivity. Qed.

Lemma rd_read_2_any (tail : list Z) :
  rd_read 2 tail = Ok (firstn 2 tail, skipn 2 tail).
Proof. reflexivity. Qed.

(** X20: the reserved slots that close an element are skipped without a
    look.  Whatever stands there, and also when the input ends before
    them, the reader returns the element: a vertex and a property skip one
    byte, a vertex property two, an edge two. *)
Theorem reserved_slots_unchecked :
  forall py_hashable py_eq enum_members (id val : value) (bid bval : list Z)
         (label key : pystr) (tail : list Z),
    supported py_hashable py_eq enum_members id ->
    supported py_hashable py_eq enum_members val ->
    writeObject py_hashable py_eq id = Ok (VByteArray bid) ->
    writeObject py_hashable py_eq val = Ok (VByteArray bval) ->
    raw_string label -> raw_string key ->
    readObject py_hashable py_eq enum_members
               (BufferedReader (0x11 :: 0x00 :: bid ++ raw label ++ tail))
    = Ok (VVertex (decoded id) label, skipn 1 tail) /\
    readObject py_hashable py_eq enum_members
               (BufferedReader (0x0f :: 0x00 :: raw key ++ bval ++ tail))
    = Ok (VProperty key (decoded val), skipn 1 tail) /\
    readObject py_hashable py_eq enum_members
               (BufferedReader (0x12 :: 0x00 :: bid ++ raw label ++ bval
                                     ++ tail))
    = Ok (VVertexProperty (decoded id) label (decoded val), skipn 2 tail) /\
    readObject py_hashable py_eq enum_members
               (BufferedReader (0x0d :: 0x00 :: bid ++ raw key ++ bval
                                     ++ raw label ++ bval ++ raw label
                                     ++ tail))
    = Ok (VEdge (decoded id) (decoded val) label key (decoded val) label,
          skipn 2 tail).
Proof.
  intros h e m id val bid bval label key tail Hid Hval Wid Wval Hl Hk.
  pose proof (supported_writes h e m id bid Hid Wid) as Eid.
  pose proof (supported_writes h e m val bval Hval Wval) as Eval.
  unfold readObject. repeat split.
  - change 0x11 with (DataType_value dt_vertex).
    rewrite (toObject_code h e m dt_vertex VertexIO) by reflexivity.
    cbn [objectify]. unfold VertexIO_objectify.
    rewrite is_null_nonnull. unfold _read_vertex, rd_bind.
    rewrite (read_enc h e m id bid _ _ Eid) by fuel_lia.
    rewrite read_string_raw by assumption.
    rewrite rd_read_1_any. reflexivity.
  - change 0x0f with (DataType_value dt_property).
    rewrite (toObject_code h e m dt_property PropertyIO) by reflexivity.
    cbn [objectify]. unfold PropertyIO_objectify.
    rewrite is_null_nonnull. unfold _read_property, rd_bind.
    rewrite read_string_raw by assumption.
    rewrite (read_enc h e m val bval _ _ Eval) by fuel_lia.
    rewrite rd_read_1_any. reflexivity.
  - change 0x12 with (DataType_value dt_vertexproperty).
    rewrite (toObject_code h e m dt_vertexproperty VertexPropertyIO)
      by reflexivity.
    cbn [objectify]. unfold VertexPropertyIO_objectify.
    rewrite is_null_nonnull. unfold _read_vertexproperty, rd_bind.
    rewrite (read_enc h e m id bid _ _ Eid) by fuel_lia.
    rewrite read_string_raw by assumption.
    rewrite (read_enc h e m val bval _ _ Eval) by fuel_lia.
    rewrite rd_read_1_any, rd_read_1_any. unfold rd_ret.
    destruct tail as [|a [|b tail]]; reflexivity.
  - change 0x0d with (DataType_value dt_edge).
    rewrite (toObject_code h e m dt_edge EdgeIO) by reflexivity.
    cbn [objectify]. unfold EdgeIO_objectify.
    rewrite is_null_nonnull. unfold _read_edge, rd_bind.
    rewrite (read_enc h e m id bid _ _ Eid) by fuel_lia.
    rewrite read_string_raw by assumption.
    rewrite (read_enc h e m val bval _ _ Eval) by fuel_lia.
    rewrite read_string_raw by assumption.
    rewrite (read_enc h e m val bval _ _ Eval) by fuel_lia.
    rewrite read_string_raw by assumption.
    rewrite rd_read_2_any. reflexivity.
Qed.

Lemma reserved_slots_unchecked_witness :
  readObject example_hashable example_eq example_members
             (BufferedReader (0x11 :: 0x00 :: [1; 0; 0; 0; 0; 7]
                                   ++ raw (of_string "a") ++ []))
  = Ok (VVertex (decoded (VInt 7)) (of_string "a"), skipn 1 []).
Proof.
  apply (reserved_slots_unchecked example_hashable example_eq example_members
           (VInt 7) (VInt 7) [1; 0; 0; 0; 0; 7] [1; 0; 0; 0; 0; 7]
           (of_string "a") (of_string "a") []);
    try (apply sup_int; lia); try reflexivity;
      (split; [repeat constructor; lia | cbn; lia]).
Defined.

(** ** Counts *)

Lemma supported_all_encode h e m (l : list value) :
  Forall (supported h e m) l -> exists bas, Forall2 (encodes h e m) l bas.
Proof.
  intros Hl. apply (Forall2_of_Forall (supported h e m)); [|exact Hl].
  apply Forall_forall. intros x _. apply supported_encodes.
Qed.

Lemma _read_list_loop_more h e m (fuel : nat) (l : list value)
      (bas : list (list Z)) :
  Forall2 (encodes h e m) l bas ->
  (List.length (List.concat bas) < fuel)%nat ->
  forall n k acc rest,
    0 <= k ->
    _read_list_loop (toObject h e m fuel) (List.length l + n) (len l + k) acc
                    (List.concat bas ++ rest)
    = _read_list_loop (toObject h e m fuel) n k (acc ++ map decoded l) rest.
Proof.
  induction 1 as [|x bx l bas Hx _ IH]; intros Hf n k acc rest Hk.
  - cbn [List.length List.concat map app Nat.add]. unfold len.
    cbn [List.length]. now rewrite app_nil_r.
  - cbn [List.length Nat.add _read_list_loop].
    replace (len (x :: l) + k >? 0) with true
      by (symmetry; apply Z.gtb_lt; unfold len; cbn [List.length]; lia).
    replace (len (x :: l) + k - 1) with (len l + k)
      by (unfold len; cbn [List.length]; lia).
    unfold rd_bind at 1. cbn [List.concat] in *. rewrite <- app_assoc.
    rewrite (read_enc h e m x bx fuel _ Hx) by fuel_lia.
    rewrite IH by (try fuel_lia; lia).
    cbn [map]. now rewrite <- app_assoc.
Qed.

(** X21: the count of a list is not checked against the data.  A count of
    zero or less gives the empty list and leaves what follows unread; a
    count larger than the number of elements present makes the reader
    raise IndexError once the input is exhausted. *)
Theorem list_count_unchecked :
  forall py_hashable py_eq enum_members (n : Z),
    - 2 ^ 31 <= n <= 2 ^ 31 - 1 ->
    (n <= 0 ->
     forall rest,
       readObject py_hashable py_eq enum_members
                  (BufferedReader (0x09 :: 0x00 :: be_bytes 4 n ++ rest))
       = Ok (VList [], rest)) /\
    (forall (l : list value) (payload : list Z),
        Forall (supported py_hashable py_eq enum_members) l ->
        writeObject py_hashable py_eq (VList l)
        = Ok (VByteArray (0x09 :: 0x00 :: be_bytes 4 (len l) ++ payload)) ->
        len l < n ->
        readObject py_hashable py_eq enum_members
                   (BufferedReader (0x09 :: 0x00 :: be_bytes 4 n ++ payload))
        = Raise IndexError).
Proof.
  intros h e m n Hn. split.
  - intros Hle rest. unfold readObject.
    change 0x09 with (DataType_value dt_list).
    rewrite (toObject_code h e m dt_list ListIO) by reflexivity.
    cbn [objectify]. unfold ListIO_objectify.
    rewrite is_null_nonnull. unfold _read_list, rd_bind.
    rewrite read_int_be by exact Hn.
    cbn [List.length _read_list_loop].
    replace (n >? 0) with false
      by (symmetry; rewrite Z.gtb_ltb; apply Z.ltb_ge; lia).
    reflexivity.
  - intros l payload Hl Hw Hlt.
    destruct (supported_all_encode h e m l Hl) as [bas Hbas].
    assert (Hlen : len l <= 2147483647) by lia.
    pose proof (encodes_list h e m l bas Hbas Hlen) as [Hw' _].
    unfold writeObject in Hw. rewrite Hw in Hw'.
    injection Hw' as Hp. subst payload.
    unfold readObject.
    change 0x09 with (DataType_value dt_list).
    rewrite (toObject_code h e m dt_list ListIO) by reflexivity.
    cbn [objectify]. unfold ListIO_objectify.
    rewrite is_null_nonnull.
    pose proof (encodes_count h e m l bas Hbas) as Hc.
    remember (List.length (DataType_value dt_list :: 0 :: be_bytes 4 n
                                          ++ List.concat bas)) as F eqn:HF.
    assert (HF' : F = (6 + List.length (List.concat bas))%nat)
      by (subst F; cbn [List.length];
          rewrite length_app, be_bytes_length; lia).
    clear HF.
    unfold _read_list. unfold rd_bind at 1.
    rewrite <- (app_nil_r (List.concat bas)).
    rewrite read_int_be by exact Hn.
    unfold rd_bind at 1.
    pose proof (_read_list_loop_more h e m F l bas Hbas ltac:(lia)
                                     (F - List.length l)%nat (n - len l)
                                     [] [] ltac:(lia)) as HM.
    replace (List.length l + (F - List.length l))%nat with F in HM by lia.
    replace (len l + (n - len l)) with n in HM by lia.
    rewrite HM.
    destruct (F - List.length l)%nat as [|k] eqn:Hk; [lia|].
    cbn [_read_list_loop].
    replace (n - len l >? 0) with true by (symmetry; apply Z.gtb_lt; lia).
    destruct F as [|F]; [lia|]. reflexivity.
Qed.

Lemma list_count_unchecked_witness :
  readObject example_hashable example_eq example_members
             (BufferedReader (0x09 :: 0x00 :: be_bytes 4 3
                                   ++ [1; 0; 0; 0; 0; 7]))
  = Raise IndexError.
Proof.
  refine (proj2 (list_count_unchecked example_hashable example_eq
                                      example_members 3 _)
                [VInt 7] [1; 0; 0; 0; 0; 7] _ _ _).
  - lia.
  - repeat constructor; lia.
  - reflexivity.
  - cbn. lia.
Defined.

(** ** Enum tokens, there and back *)

(** X22: unmangling is idempotent: no unmangled form is itself a mangled
    form of the table. *)
Theorem unmangleKeyword_idempotent :
  forall name : pystr,
    unmangleKeyword (unmangleKeyword name) = unmangleKeyword name.
Proof.
  intros name. rewrite (unmangleKeyword_spec name).
  destruct (existsb (pystr_eqb name) (map of_string mangled_forms)) eqn:Hm.
  - apply existsb_exists in Hm. destruct Hm as [x [Hin Hx]].
    apply pystr_eqb_eq in Hx. subst x.
    cbn [map mangled_forms] in Hin.
    repeat (destruct Hin as [<- | Hin]; [reflexivity|]).
    contradiction.
  - now rewrite unmangleKeyword_spec, Hm.
Qed.

(** X23: what comes back for an enum member is decided by its unmangled
    name, the one on the wire: the reader returns the member of the same
    class that bears that name, and raises KeyError when the class has no
    such member.  Members whose name the writer leaves alone come back as
    themselves. *)
Theorem enum_read_back :
  forall py_hashable py_eq enum_members (c : EnumClass) (name : pystr),
    raw_string (unmangleKeyword name) ->
    exists ba,
      writeObject py_hashable py_eq (VEnum c name) = Ok (VByteArray ba) /\
      readObject py_hashable py_eq enum_members (Object (VByteArray ba))
      = if existsb (pystr_eqb (unmangleKeyword name)) (enum_members c)
        then Ok (VEnum c (unmangleKeyword name), [])
        else Raise KeyError.
Proof.
  intros h e m c name Hs.
  exists (enum_code c :: 0 :: raw (unmangleKeyword name)).
  assert (Hw : forall cls t,
             graphbinary_type cls = Some t ->
             _EnumIO_dictify cls (VEnum c name) false
             = Ok (VByteArray (DataType_value t :: 0
                                 :: raw (unmangleKeyword name)))).
  { intros cls t Ht. unfold _EnumIO_dictify, extend_string.
    rewrite string_as_bytes_raw, Ht by assumption. reflexivity. }
  assert (Hr : forall cls,
             python_type cls = Some (PyEnum c) ->
             _EnumIO_objectify m cls (0 :: raw (unmangleKeyword name) ++ [])
             = if existsb (pystr_eqb (unmangleKeyword name)) (m c)
               then Ok (VEnum c (unmangleKeyword name), [])
               else Raise KeyError).
  { intros cls Hp. unfold _EnumIO_objectify.
    rewrite is_null_nonnull. unfold rd_bind.
    rewrite read_string_raw by assumption.
    unfold rd_lift, enum_getitem. rewrite Hp.
    destruct (existsb _ (m c)); reflexivity. }
  rewrite readObject_bytearray. unfold writeObject, readObject.
  rewrite <- (app_nil_r (raw (unmangleKeyword name))).
  destruct c;
    match goal with
    | |- toDict _ _ (VEnum ?c _) = _ /\ _ =>
      match eval vm_compute in (getitem pytype_eqb serializers (PyEnum c)) with
      | Some ?k =>
        match eval vm_compute in (graphbinary_type k) with
        | Some ?t =>
          rewrite (toDict_registered h e (VEnum c name) k eq_refl);
            change (enum_code c) with (DataType_value t);
            rewrite (toObject_code h e m t k) by reflexivity;
            cbn [dictify objectify]; split;
              [ rewrite app_nil_r; apply Hw; reflexivity
              | apply (Hr k); reflexivity ]
        end
      end
    end.
Qed.

Lemma enum_read_back_witness :
  exists ba,
    writeObject example_hashable example_eq (VEnum T (of_string "id_"))
    = Ok (VByteArray ba) /\
    readObject example_hashable example_eq example_members
               (Object (VByteArray ba))
    = if existsb (pystr_eqb (unmangleKeyword (of_string "id_")))
                 (example_members T)
      then Ok (VEnum T (unmangleKeyword (of_string "id_")), [])
      else Raise KeyError.
Proof.
  apply enum_read_back. split; [repeat constructor; lia | cbn; lia].
Defined.

(** ** None and unhashable keys inside a value *)

Lemma extend_objects_app w (l1 l2 : list value) : forall ba,
  extend_objects w ba (l1 ++ l2)
  = bind (extend_objects w ba l1) (fun ba' => extend_objects w ba' l2).
Proof.
  induction l1 as [|x l1 IH]; intros ba; cbn [app extend_objects bind];
    [reflexivity|].
  destruct (extend_object w ba x); cbn [bind]; [apply IH | | |]; reflexivity.
Qed.

(** X24: None inside a value cannot be written.  The writer returns None for
    None, and the handler that extends its bytearray with that result raises
    TypeError: so for a list with None among its items, whatever stands
    before or behind it, and for a property whose value is None. *)
Theorem none_inside_raises :
  forall py_hashable py_eq enum_members (l1 l2 : list value) (key : pystr),
    Forall (supported py_hashable py_eq enum_members) l1 ->
    raw_string key ->
    writeObject py_hashable py_eq (VList (l1 ++ VNone :: l2)) = Raise TypeError
    /\
    writeObject py_hashable py_eq (VProperty key VNone) = Raise TypeError.
Proof.
  intros h e m l1 l2 key Hl Hk. unfold writeObject. split.
  - destruct (supported_all_encode h e m l1 Hl) as [bas Hbas].
    rewrite (toDict_registered h e (VList _) ListIO eq_refl).
    cbn [dictify]. unfold ListIO_dictify.
    rewrite extend_objects_app.
    rewrite (extend_objects_enc h e m l1 bas Hbas). reflexivity.
  - rewrite (toDict_registered h e (VProperty key VNone) PropertyIO eq_refl).
    cbn [dictify]. unfold PropertyIO_dictify.
    rewrite extend_string_raw by assumption. reflexivity.
Qed.

Lemma none_inside_raises_witness :
  writeObject example_hashable example_eq (VList ([VInt 1] ++ VNone :: []))
  = Raise TypeError.
Proof.
  refine (proj1 (none_inside_raises example_hashable example_eq
                                    example_members [VInt 1] []
                                    (of_string "k") _ _)).
  - repeat constructor; lia.
  - split; [repeat constructor; lia | cbn; lia].
Defined.

(** X25: a dict whose first key decodes to an object that cannot be hashed
    (a list, a set, a dict) cannot be read: the_dict[k] = v raises
    TypeError, whatever the count and the entries behind. *)
Theorem map_unhashable_key :
  forall py_hashable py_eq enum_members (k v : value) (bk bv : list Z)
         (n : Z) (rest : list Z),
    supported py_hashable py_eq enum_members k ->
    supported py_hashable py_eq enum_members v ->
    writeObject py_hashable py_eq k = Ok (VByteArray bk) ->
    writeObject py_hashable py_eq v = Ok (VByteArray bv) ->
    py_hashable (decoded k) = false ->
    1 <= n <= 2 ^ 31 - 1 ->
    readObject py_hashable py_eq enum_members
               (BufferedReader (0x0a :: 0x00 :: be_bytes 4 n ++ bk ++ bv
                                     ++ rest))
    = Raise TypeError.
Proof.
  intros h e m k v bk bv n rest Hk Hv Wk Wv Hh Hn.
  pose proof (supported_writes h e m k bk Hk Wk) as Ek.
  pose proof (supported_writes h e m v bv Hv Wv) as Ev.
  unfold readObject.
  change 0x0a with (DataType_value dt_map).
  rewrite (toObject_code h e m dt_map MapIO) by reflexivity.
  cbn [objectify]. unfold MapIO_objectify.
  rewrite is_null_nonnull. unfold _read_map. unfold rd_bind at 1.
  rewrite read_int_be by lia.
  cbn [List.length _read_map_loop].
  replace (n >? 0) with true by (symmetry; apply Z.gtb_lt; lia).
  unfold rd_bind.
  rewrite (read_enc h e m k bk _ _ Ek) by fuel_lia.
  rewrite (read_enc h e m v bv _ _ Ev) by fuel_lia.
  unfold rd_lift, dict_setitem. rewrite Hh. reflexivity.
Qed.

Lemma map_unhashable_key_witness :
  readObject example_hashable example_eq example_members
             (BufferedReader (0x0a :: 0x00 :: be_bytes 4 1
                                   ++ [9; 0; 0; 0; 0; 0]
                                   ++ [1; 0; 0; 0; 0; 7] ++ []))
  = Raise TypeError.
Proof.
  apply (map_unhashable_key example_hashable example_eq example_members
                            (VList []) (VInt 7));
    try reflexivity; try lia.
  - apply sup_list; [constructor | cbn; lia].
  - apply sup_int. lia.
Defined.

(** ** Predicates *)

(** X26: the layout of a predicate.  After the type code (0x1e for P, 0x28
    for TextP) come the operator as a raw string, the number of arguments
    as an i32, and the arguments as the writer returns them: one, the
    value, when other is None, else two, the value and other.  No value flag
    is written. *)
Theorem P_dictify_layout :
  forall py_hashable py_eq (operator : pystr) (val : value) (bv : list Z),
    raw_string operator ->
    writeObject py_hashable py_eq val = Ok (VByteArray bv) ->
    writeObject py_hashable py_eq (VP operator val VNone)
    = Ok (VByteArray (0x1e :: raw operator ++ [0; 0; 0; 1] ++ bv)) /\
    writeObject py_hashable py_eq (VTextP operator val VNone)
    = Ok (VByteArray (0x28 :: raw operator ++ [0; 0; 0; 1] ++ bv)) /\
    forall (other : value) (bo : list Z),
      writeObject py_hashable py_eq other = Ok (VByteArray bo) ->
      writeObject py_hashable py_eq (VP operator val other)
      = Ok (VByteArray (0x1e :: raw operator ++ [0; 0; 0; 2] ++ bv ++ bo)) /\
      writeObject py_hashable py_eq (VTextP operator val other)
      = Ok (VByteArray (0x28 :: raw operator ++ [0; 0; 0; 2] ++ bv ++ bo)).
Proof.
  intros h e op val bv Hop Wv. unfold writeObject in *.
  assert (H1 : forall cls t,
             graphbinary_type cls = Some t ->
             P_dictify_body (toDict h e) cls op val VNone false
             = Ok (VByteArray (DataType_value t :: raw op ++ [0; 0; 0; 1]
                                               ++ bv))).
  { intros cls t Ht. unfold P_dictify_body. rewrite Ht.
    rewrite extend_string_raw by assumption. cbn [bind].
    rewrite Wv. cbn [bind]. change (len [VByteArray bv]) with 1.
    change (struct_pack fmt_i 1) with (@Ok (list Z) [0; 0; 0; 1]).
    cbn [bind extend_each bytearray_extend app].
    now rewrite <- app_assoc. }
  assert (H2 : forall cls t other bo,
             graphbinary_type cls = Some t ->
             toDict h e other = Ok (VByteArray bo) ->
             P_dictify_body (toDict h e) cls op val other false
             = Ok (VByteArray (DataType_value t :: raw op ++ [0; 0; 0; 2]
                                               ++ bv ++ bo))).
  { intros cls t other bo Ht Wo. unfold P_dictify_body. rewrite Ht.
    rewrite extend_string_raw by assumption. cbn [bind].
    assert (Ha : match other with
                 | VNone => a <- toDict h e val ;; Ok [a]
                 | _ => a <- toDict h e val ;; b <- toDict h e other ;;
                        Ok [a; b]
                 end = Ok [VByteArray bv; VByteArray bo]).
    { destruct other; try (rewrite Wv, Wo; reflexivity).
      discriminate Wo. }
    rewrite Ha. cbn [bind].
    change (len [VByteArray bv; VByteArray bo]) with 2.
    change (struct_pack fmt_i 2) with (@Ok (list Z) [0; 0; 0; 2]).
    cbn [bind extend_each bytearray_extend app].
    now rewrite <- !app_assoc. }
  rewrite (toDict_registered h e (VP op val VNone) PIO eq_refl).
  rewrite (toDict_registered h e (VTextP op val VNone) TextPIO eq_refl).
  cbn [dictify]. unfold PIO_dictify, TextPIO_dictify.
  split; [apply (H1 PIO dt_p eq_refl)|].
  split; [apply (H1 TextPIO dt_textp eq_refl)|].
  intros other bo Wo.
  rewrite (toDict_registered h e (VP op val other) PIO eq_refl).
  rewrite (toDict_registered h e (VTextP op val other) TextPIO eq_refl).
  cbn [dictify]. unfold PIO_dictify, TextPIO_dictify.
  split; [apply (H2 PIO dt_p other bo eq_refl Wo)
         | apply (H2 TextPIO dt_textp other bo eq_refl Wo)].
Qed.

Lemma P_dictify_layout_witness :
  writeObject example_hashable example_eq
              (VP (of_string "gt") (VInt 5) VNone)
  = Ok (VByteArray (0x1e :: raw (of_string "gt") ++ [0; 0; 0; 1]
                         ++ [1; 0; 0; 0; 0; 5])).
Proof.
  apply (P_dictify_layout example_hashable example_eq (of_string "gt")
                          (VInt 5) [1; 0; 0; 0; 0; 5]).
  - split; [repeat constructor; lia | cbn; lia].
  - reflexivity.
Defined.

(** ** The reader moves forward *)

(** X27: a successful read takes at least one byte: what readObject leaves
    of a buffer is shorter than the buffer it was given. *)
Theorem readObject_consumes :
  forall py_hashable py_eq enum_members (buff rest : list Z) (v : value),
    readObject py_hashable py_eq enum_members (BufferedReader buff)
    = Ok (v, rest) ->
    (List.length rest < List.length buff)%nat.
Proof.
  intros h e m buff rest v H. unfold readObject in H.
  destruct (toObject_takes_a_byte h e m (S (List.length buff)) buff) as [_ Ht];
    [lia|].
  exact (Ht v rest H).
Qed.

Lemma readObject_consumes_witness :
  (List.length [9; 9] < List.length [0x01; 0; 0; 0; 0; 7; 9; 9])%nat.
Proof.
  apply (readObject_consumes example_hashable example_eq example_members
                             [0x01; 0; 0; 0; 0; 7; 9; 9] [9; 9] (VInt 7)).
  reflexivity.
Defined.

(** ** BulkSet, as the reader takes it *)

Lemma _read_bulkset_loop_enc h e m (fuel : nat)
      (items : list (value * list Z * Z)) :
  Forall (fun '(v, b, n) =>
            encodes h e m v b /\ - 2 ^ 31 <= n <= 2 ^ 31 - 1) items ->
  (List.length (List.concat (map (fun '(v, b, n) => b ++ be_bytes 4 n) items))
   < fuel)%nat ->
  forall c acc rest,
    (List.length items < c)%nat ->
    _read_bulkset_loop (toObject h e m fuel) c (len items) acc
      (List.concat (map (fun '(v, b, n) => b ++ be_bytes 4 n) items) ++ rest)
    = Ok (acc ++ List.concat
                   (map (fun '(v, b, n) => repeat (decoded v) (Z.to_nat n))
                        items),
          rest).
Proof.
  induction 1 as [|[[v b] n] items [Hv Hn] _ IH]; intros Hf c acc rest Hc;
    (destruct c as [|c]; [cbn in Hc; lia|]); cbn [_read_bulkset_loop].
  - rewrite len_nil_pos. cbn [map List.concat]. now rewrite app_nil_r.
  - rewrite len_cons_pos, len_cons_pred. unfold rd_bind at 1.
    cbn [map List.concat] in *. rewrite <- !app_assoc.
    rewrite (read_enc h e m v b fuel _ Hv) by fuel_lia.
    unfold rd_bind at 1. rewrite read_int_be by exact Hn.
    rewrite IH by (try fuel_lia; cbn in Hc; lia).
    now rewrite <- app_assoc.
Qed.

(** X28: what the reader makes of a bulk set whose bulks stand in four
    bytes, the width it reads them in: the list in which every entry is
    repeated as many times as its bulk says, in the order of the entries
    (an entry with a bulk of zero or less is dropped), and the bytes that
    follow are left unread. *)
Theorem bulkset_expands :
  forall py_hashable py_eq enum_members
         (items : list (value * list Z * Z)) (rest : list Z),
    Forall (fun '(v, b, n) =>
              supported py_hashable py_eq enum_members v /\
              writeObject py_hashable py_eq v = Ok (VByteArray b) /\
              - 2 ^ 31 <= n <= 2 ^ 31 - 1) items ->
    len items <= 2 ^ 31 - 1 ->
    readObject py_hashable py_eq enum_members
      (BufferedReader
         (0x2a :: 0x00 :: be_bytes 4 (len items)
               ++ List.concat (map (fun '(v, b, n) => b ++ be_bytes 4 n) items)
               ++ rest))
    = Ok (VList (List.concat
                   (map (fun '(v, b, n) => repeat (decoded v) (Z.to_nat n))
                        items)),
          rest).
Proof.
  intros h e m items rest Hi Hl.
  assert (He : Forall (fun '(v, b, n) =>
                         encodes h e m v b /\ - 2 ^ 31 <= n <= 2 ^ 31 - 1)
                      items).
  { eapply Forall_impl; [|exact Hi].
    intros [[v b] n] [Hs [Hw Hn]]. split; [|exact Hn].
    now apply supported_writes. }
  assert (Hc : (List.length items
                <= List.length
                     (List.concat
                        (map (fun '(v, b, n) => b ++ be_bytes 4 n) items)))%nat).
  { clear. induction items as [|[[v b] n] items IH];
             cbn [map List.concat List.length]; [lia|].
    rewrite !length_app, be_bytes_length. lia. }
  unfold readObject.
  change 0x2a with (DataType_value dt_bulkset).
  rewrite (toObject_code h e m dt_bulkset BulkSetIO) by reflexivity.
  cbn [objectify]. unfold BulkSetIO_objectify.
  rewrite is_null_nonnull. unfold _read_bulkset. unfold rd_bind at 1.
  rewrite read_int_be by (unfold len in *; lia).
  unfold rd_bind.
  rewrite (_read_bulkset_loop_enc h e m _ items He) by fuel_lia.
  reflexivity.
Qed.

Lemma bulkset_expands_witness :
  readObject example_hashable example_eq example_members
    (BufferedReader
       (0x2a :: 0x00 :: be_bytes 4 (len [(VInt 7, [1; 0; 0; 0; 0; 7], 2)])
             ++ List.concat
                  (map (fun '(v, b, n) => b ++ be_bytes 4 n)
                       [(VInt 7, [1; 0; 0; 0; 0; 7], 2)])
             ++ [5]))
  = Ok (VList (List.concat
                 (map (fun '(v, b, n) => repeat (decoded v) (Z.to_nat n))
                      [(VInt 7, [1; 0; 0; 0; 0; 7], 2)])),
        [5]).
Proof.
  apply bulkset_expands; [|cbn; lia].
  constructor; [|constructor].
  split; [apply sup_int; lia | split; [reflexivity | lia]].
Defined.

(** ** Containers are laid out from what the writer returns for the entries *)

Lemma extend_objects_written (w : value -> result value) (l : list value)
      (bas : list (list Z)) :
  Forall2 (fun x b => w x = Ok (VByteArray b)) l bas ->
  forall ba, extend_objects w ba l = Ok (ba ++ List.concat bas).
Proof.
  induction 1 as [|x bx l bas Hx _ IH]; intros ba;
    cbn [extend_objects List.concat].
  - now rewrite app_nil_r.
  - unfold extend_object. rewrite Hx. cbn [bind bytearray_extend].
    rewrite IH. now rewrite app_assoc.
Qed.

Lemma extend_items_written (w : value -> result value)
      (kvs : list (value * value)) (bas : list (list Z * list Z)) :
  Forall2 (fun kv b => w (fst kv) = Ok (VByteArray (fst b)) /\
                       w (snd kv) = Ok (VByteArray (snd b))) kvs bas ->
  forall ba, extend_items w ba kvs = Ok (ba ++ flat bas).
Proof.
  induction 1 as [|[k x] [bk bx] kvs bas [Hk Hx] _ IH]; intros ba;
    cbn [extend_items flat List.concat map fst snd] in *.
  - now rewrite app_nil_r.
  - unfold extend_object. rewrite Hk. cbn [bind bytearray_extend].
    rewrite Hx. cbn [bind bytearray_extend].
    rewrite IH. unfold flat. now rewrite <- !app_assoc.
Qed.

(** X29: the payload of a container is put together from what the writer
    returns for its entries, whatever they are: after the type code and
    the flag comes the number of entries as an i32, then for a list or a
    set the outputs of the items in iteration order, for a dict the output
    of each key followed by that of its value.  Nothing separates the
    entries and nothing closes the container. *)
Theorem container_layout :
  forall py_hashable py_eq (l : list value) (bas : list (list Z))
         (kvs : list (value * value)) (kbs : list (list Z * list Z)),
    Forall2 (fun x b => writeObject py_hashable py_eq x = Ok (VByteArray b))
            l bas ->
    Forall2 (fun kv b =>
               writeObject py_hashable py_eq (fst kv) = Ok (VByteArray (fst b))
               /\
               writeObject py_hashable py_eq (snd kv) = Ok (VByteArray (snd b)))
            kvs kbs ->
    len l <= 2 ^ 31 - 1 -> len kvs <= 2 ^ 31 - 1 ->
    writeObject py_hashable py_eq (VList l)
    = Ok (VByteArray (0x09 :: 0x00 :: be_bytes 4 (len l) ++ List.concat bas))
    /\
    writeObject py_hashable py_eq (VSet l)
    = Ok (VByteArray (0x0b :: 0x00 :: be_bytes 4 (len l) ++ List.concat bas))
    /\
    writeObject py_hashable py_eq (VMap kvs)
    = Ok (VByteArray (0x0a :: 0x00 :: be_bytes 4 (len kvs) ++ flat kbs)).
Proof.
  intros h e l bas kvs kbs Hl Hkvs Hn Hm. unfold writeObject in *.
  rewrite (toDict_registered h e (VList l) ListIO eq_refl).
  rewrite (toDict_registered h e (VSet l) SetIO eq_refl).
  rewrite (toDict_registered h e (VMap kvs) MapIO eq_refl).
  cbn [dictify]. unfold ListIO_dictify, MapIO_dictify.
  rewrite (extend_objects_written _ l bas Hl).
  rewrite (extend_items_written _ kvs kbs Hkvs).
  cbn [bind app graphbinary_type write_as_value].
  assert (R : forall A (x : list A),
             len x <= 2 ^ 31 - 1 -> - 2 ^ 31 <= len x <= 2 ^ 31 - 1)
    by (intros A x Hx; unfold len in *; lia).
  split; [|split]; apply as_bytes_sized; try (now left); now apply R.
Qed.

Lemma container_layout_witness :
  writeObject example_hashable example_eq
              (VList [VP (of_string "gt") (VInt 5) VNone; VInt 1])
  = Ok (VByteArray
          (0x09 :: 0x00
                :: be_bytes 4 (len [VP (of_string "gt") (VInt 5) VNone; VInt 1])
                ++ List.concat [[0x1e; 0; 0; 0; 2; 103; 116; 0; 0; 0; 1;
                                 1; 0; 0; 0; 0; 5];
                                [1; 0; 0; 0; 0; 1]])).
Proof.
  refine (proj1 (container_layout example_hashable example_eq
                   [VP (of_string "gt") (VInt 5) VNone; VInt 1]
                   [[0x1e; 0; 0; 0; 2; 103; 116; 0; 0; 0; 1;
                     1; 0; 0; 0; 0; 5];
                    [1; 0; 0; 0; 0; 1]]
                   [] [] _ _ _ _)).
  - repeat constructor.
  - constructor.
  - cbn. lia.
  - cbn. lia.
Defined.
